(** * Bounce: the simulation core of the ball-bounce game

    A shallow embedding of [client/utils/gameLogic.ts], [client/types/game.ts]
    and of the reducer and frame loop of the [useGameState] hook.

    JavaScript numbers are embedded as exact rationals ([Q]); equality of
    numbers is therefore stated with [==].  Rounding, [NaN] and the
    infinities are outside the model (a division by zero yields [0] in [Q]).
    [Date.now()] is an input of the functions that read it, and the
    runtime's [Math.PI], [Math.cos] and [Math.sin], which have no rational
    counterpart, are a parameter of the rational model ([MathRuntime]). *)

From Stdlib Require Import QArith Qminmax Qabs Qround.
From Stdlib Require Import List Bool String ZArith Lia Lqa.
Import ListNotations.

Local Open Scope Q_scope.

(** ** Numbers *)

Abbreviation number := Q.

Module Js.
(** The comparison operators of the source, as boolean tests. *)
Definition ltb (a b : number) : bool := negb (Qle_bool b a).
Definition leb (a b : number) : bool := Qle_bool a b.
Definition gtb (a b : number) : bool := ltb b a.
Definition geb (a b : number) : bool := leb b a.
Definition eqb (a b : number) : bool := Qeq_bool a b.

(** [v || 0] on an optional numeric property: an absent property and the
    number zero are both falsy. *)
Definition or0 (v : option number) : number :=
  match v with
  | Some h => if eqb h 0 then 0 else h
  | None => 0
  end.
End Js.

Declare Scope js_scope.
Delimit Scope js_scope with js.
Notation "a <? b" := (Js.ltb a b) (at level 70) : js_scope.
Notation "a <=? b" := (Js.leb a b) (at level 70) : js_scope.
Notation "a >? b" := (Js.gtb a b) (at level 70) : js_scope.
Notation "a >=? b" := (Js.geb a b) (at level 70) : js_scope.
Notation "a =? b" := (Js.eqb a b) (at level 70) : js_scope.
Local Open Scope js_scope.

Definition Math_max (a b : number) : number := Qmax a b.
Definition Math_min (a b : number) : number := Qmin a b.
Definition Math_abs (a : number) : number := Qabs a.
Definition Math_floor (a : number) : number := inject_Z (Qfloor a).

(** ** Types ([client/types/game.ts]) *)

Module GameState.
Inductive t : Type :=
  MENU | AIMING | PLAYING | PAUSED | GAME_OVER | LEVEL_COMPLETE.

Definition eqb (a b : t) : bool :=
  match a, b with
  | MENU, MENU | AIMING, AIMING | PLAYING, PLAYING
  | PAUSED, PAUSED | GAME_OVER, GAME_OVER
  | LEVEL_COMPLETE, LEVEL_COMPLETE => true
  | _, _ => false
  end.
End GameState.

Module BallPosition.
Record t : Type := { x : number; y : number }.
End BallPosition.

Module BallVelocity.
Record t : Type := { vx : number; vy : number }.
End BallVelocity.

Module BallPhysics.
Record t : Type := {
  position : BallPosition.t;
  velocity : BallVelocity.t;
  radius : number;
  gravity : number;
  bounceCoefficient : number;
  maxVelocity : number }.

Definition with_position (p : BallPosition.t) (b : t) : t :=
  {| position := p; velocity := velocity b; radius := radius b;
     gravity := gravity b; bounceCoefficient := bounceCoefficient b;
     maxVelocity := maxVelocity b |}.

Definition with_velocity (v : BallVelocity.t) (b : t) : t :=
  {| position := position b; velocity := v; radius := radius b;
     gravity := gravity b; bounceCoefficient := bounceCoefficient b;
     maxVelocity := maxVelocity b |}.

Definition px (b : t) : number := BallPosition.x (position b).
Definition py (b : t) : number := BallPosition.y (position b).
Definition vx (b : t) : number := BallVelocity.vx (velocity b).
Definition vy (b : t) : number := BallVelocity.vy (velocity b).
End BallPhysics.

Module Platform.
Record t : Type := {
  x : number; y : number; width : number; height : number; speed : number }.

Definition with_x (v : number) (p : t) : t :=
  {| x := v; y := y p; width := width p; height := height p;
     speed := speed p |}.
End Platform.

Module LevelConfig.
Record t : Type := {
  level : number;
  ballSpeed : number;
  platformWidth : number;
  platformSpeed : number;
  gravity : number;
  bounceCoefficient : number;
  targetBounces : number;
  timeLimit : number }.
End LevelConfig.

Module GameConfig.
Record t : Type := {
  canvasWidth : number;
  canvasHeight : number;
  ballRadius : number;
  platformHeight : number;
  platformY : number;
  maxVelocity : number;
  initialBallY : number;
  levels : list LevelConfig.t }.
End GameConfig.

Module CollisionState.
Record t : Type := {
  wall : bool; ceiling : bool; platform : bool; floor : bool;
  hitPosition : option number }.
End CollisionState.

Module ScoreData.
Record t : Type := {
  score : number;
  lives : number;
  level : number;
  highScore : number;
  bounceCount : number;
  timeElapsed : number;
  multiplier : number;
  consecutiveBounces : number;
  comboCount : number }.

(** [Partial<ScoreData>]: every property may be absent. *)
Record partial : Type := {
  p_score : option number;
  p_lives : option number;
  p_level : option number;
  p_highScore : option number;
  p_bounceCount : option number;
  p_timeElapsed : option number;
  p_multiplier : option number;
  p_consecutiveBounces : option number;
  p_comboCount : option number }.

Definition nothing : partial :=
  {| p_score := None; p_lives := None; p_level := None;
     p_highScore := None; p_bounceCount := None; p_timeElapsed := None;
     p_multiplier := None; p_consecutiveBounces := None;
     p_comboCount := None |}.

Definition over {A : Type} (o : option A) (a : A) : A :=
  match o with Some v => v | None => a end.

(** [{ ...s, ...p }] *)
Definition spread (s : t) (p : partial) : t :=
  {| score := over (p_score p) (score s);
     lives := over (p_lives p) (lives s);
     level := over (p_level p) (level s);
     highScore := over (p_highScore p) (highScore s);
     bounceCount := over (p_bounceCount p) (bounceCount s);
     timeElapsed := over (p_timeElapsed p) (timeElapsed s);
     multiplier := over (p_multiplier p) (multiplier s);
     consecutiveBounces :=
       over (p_consecutiveBounces p) (consecutiveBounces s);
     comboCount := over (p_comboCount p) (comboCount s) |}.

Definition with_timeElapsed (v : number) (s : t) : t :=
  {| score := score s; lives := lives s; level := level s;
     highScore := highScore s; bounceCount := bounceCount s;
     timeElapsed := v; multiplier := multiplier s;
     consecutiveBounces := consecutiveBounces s;
     comboCount := comboCount s |}.
End ScoreData.

Module AimData.
Record t : Type := {
  angle : number; power : number;
  startX : number; startY : number; endX : number; endY : number }.

Record partial : Type := {
  p_angle : option number; p_power : option number;
  p_startX : option number; p_startY : option number;
  p_endX : option number; p_endY : option number }.

Definition spread (a : t) (p : partial) : t :=
  {| angle := ScoreData.over (p_angle p) (angle a);
     power := ScoreData.over (p_power p) (power a);
     startX := ScoreData.over (p_startX p) (startX a);
     startY := ScoreData.over (p_startY p) (startY a);
     endX := ScoreData.over (p_endX p) (endX a);
     endY := ScoreData.over (p_endY p) (endY a) |}.
End AimData.

Module InputType.
Inductive t : Type := mouse | touch | keyboard.
End InputType.

Module ControlState.
Record t : Type := {
  inputType : InputType.t;
  isDragging : bool;
  dragStartX : number; dragStartY : number;
  currentX : number; currentY : number;
  platformTargetX : number;
  keyboardLeft : bool; keyboardRight : bool }.

Record partial : Type := {
  p_inputType : option InputType.t;
  p_isDragging : option bool;
  p_dragStartX : option number; p_dragStartY : option number;
  p_currentX : option number; p_currentY : option number;
  p_platformTargetX : option number;
  p_keyboardLeft : option bool; p_keyboardRight : option bool }.

Definition spread (c : t) (p : partial) : t :=
  {| inputType := ScoreData.over (p_inputType p) (inputType c);
     isDragging := ScoreData.over (p_isDragging p) (isDragging c);
     dragStartX := ScoreData.over (p_dragStartX p) (dragStartX c);
     dragStartY := ScoreData.over (p_dragStartY p) (dragStartY c);
     currentX := ScoreData.over (p_currentX p) (currentX c);
     currentY := ScoreData.over (p_currentY p) (currentY c);
     platformTargetX :=
       ScoreData.over (p_platformTargetX p) (platformTargetX c);
     keyboardLeft := ScoreData.over (p_keyboardLeft p) (keyboardLeft c);
     keyboardRight :=
       ScoreData.over (p_keyboardRight p) (keyboardRight c) |}.
End ControlState.

Module PowerUpType.
Inductive t : Type :=
  multi_ball | larger_paddle | slow_mo | shield | score_multiplier
| magnetic_paddle.
End PowerUpType.

Module PowerUp.
Record t : Type := {
  id : string; type : PowerUpType.t;
  x : number; y : number;
  duration : number; startTime : number;
  active : bool; collected : bool }.
End PowerUp.

Module ObstacleType.
Inductive t : Type :=
  static_block | moving_barrier | breakable_brick | speed_boost.
End ObstacleType.

Module Obstacle.
Record t : Type := {
  id : string; type : ObstacleType.t;
  x : number; y : number; width : number; height : number;
  vx : option number; vy : option number;
  health : option number; maxHealth : option number;
  points : option number }.
End Obstacle.

Module DifficultyMode.
Inductive t : Type := easy | normal | hard.
End DifficultyMode.

Module AudioSettings.
Record t : Type := { enabled : bool; volume : number; mute : bool }.

Record partial : Type := {
  p_enabled : option bool; p_volume : option number; p_mute : option bool }.
End AudioSettings.

(** The surface of a bounce event. *)
Module Surface.
Inductive t : Type := platform | wall | ceiling | floor.

Definition is_platform (s : t) : bool :=
  match s with platform => true | _ => false end.
End Surface.

Module GameData.
(** The properties [createInitialGameData] sets, and the two numeric
    power-up properties of the declared type; [createInitialGameData]
    leaves the latter absent ([None]).  The remaining declared properties
    (effects, trails, power-up and obstacle lists, audio) are neither read
    nor written by [useGameState] and are left out. *)
Record t : Type := {
  gameState : GameState.t;
  scoreData : ScoreData.t;
  ballPhysics : BallPhysics.t;
  platform : Platform.t;
  config : GameConfig.t;
  collisionState : CollisionState.t;
  currentLevel : LevelConfig.t;
  levelStartTime : number;
  lastBounceTime : number;
  aimData : AimData.t;
  controlState : ControlState.t;
  shieldBounces : option number;
  magneticRange : option number }.

Definition with_gameState (v : GameState.t) (d : t) : t :=
  {| gameState := v; scoreData := scoreData d;
     ballPhysics := ballPhysics d; platform := platform d;
     config := config d; collisionState := collisionState d;
     currentLevel := currentLevel d; levelStartTime := levelStartTime d;
     lastBounceTime := lastBounceTime d; aimData := aimData d;
     controlState := controlState d; shieldBounces := shieldBounces d;
     magneticRange := magneticRange d |}.

Definition with_scoreData (v : ScoreData.t) (d : t) : t :=
  {| gameState := gameState d; scoreData := v;
     ballPhysics := ballPhysics d; platform := platform d;
     config := config d; collisionState := collisionState d;
     currentLevel := currentLevel d; levelStartTime := levelStartTime d;
     lastBounceTime := lastBounceTime d; aimData := aimData d;
     controlState := controlState d; shieldBounces := shieldBounces d;
     magneticRange := magneticRange d |}.

Definition with_ballPhysics (v : BallPhysics.t) (d : t) : t :=
  {| gameState := gameState d; scoreData := scoreData d;
     ballPhysics := v; platform := platform d;
     config := config d; collisionState := collisionState d;
     currentLevel := currentLevel d; levelStartTime := levelStartTime d;
     lastBounceTime := lastBounceTime d; aimData := aimData d;
     controlState := controlState d; shieldBounces := shieldBounces d;
     magneticRange := magneticRange d |}.

Definition with_platform (v : Platform.t) (d : t) : t :=
  {| gameState := gameState d; scoreData := scoreData d;
     ballPhysics := ballPhysics d; platform := v;
     config := config d; collisionState := collisionState d;
     currentLevel := currentLevel d; levelStartTime := levelStartTime d;
     lastBounceTime := lastBounceTime d; aimData := aimData d;
     controlState := controlState d; shieldBounces := shieldBounces d;
     magneticRange := magneticRange d |}.

Definition with_collisionState (v : CollisionState.t) (d : t) : t :=
  {| gameState := gameState d; scoreData := scoreData d;
     ballPhysics := ballPhysics d; platform := platform d;
     config := config d; collisionState := v;
     currentLevel := currentLevel d; levelStartTime := levelStartTime d;
     lastBounceTime := lastBounceTime d; aimData := aimData d;
     controlState := controlState d; shieldBounces := shieldBounces d;
     magneticRange := magneticRange d |}.

Definition with_currentLevel (v : LevelConfig.t) (d : t) : t :=
  {| gameState := gameState d; scoreData := scoreData d;
     ballPhysics := ballPhysics d; platform := platform d;
     config := config d; collisionState := collisionState d;
     currentLevel := v; levelStartTime := levelStartTime d;
     lastBounceTime := lastBounceTime d; aimData := aimData d;
     controlState := controlState d; shieldBounces := shieldBounces d;
     magneticRange := magneticRange d |}.

Definition with_levelStartTime (v : number) (d : t) : t :=
  {| gameState := gameState d; scoreData := scoreData d;
     ballPhysics := ballPhysics d; platform := platform d;
     config := config d; collisionState := collisionState d;
     currentLevel := currentLevel d; levelStartTime := v;
     lastBounceTime := lastBounceTime d; aimData := aimData d;
     controlState := controlState d; shieldBounces := shieldBounces d;
     magneticRange := magneticRange d |}.

Definition with_lastBounceTime (v : number) (d : t) : t :=
  {| gameState := gameState d; scoreData := scoreData d;
     ballPhysics := ballPhysics d; platform := platform d;
     config := config d; collisionState := collisionState d;
     currentLevel := currentLevel d; levelStartTime := levelStartTime d;
     lastBounceTime := v; aimData := aimData d;
     controlState := controlState d; shieldBounces := shieldBounces d;
     magneticRange := magneticRange d |}.

Definition with_aimData (v : AimData.t) (d : t) : t :=
  {| gameState := gameState d; scoreData := scoreData d;
     ballPhysics := ballPhysics d; platform := platform d;
     config := config d; collisionState := collisionState d;
     currentLevel := currentLevel d; levelStartTime := levelStartTime d;
     lastBounceTime := lastBounceTime d; aimData := v;
     controlState := controlState d; shieldBounces := shieldBounces d;
     magneticRange := magneticRange d |}.

Definition with_controlState (v : ControlState.t) (d : t) : t :=
  {| gameState := gameState d; scoreData := scoreData d;
     ballPhysics := ballPhysics d; platform := platform d;
     config := config d; collisionState := collisionState d;
     currentLevel := currentLevel d; levelStartTime := levelStartTime d;
     lastBounceTime := lastBounceTime d; aimData := aimData d;
     controlState := v; shieldBounces := shieldBounces d;
     magneticRange := magneticRange d |}.
End GameData.

(** [GameAction].  The kinds from [ADD_VISUAL_EFFECT] on have no case in the
    reducer.  [game.ts] does not declare the type of the payload of
    [ADD_VISUAL_EFFECT]; the constructor carries none. *)
Inductive GameAction : Type :=
| START_GAME
| ENTER_AIMING
| LAUNCH_BALL (angle power : number)
| PAUSE_GAME
| RESUME_GAME
| RESET_GAME
| UPDATE_BALL_PHYSICS (payload : BallPhysics.t)
| UPDATE_PLATFORM_POSITION (payload : number)
| UPDATE_SCORE (payload : ScoreData.partial)
| SET_GAME_STATE (payload : GameState.t)
| SET_COLLISION_STATE (payload : CollisionState.t)
| BALL_BOUNCE (surface : Surface.t) (hitPosition : option number)
| LOSE_LIFE
| NEXT_LEVEL
| GAME_OVER
| UPDATE_TIME
| RESET_COMBO
| UPDATE_AIM_DATA (payload : AimData.partial)
| UPDATE_CONTROL_STATE (payload : ControlState.partial)
| ADD_VISUAL_EFFECT
| REMOVE_VISUAL_EFFECT (payload : string)
| UPDATE_BALL_TRAIL (payload : list BallPosition.t)
| SCREEN_SHAKE (intensity duration : number)
| SPAWN_POWERUP (payload : PowerUp.t)
| COLLECT_POWERUP (payload : string)
| ACTIVATE_POWERUP (payload : PowerUp.t)
| DEACTIVATE_POWERUP (payload : string)
| SPAWN_OBSTACLE (payload : Obstacle.t)
| REMOVE_OBSTACLE (payload : string)
| UPDATE_OBSTACLE (payload : Obstacle.t)
| UNLOCK_ACHIEVEMENT (payload : string)
| UPDATE_ACHIEVEMENT_PROGRESS (id : string) (progress : number)
| SET_DIFFICULTY_MODE (payload : DifficultyMode.t)
| UPDATE_AUDIO_SETTINGS (payload : AudioSettings.partial)
| PLAY_SOUND_EFFECT (payload : string)
| ADD_MULTI_BALL (payload : BallPhysics.t)
| REMOVE_MULTI_BALL (payload : string)
| UPDATE_SHIELD_BOUNCES (payload : number)
| SET_MAGNETIC_RANGE (payload : number).

(** ** Game logic ([client/utils/gameLogic.ts]) *)

Definition level_1 : LevelConfig.t :=
  {| LevelConfig.level := 1; LevelConfig.ballSpeed := 8;
     LevelConfig.platformWidth := 100; LevelConfig.platformSpeed := 8;
     LevelConfig.gravity := 9.8; LevelConfig.bounceCoefficient := 0.75;
     LevelConfig.targetBounces := 10; LevelConfig.timeLimit := 60 |}.

Definition createLevelConfigs : list LevelConfig.t :=
  [ level_1;
    {| LevelConfig.level := 2; LevelConfig.ballSpeed := 10;
       LevelConfig.platformWidth := 90; LevelConfig.platformSpeed := 9;
       LevelConfig.gravity := 10; LevelConfig.bounceCoefficient := 0.78;
       LevelConfig.targetBounces := 12; LevelConfig.timeLimit := 55 |};
    {| LevelConfig.level := 3; LevelConfig.ballSpeed := 12;
       LevelConfig.platformWidth := 80; LevelConfig.platformSpeed := 10;
       LevelConfig.gravity := 10.2; LevelConfig.bounceCoefficient := 0.8;
       LevelConfig.targetBounces := 15; LevelConfig.timeLimit := 50 |};
    {| LevelConfig.level := 4; LevelConfig.ballSpeed := 14;
       LevelConfig.platformWidth := 70; LevelConfig.platformSpeed := 11;
       LevelConfig.gravity := 10.5; LevelConfig.bounceCoefficient := 0.82;
       LevelConfig.targetBounces := 18; LevelConfig.timeLimit := 45 |};
    {| LevelConfig.level := 5; LevelConfig.ballSpeed := 16;
       LevelConfig.platformWidth := 60; LevelConfig.platformSpeed := 12;
       LevelConfig.gravity := 10.8; LevelConfig.bounceCoefficient := 0.85;
       LevelConfig.targetBounces := 20; LevelConfig.timeLimit := 40 |} ].

Definition createDefaultGameConfig : GameConfig.t :=
  {| GameConfig.canvasWidth := 800;
     GameConfig.canvasHeight := 600;
     GameConfig.ballRadius := 20;
     GameConfig.platformHeight := 15;
     GameConfig.platformY := 50;
     GameConfig.maxVelocity := 20;
     GameConfig.initialBallY := 0;
     GameConfig.levels := createLevelConfigs |}.

Definition createInitialBallPhysics
    (config : GameConfig.t) (levelConfig : LevelConfig.t) : BallPhysics.t :=
  let initialY :=
    GameConfig.canvasHeight config - GameConfig.platformY config
    - GameConfig.platformHeight config - GameConfig.ballRadius config - 10 in
  {| BallPhysics.position :=
       {| BallPosition.x := GameConfig.canvasWidth config / 2;
          BallPosition.y := initialY |};
     BallPhysics.velocity := {| BallVelocity.vx := 0; BallVelocity.vy := 0 |};
     BallPhysics.radius := GameConfig.ballRadius config;
     BallPhysics.gravity := LevelConfig.gravity levelConfig;
     BallPhysics.bounceCoefficient := LevelConfig.bounceCoefficient levelConfig;
     BallPhysics.maxVelocity := GameConfig.maxVelocity config |}.

Definition createInitialPlatform
    (config : GameConfig.t) (levelConfig : LevelConfig.t) : Platform.t :=
  {| Platform.x := GameConfig.canvasWidth config / 2;
     Platform.y := GameConfig.canvasHeight config - GameConfig.platformY config;
     Platform.width := LevelConfig.platformWidth levelConfig;
     Platform.height := GameConfig.platformHeight config;
     Platform.speed := LevelConfig.platformSpeed levelConfig |}.

Definition createInitialCollisionState : CollisionState.t :=
  {| CollisionState.wall := false; CollisionState.ceiling := false;
     CollisionState.platform := false; CollisionState.floor := false;
     CollisionState.hitPosition := Some 0 |}.

Definition createInitialScoreData : ScoreData.t :=
  {| ScoreData.score := 0;
     ScoreData.lives := 3;
     ScoreData.level := 1;
     ScoreData.highScore := 0;
     ScoreData.bounceCount := 0;
     ScoreData.timeElapsed := 0;
     ScoreData.multiplier := 1;
     ScoreData.consecutiveBounces := 0;
     ScoreData.comboCount := 0 |}.

Definition createInitialAimData (config : GameConfig.t) : AimData.t :=
  let restY :=
    GameConfig.canvasHeight config - GameConfig.platformY config
    - GameConfig.platformHeight config - GameConfig.ballRadius config in
  {| AimData.angle := 45;
     AimData.power := 8;
     AimData.startX := GameConfig.canvasWidth config / 2;
     AimData.startY := restY;
     AimData.endX := GameConfig.canvasWidth config / 2;
     AimData.endY := restY |}.

Definition createInitialControlState : ControlState.t :=
  {| ControlState.inputType := InputType.mouse;
     ControlState.isDragging := false;
     ControlState.dragStartX := 0; ControlState.dragStartY := 0;
     ControlState.currentX := 0; ControlState.currentY := 0;
     ControlState.platformTargetX := 0;
     ControlState.keyboardLeft := false;
     ControlState.keyboardRight := false |}.

Definition clamp (value min max : number) : number :=
  Math_max min (Math_min value max).

(** [updateBallPhysics] updates the [position] and [velocity] objects of its
    argument in place and returns a ball that shares them: the result below
    is at once the returned ball and the new content of the argument. *)
Definition updateBallPhysics
    (ball : BallPhysics.t) (deltaTime : number) : BallPhysics.t :=
  let maxVelocity := BallPhysics.maxVelocity ball in
  (* Apply gravity *)
  let vy1 :=
    BallPhysics.vy ball + BallPhysics.gravity ball * deltaTime * 0.1 in
  (* Update position *)
  let x1 := BallPhysics.px ball + BallPhysics.vx ball * deltaTime in
  let y1 := BallPhysics.py ball + vy1 * deltaTime in
  (* Clamp velocity to maxVelocity *)
  let vx2 := clamp (BallPhysics.vx ball) (- maxVelocity) maxVelocity in
  let vy2 := clamp vy1 (- maxVelocity) maxVelocity in
  BallPhysics.with_velocity {| BallVelocity.vx := vx2; BallVelocity.vy := vy2 |}
    (BallPhysics.with_position
       {| BallPosition.x := x1; BallPosition.y := y1 |} ball).

(** The result of a wall or ceiling check. *)
Module Collision.
Record t : Type := { hit : bool; newVelocity : BallVelocity.t }.
End Collision.

(** The result of the platform check. *)
Module PlatformCollision.
Record t : Type := {
  hit : bool; newVelocity : BallVelocity.t; hitPosition : number }.
End PlatformCollision.

Definition set_x (v : number) (ball : BallPhysics.t) : BallPhysics.t :=
  BallPhysics.with_position
    {| BallPosition.x := v; BallPosition.y := BallPhysics.py ball |} ball.

Definition set_y (v : number) (ball : BallPhysics.t) : BallPhysics.t :=
  BallPhysics.with_position
    {| BallPosition.x := BallPhysics.px ball; BallPosition.y := v |} ball.

(** The collision checks write the corrected coordinate into the ball they
    are given; each returns its result together with the ball as it is after
    the call. *)
Definition checkWallCollision
    (ball : BallPhysics.t) (config : GameConfig.t)
  : Collision.t * BallPhysics.t :=
  let newVelocity := BallPhysics.velocity ball in
  let bounced :=
    {| BallVelocity.vx :=
         BallVelocity.vx newVelocity * - BallPhysics.bounceCoefficient ball;
       BallVelocity.vy := BallVelocity.vy newVelocity |} in
  if BallPhysics.px ball - BallPhysics.radius ball <? 0 then
    ({| Collision.hit := true; Collision.newVelocity := bounced |},
     set_x (BallPhysics.radius ball) ball)
  else if BallPhysics.px ball + BallPhysics.radius ball
          >? GameConfig.canvasWidth config then
    ({| Collision.hit := true; Collision.newVelocity := bounced |},
     set_x (GameConfig.canvasWidth config - BallPhysics.radius ball) ball)
  else
    ({| Collision.hit := false; Collision.newVelocity := newVelocity |}, ball).

Definition checkCeilingCollision (ball : BallPhysics.t)
  : Collision.t * BallPhysics.t :=
  let newVelocity := BallPhysics.velocity ball in
  if BallPhysics.py ball - BallPhysics.radius ball <? 0 then
    ({| Collision.hit := true;
        Collision.newVelocity :=
          {| BallVelocity.vx := BallVelocity.vx newVelocity;
             BallVelocity.vy :=
               BallVelocity.vy newVelocity
               * - BallPhysics.bounceCoefficient ball |} |},
     set_y (BallPhysics.radius ball) ball)
  else
    ({| Collision.hit := false; Collision.newVelocity := newVelocity |}, ball).

Definition checkPlatformCollision
    (ball : BallPhysics.t) (platform : Platform.t)
  : PlatformCollision.t * BallPhysics.t :=
  let newVelocity := BallPhysics.velocity ball in
  let miss :=
    ({| PlatformCollision.hit := false;
        PlatformCollision.newVelocity := newVelocity;
        PlatformCollision.hitPosition := 0 |}, ball) in
  (* Check if ball is within platform's X range *)
  if (BallPhysics.px ball + BallPhysics.radius ball
        >? Platform.x platform - Platform.width platform / 2)
     && (BallPhysics.px ball - BallPhysics.radius ball
        <? Platform.x platform + Platform.width platform / 2)
  then
    (* Check if ball is hitting the top of the platform *)
    if (BallPhysics.py ball + BallPhysics.radius ball
          >? Platform.y platform - Platform.height platform / 2)
       && (BallPhysics.py ball - BallPhysics.radius ball
          <? Platform.y platform + Platform.height platform / 2)
       && (BallPhysics.vy ball >? 0)
    then
      let hitPoint := BallPhysics.px ball - Platform.x platform in
      let hitPosition := hitPoint / (Platform.width platform / 2) in
      ({| PlatformCollision.hit := true;
          PlatformCollision.newVelocity :=
            {| BallVelocity.vx := BallVelocity.vx newVelocity + hitPosition * 2;
               BallVelocity.vy :=
                 BallVelocity.vy newVelocity
                 * - BallPhysics.bounceCoefficient ball |};
          PlatformCollision.hitPosition := hitPosition |},
       set_y (Platform.y platform - Platform.height platform / 2
              - BallPhysics.radius ball) ball)
    else miss
  else miss.

Definition checkFloorCollision
    (ball : BallPhysics.t) (config : GameConfig.t) : bool :=
  BallPhysics.py ball + BallPhysics.radius ball
  >? GameConfig.canvasHeight config.

Definition updatePlatformPosition
    (platform : Platform.t) (targetX : number) (config : GameConfig.t)
  : Platform.t :=
  let halfWidth := Platform.width platform / 2 in
  let minX := halfWidth in
  let maxX := GameConfig.canvasWidth config - halfWidth in
  let newX := clamp targetX (minX + 10) (maxX - 10) in
  Platform.with_x newX platform.

Definition calculateBounceScore
    (surface : Surface.t) (hitPosition multiplier : number) : number :=
  let baseScore := 10 in
  let bonus :=
    if Surface.is_platform surface then
      let centerBonus := Math_max 0 (1 - Math_abs hitPosition) * 5 in
      0 + centerBonus
    else 0 in
  Math_floor ((baseScore + bonus) * multiplier).

Definition calculateComboMultiplier (consecutiveBounces : number) : number :=
  if consecutiveBounces <=? 1 then 1
  else if consecutiveBounces <=? 3 then 1.5
  else if consecutiveBounces <=? 5 then 2
  else if consecutiveBounces <=? 10 then 2.5
  else 3.

Definition calculateTimeBonus (timeElapsed timeLimit : number) : number :=
  let remainingTime := Math_max 0 (timeLimit - timeElapsed) in
  Math_floor (remainingTime * 2).

Definition calculateLevelScore
    (bounceCount targetBounces timeElapsed timeLimit : number) : number :=
  let completionBonus := if bounceCount >=? targetBounces then 100 else 0 in
  let timeBonus := calculateTimeBonus timeElapsed timeLimit in
  completionBonus + timeBonus.

Definition updateScoreData
    (currentScore : ScoreData.t) (bounceScore : number)
    (surface : Surface.t) (hitPosition : number) : ScoreData.t :=
  let newConsecutiveBounces :=
    if Surface.is_platform surface
    then ScoreData.consecutiveBounces currentScore + 1 else 0 in
  let newMultiplier := calculateComboMultiplier newConsecutiveBounces in
  let newComboCount :=
    if newConsecutiveBounces >? ScoreData.consecutiveBounces currentScore
    then ScoreData.comboCount currentScore + 1
    else ScoreData.comboCount currentScore in
  {| ScoreData.score := ScoreData.score currentScore + bounceScore;
     ScoreData.lives := ScoreData.lives currentScore;
     ScoreData.level := ScoreData.level currentScore;
     ScoreData.highScore := ScoreData.highScore currentScore;
     ScoreData.bounceCount := ScoreData.bounceCount currentScore + 1;
     ScoreData.timeElapsed := ScoreData.timeElapsed currentScore;
     ScoreData.multiplier := newMultiplier;
     ScoreData.consecutiveBounces := newConsecutiveBounces;
     ScoreData.comboCount := newComboCount |}.

Definition resetCombo (scoreData : ScoreData.t) : ScoreData.t :=
  {| ScoreData.score := ScoreData.score scoreData;
     ScoreData.lives := ScoreData.lives scoreData;
     ScoreData.level := ScoreData.level scoreData;
     ScoreData.highScore := ScoreData.highScore scoreData;
     ScoreData.bounceCount := ScoreData.bounceCount scoreData;
     ScoreData.timeElapsed := ScoreData.timeElapsed scoreData;
     ScoreData.multiplier := 1;
     ScoreData.consecutiveBounces := 0;
     ScoreData.comboCount := ScoreData.comboCount scoreData |}.

Definition loseLife (scoreData : ScoreData.t) : ScoreData.t :=
  {| ScoreData.score := ScoreData.score scoreData;
     ScoreData.lives := Math_max 0 (ScoreData.lives scoreData - 1);
     ScoreData.level := ScoreData.level scoreData;
     ScoreData.highScore := ScoreData.highScore scoreData;
     ScoreData.bounceCount := ScoreData.bounceCount scoreData;
     ScoreData.timeElapsed := ScoreData.timeElapsed scoreData;
     ScoreData.multiplier := ScoreData.multiplier scoreData;
     ScoreData.consecutiveBounces := ScoreData.consecutiveBounces scoreData;
     ScoreData.comboCount := ScoreData.comboCount scoreData |}.

Definition nextLevel (scoreData : ScoreData.t) : ScoreData.t :=
  {| ScoreData.score := ScoreData.score scoreData;
     ScoreData.lives := ScoreData.lives scoreData;
     ScoreData.level := ScoreData.level scoreData + 1;
     ScoreData.highScore := ScoreData.highScore scoreData;
     ScoreData.bounceCount := 0;
     ScoreData.timeElapsed := 0;
     ScoreData.multiplier := 1;
     ScoreData.consecutiveBounces := 0;
     ScoreData.comboCount := ScoreData.comboCount scoreData |}.

Definition updateHighScore (scoreData : ScoreData.t) : ScoreData.t :=
  {| ScoreData.score := ScoreData.score scoreData;
     ScoreData.lives := ScoreData.lives scoreData;
     ScoreData.level := ScoreData.level scoreData;
     ScoreData.highScore :=
       Math_max (ScoreData.highScore scoreData) (ScoreData.score scoreData);
     ScoreData.bounceCount := ScoreData.bounceCount scoreData;
     ScoreData.timeElapsed := ScoreData.timeElapsed scoreData;
     ScoreData.multiplier := ScoreData.multiplier scoreData;
     ScoreData.consecutiveBounces := ScoreData.consecutiveBounces scoreData;
     ScoreData.comboCount := ScoreData.comboCount scoreData |}.

(** ** The reducer and the frame loop ([useGameState]) *)

(** The trigonometry of the JavaScript runtime, which the rational model
    cannot define; [launchBall] and the reducer take it as a parameter. *)
Class MathRuntime : Type := {
  Math_PI : number;
  Math_cos : number -> number;
  Math_sin : number -> number }.

(** [config.levels[0]]; the configuration built by [createDefaultGameConfig]
    always has a first level. *)
Definition firstLevel (config : GameConfig.t) : LevelConfig.t :=
  hd level_1 (GameConfig.levels config).

Definition createInitialGameData : GameData.t :=
  let config := createDefaultGameConfig in
  let levelConfig := firstLevel config in
  {| GameData.gameState := GameState.MENU;
     GameData.scoreData := createInitialScoreData;
     GameData.ballPhysics := createInitialBallPhysics config levelConfig;
     GameData.platform := createInitialPlatform config levelConfig;
     GameData.config := config;
     GameData.collisionState := createInitialCollisionState;
     GameData.currentLevel := levelConfig;
     GameData.levelStartTime := 0;
     GameData.lastBounceTime := 0;
     GameData.aimData := createInitialAimData config;
     GameData.controlState := createInitialControlState;
     GameData.shieldBounces := None;
     GameData.magneticRange := None |}.

Section Reducer.
Context {runtime : MathRuntime}.

Definition launchBall
    (ball : BallPhysics.t) (angle power : number) (config : GameConfig.t)
  : BallPhysics.t :=
  let launchSpeed := power * (GameConfig.maxVelocity config / 100) in
  let angleRad := (angle * Math_PI) / 180 in
  BallPhysics.with_velocity
    {| BallVelocity.vx := launchSpeed * Math_cos angleRad;
       BallVelocity.vy := - launchSpeed * Math_sin angleRad |}
    ball.

(** The state update that [dispatch action] enqueues, as a function of
    the previous state.  [now] is the value [Date.now()] returns while the
    update runs; the reference [levelStartTimeRef] is only ever read right
    after it was written and is inlined. *)
Definition dispatch
    (now : number) (prev : GameData.t) (action : GameAction) : GameData.t :=
  match action with
  | START_GAME =>
      let config := createDefaultGameConfig in
      let levelConfig := firstLevel config in
      {| GameData.gameState := GameState.AIMING;
         GameData.scoreData := createInitialScoreData;
         GameData.ballPhysics := createInitialBallPhysics config levelConfig;
         GameData.platform := createInitialPlatform config levelConfig;
         GameData.config := config;
         GameData.collisionState := createInitialCollisionState;
         GameData.currentLevel := levelConfig;
         GameData.levelStartTime := now;
         GameData.lastBounceTime := 0;
         GameData.aimData := createInitialAimData config;
         GameData.controlState := createInitialControlState;
         GameData.shieldBounces := GameData.shieldBounces prev;
         GameData.magneticRange := GameData.magneticRange prev |}
  | ENTER_AIMING => GameData.with_gameState GameState.AIMING prev
  | LAUNCH_BALL angle power =>
      GameData.with_levelStartTime now
        (GameData.with_ballPhysics
           (launchBall (GameData.ballPhysics prev) angle power
              (GameData.config prev))
           (GameData.with_gameState GameState.PLAYING prev))
  | PAUSE_GAME => GameData.with_gameState GameState.PAUSED prev
  | RESUME_GAME => GameData.with_gameState GameState.PLAYING prev
  | RESET_GAME =>
      let resetConfig := createDefaultGameConfig in
      let resetLevelConfig := firstLevel resetConfig in
      {| GameData.gameState := GameState.MENU;
         GameData.scoreData := createInitialScoreData;
         GameData.ballPhysics :=
           createInitialBallPhysics resetConfig resetLevelConfig;
         GameData.platform :=
           createInitialPlatform resetConfig resetLevelConfig;
         GameData.config := resetConfig;
         GameData.collisionState := createInitialCollisionState;
         GameData.currentLevel := resetLevelConfig;
         GameData.levelStartTime := 0;
         GameData.lastBounceTime := 0;
         GameData.aimData := createInitialAimData resetConfig;
         GameData.controlState := createInitialControlState;
         GameData.shieldBounces := GameData.shieldBounces prev;
         GameData.magneticRange := GameData.magneticRange prev |}
  | UPDATE_BALL_PHYSICS payload => GameData.with_ballPhysics payload prev
  | UPDATE_PLATFORM_POSITION payload =>
      GameData.with_platform
        (updatePlatformPosition (GameData.platform prev) payload
           (GameData.config prev))
        prev
  | UPDATE_SCORE payload =>
      GameData.with_scoreData
        (ScoreData.spread (GameData.scoreData prev) payload) prev
  | SET_GAME_STATE payload => GameData.with_gameState payload prev
  | SET_COLLISION_STATE payload => GameData.with_collisionState payload prev
  | BALL_BOUNCE surface hitPosition =>
      let bounceScore :=
        calculateBounceScore surface (Js.or0 hitPosition)
          (ScoreData.multiplier (GameData.scoreData prev)) in
      let newScoreData :=
        updateScoreData (GameData.scoreData prev) bounceScore surface
          (Js.or0 hitPosition) in
      GameData.with_lastBounceTime now
        (GameData.with_scoreData newScoreData prev)
  | LOSE_LIFE =>
      let updatedScoreData := loseLife (GameData.scoreData prev) in
      let newGameState :=
        if ScoreData.lives updatedScoreData <=? 0
        then GameState.GAME_OVER else GameState.AIMING in
      GameData.with_ballPhysics
        (createInitialBallPhysics (GameData.config prev)
           (GameData.currentLevel prev))
        (GameData.with_gameState newGameState
           (GameData.with_scoreData updatedScoreData prev))
  | NEXT_LEVEL =>
      match
        find
          (fun level =>
             LevelConfig.level level
             =? ScoreData.level (GameData.scoreData prev) + 1)
          (GameConfig.levels (GameData.config prev))
      with
      | None =>
          GameData.with_scoreData
            (updateHighScore (GameData.scoreData prev))
            (GameData.with_gameState GameState.GAME_OVER prev)
      | Some nextLevelConfig =>
          let nextScoreData := nextLevel (GameData.scoreData prev) in
          {| GameData.gameState := GameState.AIMING;
             GameData.scoreData := nextScoreData;
             GameData.ballPhysics :=
               createInitialBallPhysics (GameData.config prev)
                 nextLevelConfig;
             GameData.platform :=
               createInitialPlatform (GameData.config prev) nextLevelConfig;
             GameData.config := GameData.config prev;
             GameData.collisionState := GameData.collisionState prev;
             GameData.currentLevel := nextLevelConfig;
             GameData.levelStartTime := now;
             GameData.lastBounceTime := 0;
             GameData.aimData := createInitialAimData (GameData.config prev);
             GameData.controlState := GameData.controlState prev;
             GameData.shieldBounces := GameData.shieldBounces prev;
             GameData.magneticRange := GameData.magneticRange prev |}
      end
  | GAME_OVER =>
      GameData.with_scoreData
        (updateHighScore (GameData.scoreData prev))
        (GameData.with_gameState GameState.GAME_OVER prev)
  | UPDATE_TIME =>
      let timeElapsed := (now - GameData.levelStartTime prev) / 1000 in
      GameData.with_scoreData
        (ScoreData.with_timeElapsed timeElapsed (GameData.scoreData prev))
        prev
  | RESET_COMBO =>
      GameData.with_scoreData (resetCombo (GameData.scoreData prev)) prev
  | UPDATE_AIM_DATA payload =>
      GameData.with_aimData
        (AimData.spread (GameData.aimData prev) payload) prev
  | UPDATE_CONTROL_STATE payload =>
      GameData.with_controlState
        (ControlState.spread (GameData.controlState prev) payload) prev
  | _ => prev
  end.

(** The updates enqueued by a list of [dispatch] calls, applied in order. *)
Definition dispatchAll
    (now : number) (actions : list GameAction) (state : GameData.t)
  : GameData.t :=
  fold_left (dispatch now) actions state.

(** The state update of one frame of [gameLoop].  The calls of [dispatch]
    it makes enqueue further updates; they are returned, in the order of
    the calls, next to the state the update itself returns.

    [updateBallPhysics] and the collision checks write into the position
    and velocity objects of [prev.ballPhysics]; where the update returns
    [prev], the ball of that state has the moved position and the
    integrated velocity ([prevBall]). *)
Definition gameLoopUpdate
    (deltaTime now : number) (prev : GameData.t)
  : GameData.t * list GameAction :=
  if negb (GameState.eqb (GameData.gameState prev) GameState.PLAYING)
  then (prev, [])
  else
    let timeElapsed := (now - GameData.levelStartTime prev) / 1000 in
    if timeElapsed >=? LevelConfig.timeLimit (GameData.currentLevel prev)
    then (prev, [LOSE_LIFE])
    else
      let moved := updateBallPhysics (GameData.ballPhysics prev) deltaTime in
      let '(platformCollision, ball1) :=
        checkPlatformCollision moved (GameData.platform prev) in
      let platformHit := PlatformCollision.hit platformCollision in
      let ball1 :=
        if platformHit
        then BallPhysics.with_velocity
               (PlatformCollision.newVelocity platformCollision) ball1
        else ball1 in
      let queue1 :=
        if platformHit
        then [BALL_BOUNCE Surface.platform
                (Some (PlatformCollision.hitPosition platformCollision))]
        else [] in
      let '(wallCollision, ball2) :=
        checkWallCollision ball1 (GameData.config prev) in
      let wallHit := Collision.hit wallCollision in
      let ball2 :=
        if wallHit
        then BallPhysics.with_velocity
               (Collision.newVelocity wallCollision) ball2
        else ball2 in
      let queue2 :=
        if wallHit then [BALL_BOUNCE Surface.wall None; RESET_COMBO]
        else [] in
      let '(ceilingCollision, ball3) := checkCeilingCollision ball2 in
      let ceilingHit := Collision.hit ceilingCollision in
      let ball3 :=
        if ceilingHit
        then BallPhysics.with_velocity
               (Collision.newVelocity ceilingCollision) ball3
        else ball3 in
      let queue3 :=
        if ceilingHit then [BALL_BOUNCE Surface.ceiling None; RESET_COMBO]
        else [] in
      let queue := queue1 ++ queue2 ++ queue3 in
      let prevBall :=
        BallPhysics.with_position (BallPhysics.position ball3) moved in
      let prev' := GameData.with_ballPhysics prevBall prev in
      if checkFloorCollision ball3 (GameData.config prev)
      then (prev', queue ++ [LOSE_LIFE])
      else if ScoreData.bounceCount (GameData.scoreData prev)
              >=? LevelConfig.targetBounces (GameData.currentLevel prev)
      then (prev', queue ++ [NEXT_LEVEL])
      else
        let newCollisionState :=
          {| CollisionState.wall := wallHit;
             CollisionState.ceiling := ceilingHit;
             CollisionState.platform := platformHit;
             CollisionState.floor := false;
             CollisionState.hitPosition :=
               if platformHit
               then Some (PlatformCollision.hitPosition platformCollision)
               else CollisionState.hitPosition
                      (GameData.collisionState prev) |} in
        (GameData.with_scoreData
           (ScoreData.with_timeElapsed timeElapsed
              (GameData.scoreData prev))
           (GameData.with_collisionState newCollisionState
              (GameData.with_ballPhysics ball3 prev)),
         queue).

(** One frame: the loop's own update, then the updates it enqueued. *)
Definition frame
    (deltaTime now : number) (prev : GameData.t) : GameData.t :=
  let '(state, queue) := gameLoopUpdate deltaTime now prev in
  dispatchAll now queue state.

(** [gameLoop currentTime], with the content of [lastTimeRef] as an
    explicit state component: frames shorter than a tenth of the reference
    frame are skipped. *)
Definition gameLoop
    (currentTime now : number) (st : GameData.t * number)
  : GameData.t * number :=
  let '(gameData, lastTime) := st in
  if negb (GameState.eqb (GameData.gameState gameData) GameState.PLAYING)
  then st
  else
    let deltaTime := (currentTime - lastTime) / 16.67 in
    if deltaTime <? 0.1 then (gameData, currentTime)
    else (frame deltaTime now gameData, currentTime).
End Reducer.

(** ** A runtime for closed examples

    [Math.PI] to double precision and low-order Taylor polynomials for the
    cosine and the sine.  Every statement about the reducer below is proved
    for an arbitrary runtime; this one only lets closed examples evaluate. *)
#[export] Instance exampleRuntime : MathRuntime :=
  {| Math_PI := 3.141592653589793;
     Math_cos := fun a => 1 - a * a / 2 + a * a * a * a / 24;
     Math_sin := fun a => a - a * a * a / 6 + a * a * a * a * a / 120 |}.


(** ** One frame, stage by stage

    The intermediate balls and the hit flags of a frame, as [gameLoopUpdate]
    computes them, named so that statements can refer to them. *)

Definition ballAfterPlatform
    (deltaTime : number) (prev : GameData.t) : BallPhysics.t :=
  let moved := updateBallPhysics (GameData.ballPhysics prev) deltaTime in
  let '(platformCollision, ball1) :=
    checkPlatformCollision moved (GameData.platform prev) in
  if PlatformCollision.hit platformCollision
  then BallPhysics.with_velocity
         (PlatformCollision.newVelocity platformCollision) ball1
  else ball1.

Definition ballAfterWall
    (deltaTime : number) (prev : GameData.t) : BallPhysics.t :=
  let '(wallCollision, ball2) :=
    checkWallCollision (ballAfterPlatform deltaTime prev)
      (GameData.config prev) in
  if Collision.hit wallCollision
  then BallPhysics.with_velocity (Collision.newVelocity wallCollision) ball2
  else ball2.

Definition ballAfterCeiling
    (deltaTime : number) (prev : GameData.t) : BallPhysics.t :=
  let '(ceilingCollision, ball3) :=
    checkCeilingCollision (ballAfterWall deltaTime prev) in
  if Collision.hit ceilingCollision
  then BallPhysics.with_velocity (Collision.newVelocity ceilingCollision) ball3
  else ball3.

Definition platformHit (deltaTime : number) (prev : GameData.t) : bool :=
  PlatformCollision.hit
    (fst (checkPlatformCollision
            (updateBallPhysics (GameData.ballPhysics prev) deltaTime)
            (GameData.platform prev))).

Definition platformHitPosition
    (deltaTime : number) (prev : GameData.t) : number :=
  PlatformCollision.hitPosition
    (fst (checkPlatformCollision
            (updateBallPhysics (GameData.ballPhysics prev) deltaTime)
            (GameData.platform prev))).

Definition wallHit (deltaTime : number) (prev : GameData.t) : bool :=
  Collision.hit
    (fst (checkWallCollision (ballAfterPlatform deltaTime prev)
            (GameData.config prev))).

Definition ceilingHit (deltaTime : number) (prev : GameData.t) : bool :=
  Collision.hit (fst (checkCeilingCollision (ballAfterWall deltaTime prev))).

(** The time-limit test of a frame. *)
Definition timedOut (now : number) (prev : GameData.t) : bool :=
  (now - GameData.levelStartTime prev) / 1000
  >=? LevelConfig.timeLimit (GameData.currentLevel prev).

(** A frame is a floor-crossing tick when the loop is in play, gets past the
    time-limit test and finds the moved ball below the floor line. *)
Definition floorCrossing
    (deltaTime now : number) (prev : GameData.t) : bool :=
  GameState.eqb (GameData.gameState prev) GameState.PLAYING
  && negb (timedOut now prev)
  && checkFloorCollision (ballAfterCeiling deltaTime prev)
       (GameData.config prev).

(** The bounces the frame loop reports, with what it enqueues for each
    (the three [if (...Collision.hit)] branches of [gameLoop]). *)
Inductive Bounce : Type :=
| PlatformBounce (hitPosition : number)
| WallBounce
| CeilingBounce.

Definition bounceQueue (b : Bounce) : list GameAction :=
  match b with
  | PlatformBounce hitPosition =>
      [BALL_BOUNCE Surface.platform (Some hitPosition)]
  | WallBounce => [BALL_BOUNCE Surface.wall None; RESET_COMBO]
  | CeilingBounce => [BALL_BOUNCE Surface.ceiling None; RESET_COMBO]
  end.

(** What the collision branches of a frame enqueue. *)
Definition collisionQueue
    (deltaTime : number) (prev : GameData.t) : list GameAction :=
  (if platformHit deltaTime prev
   then bounceQueue (PlatformBounce (platformHitPosition deltaTime prev))
   else [])
  ++ (if wallHit deltaTime prev then bounceQueue WallBounce else [])
  ++ (if ceilingHit deltaTime prev then bounceQueue CeilingBounce else []).

(** The actions a frame can enqueue, and those of the scoring engine among
    them. *)
Definition loopAction (action : GameAction) : Prop :=
  match action with
  | BALL_BOUNCE _ _ | RESET_COMBO | LOSE_LIFE | NEXT_LEVEL => True
  | _ => False
  end.

Definition scoringAction (action : GameAction) : Prop :=
  match action with
  | BALL_BOUNCE _ _ | RESET_COMBO => True
  | _ => False
  end.

(** The number of bounce events among a list of actions. *)
Fixpoint bounces (actions : list GameAction) : number :=
  match actions with
  | [] => 0
  | BALL_BOUNCE _ _ :: rest => bounces rest + 1
  | _ :: rest => bounces rest
  end.

(** One for a hit, zero for a miss. *)
Definition hitCount (hit : bool) : number := if hit then 1 else 0.

(** ** Runs of the state machine *)

Section Runs.
Context {runtime : MathRuntime}.

(** The stored multiplier after each bounce of a sequence. *)
Fixpoint multiplierTrace
    (now : number) (state : GameData.t) (sequence : list Bounce)
  : list number :=
  match sequence with
  | [] => []
  | b :: rest =>
      let state' := dispatchAll now (bounceQueue b) state in
      ScoreData.multiplier (GameData.scoreData state')
      :: multiplierTrace now state' rest
  end.

(** States reachable from the initial state by dispatching actions that
    satisfy [allowed] and by running frames of the loop. *)
Inductive reachableVia (allowed : GameAction -> Prop) : GameData.t -> Prop :=
| reach_initial : reachableVia allowed createInitialGameData
| reach_dispatch (now : number) (action : GameAction) (s : GameData.t) :
    reachableVia allowed s -> allowed action ->
    reachableVia allowed (dispatch now s action)
| reach_frame (deltaTime now : number) (s : GameData.t) :
    reachableVia allowed s -> reachableVia allowed (frame deltaTime now s).

Definition reachable : GameData.t -> Prop := reachableVia (fun _ => True).
End Runs.

(** The multiplier and the streak counter agree. *)
Definition comboConsistent (s : GameData.t) : Prop :=
  ScoreData.multiplier (GameData.scoreData s)
  == calculateComboMultiplier
       (ScoreData.consecutiveBounces (GameData.scoreData s)).

(** Actions whose payload does not overwrite the multiplier or the streak
    counter: everything but an [UPDATE_SCORE] that sets one of the two. *)
Definition keepsCombo (action : GameAction) : Prop :=
  match action with
  | UPDATE_SCORE payload =>
      ScoreData.p_multiplier payload = None
      /\ ScoreData.p_consecutiveBounces payload = None
  | _ => True
  end.

(** Position and velocity of two balls agree. *)
Definition sameMotion (a b : BallPhysics.t) : Prop :=
  BallPhysics.px a == BallPhysics.px b
  /\ BallPhysics.py a == BallPhysics.py b
  /\ BallPhysics.vx a == BallPhysics.vx b
  /\ BallPhysics.vy a == BallPhysics.vy b.

(** The bounce score in the words of the specification: base 10 points, a
    centre-proximity bonus on platform hits only, floored after multiplying
    by the multiplier. *)
Definition bounceScoreSpec
    (surface : Surface.t) (hitPosition multiplier : number) : number :=
  let bonus :=
    match surface with
    | Surface.platform => Qmax 0 (1 - Qabs hitPosition) * 5
    | Surface.wall | Surface.ceiling | Surface.floor => 0
    end in
  inject_Z (Qfloor ((10 + bonus) * multiplier)).

(** ** Example states *)

(** A state in play on level 1 whose ball is below the platform line and
    falling, away from the platform: the next frame crosses the floor. *)
Definition fallingPastPlatform
    (lives score highScore : number) (shield : option number) : GameData.t :=
  let config := createDefaultGameConfig in
  {| GameData.gameState := GameState.PLAYING;
     GameData.scoreData :=
       {| ScoreData.score := score; ScoreData.lives := lives;
          ScoreData.level := 1; ScoreData.highScore := highScore;
          ScoreData.bounceCount := 4; ScoreData.timeElapsed := 0;
          ScoreData.multiplier := 1; ScoreData.consecutiveBounces := 0;
          ScoreData.comboCount := 2 |};
     GameData.ballPhysics :=
       {| BallPhysics.position :=
            {| BallPosition.x := 400; BallPosition.y := 575 |};
          BallPhysics.velocity :=
            {| BallVelocity.vx := 0; BallVelocity.vy := 10 |};
          BallPhysics.radius := 20; BallPhysics.gravity := 9.8;
          BallPhysics.bounceCoefficient := 0.75;
          BallPhysics.maxVelocity := 20 |};
     GameData.platform :=
       Platform.with_x 100 (createInitialPlatform config level_1);
     GameData.config := config;
     GameData.collisionState := createInitialCollisionState;
     GameData.currentLevel := level_1;
     GameData.levelStartTime := 0;
     GameData.lastBounceTime := 0;
     GameData.aimData := createInitialAimData config;
     GameData.controlState := createInitialControlState;
     GameData.shieldBounces := shield;
     GameData.magneticRange := None |}.

(** A state in play on level 1, nine bounces into the level, whose ball is
    about to reach the left wall in mid-air. *)
Definition headingForWall : GameData.t :=
  let config := createDefaultGameConfig in
  {| GameData.gameState := GameState.PLAYING;
     GameData.scoreData :=
       {| ScoreData.score := 100; ScoreData.lives := 3;
          ScoreData.level := 1; ScoreData.highScore := 0;
          ScoreData.bounceCount := 9; ScoreData.timeElapsed := 0;
          ScoreData.multiplier := 1.5; ScoreData.consecutiveBounces := 2;
          ScoreData.comboCount := 5 |};
     GameData.ballPhysics :=
       {| BallPhysics.position :=
            {| BallPosition.x := 25; BallPosition.y := 300 |};
          BallPhysics.velocity :=
            {| BallVelocity.vx := -10; BallVelocity.vy := 0 |};
          BallPhysics.radius := 20; BallPhysics.gravity := 9.8;
          BallPhysics.bounceCoefficient := 0.75;
          BallPhysics.maxVelocity := 20 |};
     GameData.platform := createInitialPlatform config level_1;
     GameData.config := config;
     GameData.collisionState := createInitialCollisionState;
     GameData.currentLevel := level_1;
     GameData.levelStartTime := 0;
     GameData.lastBounceTime := 0;
     GameData.aimData := createInitialAimData config;
     GameData.controlState := createInitialControlState;
     GameData.shieldBounces := None;
     GameData.magneticRange := None |}.

(** A ball faster than [maxVelocity], as it leaves the platform edge: the
    platform check adds its lateral term after the integrator has clamped. *)
Definition fastBall : BallPhysics.t :=
  {| BallPhysics.position :=
       {| BallPosition.x := 400; BallPosition.y := 300 |};
     BallPhysics.velocity :=
       {| BallVelocity.vx := 22; BallVelocity.vy := -5 |};
     BallPhysics.radius := 20; BallPhysics.gravity := 9.8;
     BallPhysics.bounceCoefficient := 0.75;
     BallPhysics.maxVelocity := 20 |}.

Definition slowBall : BallPhysics.t :=
  {| BallPhysics.position :=
       {| BallPosition.x := 400; BallPosition.y := 300 |};
     BallPhysics.velocity :=
       {| BallVelocity.vx := 5; BallVelocity.vy := -3 |};
     BallPhysics.radius := 20; BallPhysics.gravity := 9.8;
     BallPhysics.bounceCoefficient := 0.75;
     BallPhysics.maxVelocity := 20 |}.

(** A ball that has left the canvas on the left. *)
Definition strayBall : BallPhysics.t := set_x (-30) fastBall.

(** [UPDATE_SCORE] payloads: one that sets the multiplier only, and one that
    sets the score only, as the obstacle hook dispatches it. *)
Definition onlyMultiplier (m : number) : ScoreData.partial :=
  {| ScoreData.p_score := None; ScoreData.p_lives := None;
     ScoreData.p_level := None; ScoreData.p_highScore := None;
     ScoreData.p_bounceCount := None; ScoreData.p_timeElapsed := None;
     ScoreData.p_multiplier := Some m;
     ScoreData.p_consecutiveBounces := None;
     ScoreData.p_comboCount := None |}.

Definition onlyScore (v : number) : ScoreData.partial :=
  {| ScoreData.p_score := Some v; ScoreData.p_lives := None;
     ScoreData.p_level := None; ScoreData.p_highScore := None;
     ScoreData.p_bounceCount := None; ScoreData.p_timeElapsed := None;
     ScoreData.p_multiplier := None;
     ScoreData.p_consecutiveBounces := None;
     ScoreData.p_comboCount := None |}.

(** The state after a first platform bounce at the centre of the platform. *)
Definition afterOnePlatformBounce : GameData.t :=
  dispatch 0 createInitialGameData (BALL_BOUNCE Surface.platform (Some 0)).

(** The state after an [UPDATE_SCORE] that writes the multiplier. *)
Definition afterMultiplierUpdate : GameData.t :=
  dispatch 0 createInitialGameData (UPDATE_SCORE (onlyMultiplier 3)).

(** A short game: start, launch, a frame, two platform bounces and the
    points of a broken brick. *)
Definition shortGame : GameData.t :=
  dispatch 1100
    (dispatch 1050
       (dispatch 1040
          (frame 1 1016
             (dispatch 1000
                (dispatch 0 createInitialGameData START_GAME)
                (LAUNCH_BALL 60 50)))
          (BALL_BOUNCE Surface.platform (Some 0.5)))
       (BALL_BOUNCE Surface.platform None))
    (UPDATE_SCORE (onlyScore 500)).

(** The bounce sequence of the combo scenario, hit at the platform centre. *)
Definition comboScenario : list Bounce :=
  [PlatformBounce 0; PlatformBounce 0; PlatformBounce 0; WallBounce;
   PlatformBounce 0].


(** ** The launch at a right angle *)

(** The tolerance of a straight launch: a few units in the last place of a
    double near 1. *)
Definition launchTolerance : number := 1 # 1000000000000000.

(** Horner's scheme for the Taylor polynomials of cosine and sine:
    [1 - x2 / (k * (k + 1)) * (1 - x2 / ((k + 2) * (k + 3)) * ...)], with
    [terms] factors. *)
Fixpoint horner (terms : nat) (k : Z) (x2 : number) : number :=
  match terms with
  | O => 1
  | S rest => 1 - x2 / inject_Z (k * (k + 1)) * horner rest (k + 2) x2
  end.

(** A runtime that is close to the doubles at a right angle: [Math.PI] is
    the double nearest to pi, exactly; cosine and sine are their Taylor
    polynomials of degree 30 and 31, which at [Math.PI / 2] differ from the
    real cosine and sine by less than [1e-28]. *)
Definition doubleRuntime : MathRuntime :=
  {| Math_PI := 884279719003555 # 281474976710656;
     Math_cos := fun a => horner 15 1 (a * a);
     Math_sin := fun a => a * horner 15 2 (a * a) |}.

(** ** Further definitions for statements *)

(** The platform check misses: no hit, the ball and its velocity as they
    were, hit position 0. *)
Definition platformMiss (ball : BallPhysics.t)
  : PlatformCollision.t * BallPhysics.t :=
  ({| PlatformCollision.hit := false;
      PlatformCollision.newVelocity := BallPhysics.velocity ball;
      PlatformCollision.hitPosition := 0 |}, ball).

(** A ball coming down on the right half of the level-1 platform, and one
    coming down on its centre. *)
Definition landingBall : BallPhysics.t :=
  {| BallPhysics.position :=
       {| BallPosition.x := 425; BallPosition.y := 525 |};
     BallPhysics.velocity :=
       {| BallVelocity.vx := 3; BallVelocity.vy := 5 |};
     BallPhysics.radius := 20; BallPhysics.gravity := 9.8;
     BallPhysics.bounceCoefficient := 0.75;
     BallPhysics.maxVelocity := 20 |}.

Definition centredBall : BallPhysics.t := set_x 400 landingBall.

Definition level1Platform : Platform.t :=
  createInitialPlatform createDefaultGameConfig level_1.

(** Actions whose payload does not overwrite the lives, and those whose
    payload does not overwrite the level number. *)
Definition keepsLives (action : GameAction) : Prop :=
  match action with
  | UPDATE_SCORE payload => ScoreData.p_lives payload = None
  | _ => True
  end.

Definition keepsLevel (action : GameAction) : Prop :=
  match action with
  | UPDATE_SCORE payload => ScoreData.p_level payload = None
  | _ => True
  end.

(** The lives lie between 0 and the initial 3. *)
Definition livesInRange (s : GameData.t) : Prop :=
  0 <= ScoreData.lives (GameData.scoreData s)
  /\ ScoreData.lives (GameData.scoreData s) <= 3.

(** The configuration is the default one, the active level is one of its
    levels, and the level number of the score data is that level's. *)
Definition levelInSync (s : GameData.t) : Prop :=
  GameData.config s = createDefaultGameConfig
  /\ In (GameData.currentLevel s) createLevelConfigs
  /\ LevelConfig.level (GameData.currentLevel s)
     == ScoreData.level (GameData.scoreData s).

(** The actions that end a frame. *)
Definition terminalAction (action : GameAction) : bool :=
  match action with
  | LOSE_LIFE | NEXT_LEVEL => true
  | _ => false
  end.

(** A state in play on the last level with its bounce target met. *)
Definition lastLevelDone : GameData.t :=
  let config := createDefaultGameConfig in
  let level_5 := last createLevelConfigs level_1 in
  {| GameData.gameState := GameState.PLAYING;
     GameData.scoreData :=
       {| ScoreData.score := 900; ScoreData.lives := 2;
          ScoreData.level := 5; ScoreData.highScore := 400;
          ScoreData.bounceCount := 20; ScoreData.timeElapsed := 12;
          ScoreData.multiplier := 1; ScoreData.consecutiveBounces := 0;
          ScoreData.comboCount := 9 |};
     GameData.ballPhysics := createInitialBallPhysics config level_5;
     GameData.platform := createInitialPlatform config level_5;
     GameData.config := config;
     GameData.collisionState := createInitialCollisionState;
     GameData.currentLevel := level_5;
     GameData.levelStartTime := 0;
     GameData.lastBounceTime := 0;
     GameData.aimData := createInitialAimData config;
     GameData.controlState := createInitialControlState;
     GameData.shieldBounces := None;
     GameData.magneticRange := None |}.

(** ** More of the game logic ([client/utils/gameLogic.ts]) *)

(** The square root and the two-argument arc tangent of the JavaScript
    runtime, parameters of the rational model like [MathRuntime]. *)
Class AimRuntime : Type := {
  Math_atan2 : number -> number -> number;
  Math_sqrt : number -> number }.

(** The number of rounds of [for (let i = 0; i < n; i++)]: the naturals
    below [n]. *)
Definition loopCount (n : number) : nat := Z.to_nat (Qceiling n).

(** The stop test of the trajectory preview. *)
Definition outOfBounds (config : GameConfig.t) (p : BallPosition.t) : bool :=
  (BallPosition.y p >? GameConfig.canvasHeight config + 50)
  || (BallPosition.x p <? -50)
  || (BallPosition.x p >? GameConfig.canvasWidth config + 50).

(** The margins the stop test knows: a point passes it when it is at most
    50 pixels below the bottom edge, left of the left edge or right of the
    right edge.  The test has no margin above the canvas. *)
Definition withinTestedMargins
    (config : GameConfig.t) (p : BallPosition.t) : Prop :=
  BallPosition.y p <= GameConfig.canvasHeight config + 50
  /\ -50 <= BallPosition.x p
  /\ BallPosition.x p <= GameConfig.canvasWidth config + 50.

(** The body of the preview loop, for the rounds that are left: integrate,
    record the point, stop behind the first point out of bounds. *)
Fixpoint trajectoryLoop
    (rounds : nat) (tempBall : BallPhysics.t) (config : GameConfig.t)
    (timeStep : number) : list BallPosition.t :=
  match rounds with
  | O => []
  | S rest =>
      let tempBall := updateBallPhysics tempBall timeStep in
      let point :=
        {| BallPosition.x := BallPhysics.px tempBall;
           BallPosition.y := BallPhysics.py tempBall |} in
      if outOfBounds config point then [point]
      else point :: trajectoryLoop rest tempBall config timeStep
  end.

Section Aiming.
Context {runtime : MathRuntime} {aimRuntime : AimRuntime}.

Definition calculateAimAngle (startX startY endX endY : number) : number :=
  let dx := endX - startX in
  let dy := endY - startY in
  let angle := Math_atan2 (- dy) dx * 180 / Math_PI in
  (* Clamp angle to 0-180 degrees (upwards arc) *)
  let angle := if angle <? 0 then angle + 360 else angle in
  let angle :=
    if (angle >? 180) && (angle <=? 360) then 360 - angle else angle in
  let angle := if angle >? 180 then 180 else angle in
  let angle := if angle <? 0 then 0 else angle in
  angle.

Definition calculateAimPower (startX startY endX endY : number) : number :=
  let dx := endX - startX in
  let dy := endY - startY in
  let distance := Math_sqrt (dx * dx + dy * dy) in
  let maxDragDistance := 150 in
  clamp (Math_floor ((distance / maxDragDistance) * 100)) 0 100.

(** [calculateTrajectoryPoints]; the defaults of [numPoints] and [timeStep]
    are 50 and 0.1.  Reading the gravity of [config.levels[0]] throws when
    the configuration has no level ([None]). *)
Definition calculateTrajectoryPoints
    (startX startY angle power : number) (config : GameConfig.t)
    (numPoints timeStep : number) : option (list BallPosition.t) :=
  match GameConfig.levels config with
  | [] => None
  | level0 :: _ =>
      let tempBall :=
        {| BallPhysics.position :=
             {| BallPosition.x := startX; BallPosition.y := startY |};
           BallPhysics.velocity :=
             {| BallVelocity.vx := 0; BallVelocity.vy := 0 |};
           BallPhysics.radius := GameConfig.ballRadius config;
           BallPhysics.gravity := LevelConfig.gravity level0;
           BallPhysics.bounceCoefficient :=
             LevelConfig.bounceCoefficient level0;
           BallPhysics.maxVelocity := GameConfig.maxVelocity config |} in
      let tempBall := launchBall tempBall angle power config in
      Some (trajectoryLoop (loopCount numPoints) tempBall config timeStep)
  end.
End Aiming.

(** ** Achievements ([client/utils/powerUps.ts]) *)

Module Achievement.
Record t : Type := {
  id : string;
  name : string;
  description : string;
  icon : string;
  unlocked : bool;
  unlockedAt : option number;
  progress : number;
  target : number }.
End Achievement.

(** The second argument of [checkAchievements]; [usedPowerUps] lists the
    elements of the set, whose size is all the function reads. *)
Module AchievementData.
Record t : Type := {
  scoreData : ScoreData.t;
  bounceCount : number;
  level : number;
  usedPowerUps : list string }.

Definition size (d : t) : number :=
  inject_Z (Z.of_nat (List.length (usedPowerUps d))).
End AchievementData.

Definition checkAchievement
    (now : number) (gameData : AchievementData.t) (achievement : Achievement.t)
  : Achievement.t :=
  let progress := Achievement.progress achievement in
  let id := Achievement.id achievement in
  let progress :=
    if String.eqb id "first_bounce" then
      Math_max progress (AchievementData.bounceCount gameData)
    else if String.eqb id "combo_master" then
      Math_max progress
        (ScoreData.consecutiveBounces (AchievementData.scoreData gameData))
    else if String.eqb id "level_5_complete" then
      Math_max progress (AchievementData.level gameData)
    else if String.eqb id "high_scorer" then
      Math_max progress
        (ScoreData.score (AchievementData.scoreData gameData))
    else if String.eqb id "power_up_collector" then
      Math_max progress (AchievementData.size gameData)
    else if String.eqb id "bounce_king" then
      Math_max progress (AchievementData.bounceCount gameData)
    else progress in
  let reached := progress >=? Achievement.target achievement in
  {| Achievement.id := id;
     Achievement.name := Achievement.name achievement;
     Achievement.description := Achievement.description achievement;
     Achievement.icon := Achievement.icon achievement;
     Achievement.unlocked := Achievement.unlocked achievement || reached;
     Achievement.unlockedAt :=
       if negb (Achievement.unlocked achievement) && reached
       then Some now else Achievement.unlockedAt achievement;
     Achievement.progress := progress;
     Achievement.target := Achievement.target achievement |}.

Definition checkAchievements
    (now : number) (achievements : list Achievement.t)
    (gameData : AchievementData.t) : list Achievement.t :=
  map (checkAchievement now gameData) achievements.

(** What one achievement may and may not do in a check. *)
Definition achievementStep
    (now : number) (before after : Achievement.t) : Prop :=
  Achievement.id after = Achievement.id before
  /\ Achievement.target after = Achievement.target before
  /\ Achievement.progress before <= Achievement.progress after
  /\ (Achievement.unlocked after = true
      <-> Achievement.unlocked before = true
          \/ Achievement.target before <= Achievement.progress after)
  /\ (Achievement.unlocked before = true ->
      Achievement.unlockedAt after = Achievement.unlockedAt before)
  /\ (Achievement.unlocked before = false ->
      Achievement.unlocked after = true ->
      Achievement.unlockedAt after = Some now).

(** ** The obstacle hook *)

Module ObstacleOptions.
(** [Partial<Obstacle>], the [options] of [createObstacle]. *)
Record t : Type := {
  id : option string; type : option ObstacleType.t;
  x : option number; y : option number;
  width : option number; height : option number;
  vx : option number; vy : option number;
  health : option number; maxHealth : option number;
  points : option number }.

Definition none : t :=
  {| id := None; type := None; x := None; y := None; width := None;
     height := None; vx := None; vy := None; health := None;
     maxHealth := None; points := None |}.

Definition or_else {A : Type} (o base : option A) : option A :=
  match o with Some _ => o | None => base end.
End ObstacleOptions.

(** [createObstacle]; [id] is the string its template builds from the type,
    [Date.now()] and [Math.random()]. *)
Definition createObstacle
    (id : string) (type : ObstacleType.t) (x y width height : number)
    (options : ObstacleOptions.t) : Obstacle.t :=
  {| Obstacle.id := ScoreData.over (ObstacleOptions.id options) id;
     Obstacle.type := ScoreData.over (ObstacleOptions.type options) type;
     Obstacle.x := ScoreData.over (ObstacleOptions.x options) x;
     Obstacle.y := ScoreData.over (ObstacleOptions.y options) y;
     Obstacle.width := ScoreData.over (ObstacleOptions.width options) width;
     Obstacle.height := ScoreData.over (ObstacleOptions.height options) height;
     Obstacle.vx := ObstacleOptions.vx options;
     Obstacle.vy := ObstacleOptions.vy options;
     Obstacle.health := ObstacleOptions.health options;
     Obstacle.maxHealth := ObstacleOptions.maxHealth options;
     Obstacle.points := ObstacleOptions.points options |}.

Section Spawning.
(** The id the template yields for the obstacle created as number [k] of
    a call of [spawnLevelObstacles]. *)
Variable obstacleId : ObstacleType.t -> nat -> string.

Definition spawnLevelObstacles
    (level : number) (config : GameConfig.t) : list Obstacle.t :=
  let width := GameConfig.canvasWidth config in
  let height := GameConfig.canvasHeight config in
  let obstacles : list Obstacle.t := [] in
  let obstacles :=
    if level >=? 2 then
      (* Static blocks *)
      obstacles
      ++ map (fun i =>
                createObstacle (obstacleId ObstacleType.static_block i)
                  ObstacleType.static_block
                  ((width / 4) * (inject_Z (Z.of_nat i) + 1))
                  (height / 2) 60 20 ObstacleOptions.none)
           (seq 0 (loopCount (Math_min (level - 1) 3)))
    else obstacles in
  let obstacles :=
    if level >=? 3 then
      (* Moving barriers *)
      obstacles
      ++ [createObstacle
            (obstacleId ObstacleType.moving_barrier (List.length obstacles))
            ObstacleType.moving_barrier (width / 2) (height / 3) 80 15
            {| ObstacleOptions.id := None; ObstacleOptions.type := None;
               ObstacleOptions.x := None; ObstacleOptions.y := None;
               ObstacleOptions.width := None; ObstacleOptions.height := None;
               ObstacleOptions.vx := Some 2; ObstacleOptions.vy := Some 0;
               ObstacleOptions.health := None;
               ObstacleOptions.maxHealth := None;
               ObstacleOptions.points := None |}]
    else obstacles in
  let obstacles :=
    if level >=? 4 then
      (* Breakable bricks *)
      obstacles
      ++ map (fun i =>
                createObstacle
                  (obstacleId ObstacleType.breakable_brick
                     (List.length obstacles + i))
                  ObstacleType.breakable_brick
                  (width * 0.2 + (inject_Z (Z.of_nat i) * width * 0.6))
                  (height * 0.3) 40 20
                  {| ObstacleOptions.id := None; ObstacleOptions.type := None;
                     ObstacleOptions.x := None; ObstacleOptions.y := None;
                     ObstacleOptions.width := None;
                     ObstacleOptions.height := None;
                     ObstacleOptions.vx := None; ObstacleOptions.vy := None;
                     ObstacleOptions.health := Some 2;
                     ObstacleOptions.maxHealth := Some 2;
                     ObstacleOptions.points := Some 50 |})
           (seq 0 2)
    else obstacles in
  let obstacles :=
    if level >=? 5 then
      (* Speed boost zones *)
      obstacles
      ++ [createObstacle
            (obstacleId ObstacleType.speed_boost (List.length obstacles))
            ObstacleType.speed_boost (width / 2) (height * 0.7) 100 30
            ObstacleOptions.none]
    else obstacles in
  obstacles.
End Spawning.

(** [v || d] on an optional numeric property. *)
Definition orDefault (v : option number) (d : number) : number :=
  match v with
  | Some h => if h =? 0 then d else h
  | None => d
  end.

Definition withHealth (v : number) (o : Obstacle.t) : Obstacle.t :=
  {| Obstacle.id := Obstacle.id o; Obstacle.type := Obstacle.type o;
     Obstacle.x := Obstacle.x o; Obstacle.y := Obstacle.y o;
     Obstacle.width := Obstacle.width o; Obstacle.height := Obstacle.height o;
     Obstacle.vx := Obstacle.vx o; Obstacle.vy := Obstacle.vy o;
     Obstacle.health := Some v; Obstacle.maxHealth := Obstacle.maxHealth o;
     Obstacle.points := Obstacle.points o |}.

(** The overlap test of [checkObstacleCollisions]. *)
Definition overlapsObstacle
    (ball : BallPhysics.t) (obstacle : Obstacle.t) : bool :=
  let ballLeft := BallPhysics.px ball - BallPhysics.radius ball in
  let ballRight := BallPhysics.px ball + BallPhysics.radius ball in
  let ballTop := BallPhysics.py ball - BallPhysics.radius ball in
  let ballBottom := BallPhysics.py ball + BallPhysics.radius ball in
  let obstacleLeft := Obstacle.x obstacle - Obstacle.width obstacle / 2 in
  let obstacleRight := Obstacle.x obstacle + Obstacle.width obstacle / 2 in
  let obstacleTop := Obstacle.y obstacle - Obstacle.height obstacle / 2 in
  let obstacleBottom := Obstacle.y obstacle + Obstacle.height obstacle / 2 in
  (ballLeft <? obstacleRight) && (ballRight >? obstacleLeft)
  && (ballTop <? obstacleBottom) && (ballBottom >? obstacleTop).

(** What [checkObstacleCollisions] dispatches for one obstacle; [gameData]
    is the state the hook was rendered with. *)
Definition obstacleActions
    (gameData : GameData.t) (ball : BallPhysics.t) (obstacle : Obstacle.t)
  : list GameAction :=
  if overlapsObstacle ball obstacle then
    match Obstacle.type obstacle with
    | ObstacleType.breakable_brick =>
        let newHealth := orDefault (Obstacle.health obstacle) 1 - 1 in
        if newHealth <=? 0 then
          [REMOVE_OBSTACLE (Obstacle.id obstacle);
           UPDATE_SCORE
             (onlyScore
                (ScoreData.score (GameData.scoreData gameData)
                 + orDefault (Obstacle.points obstacle) 50))]
        else [UPDATE_OBSTACLE (withHealth newHealth obstacle)]
    | ObstacleType.speed_boost =>
        let speedMultiplier := 1.5 in
        [UPDATE_BALL_PHYSICS
           (BallPhysics.with_velocity
              {| BallVelocity.vx := BallPhysics.vx ball * speedMultiplier;
                 BallVelocity.vy := BallPhysics.vy ball * speedMultiplier |}
              ball)]
    | _ =>
        [UPDATE_BALL_PHYSICS
           (BallPhysics.with_velocity
              {| BallVelocity.vx :=
                   - BallPhysics.vx ball * BallPhysics.bounceCoefficient ball;
                 BallVelocity.vy :=
                   - BallPhysics.vy ball * BallPhysics.bounceCoefficient ball |}
              ball)]
    end
  else [].

Definition checkObstacleCollisions
    (obstacles : list Obstacle.t) (gameData : GameData.t)
    (ball : BallPhysics.t) : list GameAction :=
  flat_map (obstacleActions gameData ball) obstacles.

(** Two worn bricks side by side on the path of [slowBall]. *)
Definition wornBrick (id : string) (x points : number) : Obstacle.t :=
  {| Obstacle.id := id; Obstacle.type := ObstacleType.breakable_brick;
     Obstacle.x := x; Obstacle.y := 300;
     Obstacle.width := 40; Obstacle.height := 20;
     Obstacle.vx := None; Obstacle.vy := None;
     Obstacle.health := Some 1; Obstacle.maxHealth := Some 2;
     Obstacle.points := Some points |}.

Definition twoWornBricks : list Obstacle.t :=
  [wornBrick "left" 385 50; wornBrick "right" 415 70].

(** The bricks of a pass that break at the touch of [ball], and the last
    of them in the order of the list. *)
Definition breaksNow (ball : BallPhysics.t) (obstacle : Obstacle.t) : bool :=
  overlapsObstacle ball obstacle
  && (orDefault (Obstacle.health obstacle) 1 - 1 <=? 0).

Definition lastBroken
    (ball : BallPhysics.t) (obstacles : list Obstacle.t) : option Obstacle.t :=
  find (breaksNow ball) (rev obstacles).

Definition isBrick (obstacle : Obstacle.t) : Prop :=
  Obstacle.type obstacle = ObstacleType.breakable_brick.

(** The centre of an obstacle lies strictly inside the canvas. *)
Definition centreInside (config : GameConfig.t) (obstacle : Obstacle.t) : Prop :=
  0 < Obstacle.x obstacle
  /\ Obstacle.x obstacle < GameConfig.canvasWidth config
  /\ 0 < Obstacle.y obstacle
  /\ Obstacle.y obstacle < GameConfig.canvasHeight config.
(** ** Comparison lemmas *)

Lemma ltb_lt (a b : number) : (a <? b) = true <-> a < b.
Proof.
  unfold Js.ltb. rewrite negb_true_iff.
  destruct (Qle_bool b a) eqn:E.
  - apply Qle_bool_iff in E. split; [discriminate | intro H; lra].
  - split; [intros _ | reflexivity].
    apply Qnot_le_lt. intro H. apply Qle_bool_iff in H. congruence.
Qed.

Lemma ltb_ge (a b : number) : (a <? b) = false <-> b <= a.
Proof.
  destruct (a <? b) eqn:E.
  - apply ltb_lt in E. split; [discriminate | intro H; lra].
  - split; [intros _ | reflexivity].
    apply Qnot_lt_le. intro H. apply ltb_lt in H. congruence.
Qed.

Lemma leb_le (a b : number) : (a <=? b) = true <-> a <= b.
Proof. apply Qle_bool_iff. Qed.

Lemma leb_gt (a b : number) : (a <=? b) = false <-> b < a.
Proof.
  destruct (a <=? b) eqn:E.
  - apply leb_le in E. split; [discriminate | intro H; lra].
  - split; [intros _ | reflexivity].
    apply Qnot_le_lt. intro H. apply leb_le in H. congruence.
Qed.

Lemma gtb_gt (a b : number) : (a >? b) = true <-> b < a.
Proof. apply ltb_lt. Qed.

Lemma gtb_le (a b : number) : (a >? b) = false <-> a <= b.
Proof. apply ltb_ge. Qed.

Lemma clamp_within (v lo hi : number) :
  lo <= v -> v <= hi -> clamp v lo hi == v.
Proof.
  intros Hlo Hhi. unfold clamp, Math_max, Math_min.
  rewrite (Q.min_l v hi Hhi). apply Q.max_r. exact Hlo.
Qed.

#[export] Instance calculateComboMultiplier_Proper :
  Proper (Qeq ==> eq) calculateComboMultiplier.
Proof.
  intros a b E. unfold calculateComboMultiplier, Js.leb.
  now rewrite !E.
Qed.

(** ** The reducer, case by case *)

Section ReducerFacts.
Context {runtime : MathRuntime}.

Lemma dispatch_BALL_BOUNCE_scoreData
    (now : number) (prev : GameData.t)
    (surface : Surface.t) (hitPosition : option number) :
  GameData.scoreData (dispatch now prev (BALL_BOUNCE surface hitPosition))
  = updateScoreData (GameData.scoreData prev)
      (calculateBounceScore surface (Js.or0 hitPosition)
         (ScoreData.multiplier (GameData.scoreData prev)))
      surface (Js.or0 hitPosition).
Proof. reflexivity. Qed.

Lemma dispatch_LOSE_LIFE_scoreData (now : number) (prev : GameData.t) :
  GameData.scoreData (dispatch now prev LOSE_LIFE)
  = loseLife (GameData.scoreData prev).
Proof. reflexivity. Qed.

Lemma dispatch_RESET_COMBO_scoreData (now : number) (prev : GameData.t) :
  GameData.scoreData (dispatch now prev RESET_COMBO)
  = resetCombo (GameData.scoreData prev).
Proof. reflexivity. Qed.

(** No action changes the shield counter. *)
Lemma dispatch_shieldBounces
    (now : number) (prev : GameData.t) (action : GameAction) :
  GameData.shieldBounces (dispatch now prev action)
  = GameData.shieldBounces prev.
Proof.
  destruct action; try reflexivity.
  cbn. destruct (find _ _); reflexivity.
Qed.

Lemma dispatchAll_shieldBounces
    (now : number) (actions : list GameAction) (state : GameData.t) :
  GameData.shieldBounces (dispatchAll now actions state)
  = GameData.shieldBounces state.
Proof.
  revert state. induction actions as [| a rest IH]; intro state.
  - reflexivity.
  - cbn. unfold dispatchAll in IH. rewrite IH. apply dispatch_shieldBounces.
Qed.

Lemma dispatchAll_app
    (now : number) (xs ys : list GameAction) (state : GameData.t) :
  dispatchAll now (xs ++ ys) state
  = dispatchAll now ys (dispatchAll now xs state).
Proof. apply fold_left_app. Qed.

(** Bounces and combo resets touch the score data and the time of the last
    bounce only; of the score data they leave lives and high score alone and
    count one bounce each. *)
Lemma dispatchAll_scoring
    (now : number) (actions : list GameAction) (state : GameData.t) :
  Forall scoringAction actions ->
  let state' := dispatchAll now actions state in
  GameData.gameState state' = GameData.gameState state
  /\ GameData.config state' = GameData.config state
  /\ GameData.currentLevel state' = GameData.currentLevel state
  /\ GameData.ballPhysics state' = GameData.ballPhysics state
  /\ ScoreData.lives (GameData.scoreData state')
     = ScoreData.lives (GameData.scoreData state)
  /\ ScoreData.highScore (GameData.scoreData state')
     = ScoreData.highScore (GameData.scoreData state)
  /\ ScoreData.level (GameData.scoreData state')
     = ScoreData.level (GameData.scoreData state)
  /\ ScoreData.bounceCount (GameData.scoreData state')
     == ScoreData.bounceCount (GameData.scoreData state) + bounces actions.
Proof.
  intro Hall. revert state.
  induction Hall as [| a rest Ha _ IH]; intro state.
  - cbn. repeat split; try reflexivity. ring.
  - specialize (IH (dispatch now state a)).
    cbn zeta in IH |- *. change (dispatchAll now (a :: rest) state)
      with (dispatchAll now rest (dispatch now state a)).
    destruct IH as (H1 & H2 & H3 & H4 & H5 & H6 & H7 & H8).
    rewrite H1, H2, H3, H4, H5, H6, H7, H8.
    destruct a; try contradiction; cbn; repeat split; try reflexivity; ring.
Qed.

Lemma collisionQueue_scoring (deltaTime : number) (prev : GameData.t) :
  Forall scoringAction (collisionQueue deltaTime prev).
Proof.
  unfold collisionQueue.
  destruct (platformHit deltaTime prev), (wallHit deltaTime prev),
    (ceilingHit deltaTime prev); cbn; repeat constructor.
Qed.

(** ** The frame, branch by branch *)

(** Case analysis along the tests of [gameLoopUpdate]; [tac] closes the
    branches that return the previous state. *)
Ltac frame_cases tac :=
  unfold gameLoopUpdate;
  destruct (negb _); [tac | ];
  destruct (Js.geb _ (LevelConfig.timeLimit _)); [tac | ];
  destruct (checkPlatformCollision _ _) as [?pc ?b1];
  destruct (checkWallCollision _ _) as [?wc ?b2];
  destruct (checkCeilingCollision _) as [?cc ?b3].

Lemma gameLoopUpdate_not_playing
    (deltaTime now : number) (prev : GameData.t) :
  GameData.gameState prev <> GameState.PLAYING ->
  gameLoopUpdate deltaTime now prev = (prev, []).
Proof.
  intro H. unfold gameLoopUpdate.
  destruct (GameData.gameState prev); try reflexivity. contradiction.
Qed.

Lemma gameLoopUpdate_timed_out
    (deltaTime now : number) (prev : GameData.t) :
  GameData.gameState prev = GameState.PLAYING ->
  timedOut now prev = true ->
  gameLoopUpdate deltaTime now prev = (prev, [LOSE_LIFE]).
Proof.
  intros Hplaying Htime. unfold gameLoopUpdate, timedOut in *.
  rewrite Hplaying. cbn [GameState.eqb negb]. now rewrite Htime.
Qed.

(** In play and within the time limit the frame enqueues what the collision
    branches report, then [LOSE_LIFE] on a floor crossing, else [NEXT_LEVEL]
    once the bounce target is met. *)
Lemma gameLoopUpdate_queue
    (deltaTime now : number) (prev : GameData.t) :
  GameData.gameState prev = GameState.PLAYING ->
  timedOut now prev = false ->
  snd (gameLoopUpdate deltaTime now prev)
  = collisionQueue deltaTime prev
    ++ (if checkFloorCollision (ballAfterCeiling deltaTime prev)
             (GameData.config prev)
        then [LOSE_LIFE]
        else if ScoreData.bounceCount (GameData.scoreData prev)
                >=? LevelConfig.targetBounces (GameData.currentLevel prev)
        then [NEXT_LEVEL] else []).
Proof.
  intros Hplaying Htime.
  unfold gameLoopUpdate, timedOut in *.
  rewrite Hplaying. cbn [GameState.eqb negb]. rewrite Htime.
  unfold collisionQueue, ballAfterCeiling, ceilingHit, ballAfterWall, wallHit,
    ballAfterPlatform, platformHit, platformHitPosition.
  destruct (checkPlatformCollision _ _) as [pc b1]. cbn [fst snd].
  destruct (checkWallCollision _ _) as [wc b2]. cbn [fst snd].
  destruct (checkCeilingCollision _) as [cc b3]. cbn [fst snd].
  destruct (checkFloorCollision _ _).
  - cbn [snd]. now rewrite <- !app_assoc.
  - destruct (ScoreData.bounceCount (GameData.scoreData prev)
              >=? LevelConfig.targetBounces (GameData.currentLevel prev));
      cbn [snd].
    + now rewrite <- !app_assoc.
    + now rewrite !app_nil_r.
Qed.

(** The state the frame's own update returns differs from the previous one
    in the ball, the collision flags and the elapsed time at most. *)
Lemma gameLoopUpdate_state
    (deltaTime now : number) (prev : GameData.t) :
  let state := fst (gameLoopUpdate deltaTime now prev) in
  GameData.gameState state = GameData.gameState prev
  /\ GameData.config state = GameData.config prev
  /\ GameData.currentLevel state = GameData.currentLevel prev
  /\ GameData.shieldBounces state = GameData.shieldBounces prev
  /\ (GameData.scoreData state = GameData.scoreData prev
      \/ exists t,
           GameData.scoreData state
           = ScoreData.with_timeElapsed t (GameData.scoreData prev)).
Proof.
  frame_cases ltac:(cbn; intuition).
  destruct (checkFloorCollision _ _); [cbn; intuition | ].
  destruct (Js.geb _ (LevelConfig.targetBounces _)); [cbn; intuition | ].
  cbn. repeat split; try reflexivity. right. eexists. reflexivity.
Qed.

Lemma gameLoopUpdate_loopActions
    (deltaTime now : number) (prev : GameData.t) :
  Forall loopAction (snd (gameLoopUpdate deltaTime now prev)).
Proof.
  frame_cases ltac:(repeat constructor).
  destruct (PlatformCollision.hit pc), (Collision.hit wc), (Collision.hit cc),
    (checkFloorCollision _ _);
    try destruct (Js.geb _ (LevelConfig.targetBounces _));
    cbn; repeat constructor.
Qed.

Lemma frame_eq (deltaTime now : number) (prev : GameData.t) :
  frame deltaTime now prev
  = dispatchAll now (snd (gameLoopUpdate deltaTime now prev))
      (fst (gameLoopUpdate deltaTime now prev)).
Proof. unfold frame. now destruct (gameLoopUpdate deltaTime now prev). Qed.

Lemma GameState_eqb_eq (a b : GameState.t) :
  GameState.eqb a b = true <-> a = b.
Proof. destruct a, b; cbn; split; congruence. Qed.

Lemma floorCrossing_inv (deltaTime now : number) (prev : GameData.t) :
  floorCrossing deltaTime now prev = true ->
  GameData.gameState prev = GameState.PLAYING
  /\ timedOut now prev = false
  /\ checkFloorCollision (ballAfterCeiling deltaTime prev)
       (GameData.config prev) = true.
Proof.
  unfold floorCrossing, timedOut. intro H.
  apply andb_prop in H. destruct H as [H Hfloor].
  apply andb_prop in H. destruct H as [Hplaying Htime].
  apply GameState_eqb_eq in Hplaying. apply negb_true_iff in Htime.
  auto.
Qed.

Lemma bounces_collisionQueue (deltaTime : number) (prev : GameData.t) :
  bounces (collisionQueue deltaTime prev)
  == hitCount (platformHit deltaTime prev)
     + hitCount (wallHit deltaTime prev)
     + hitCount (ceilingHit deltaTime prev).
Proof.
  unfold collisionQueue.
  destruct (platformHit deltaTime prev), (wallHit deltaTime prev),
    (ceilingHit deltaTime prev); reflexivity.
Qed.

(** A floor-crossing frame ends in the [LOSE_LIFE] update, applied to a
    state that has the lives, the high score and the shield counter of the
    state before the frame. *)
Lemma frame_floorCrossing (deltaTime now : number) (prev : GameData.t) :
  floorCrossing deltaTime now prev = true ->
  let state' := frame deltaTime now prev in
  ScoreData.lives (GameData.scoreData state')
  = Math_max 0 (ScoreData.lives (GameData.scoreData prev) - 1)
  /\ ScoreData.highScore (GameData.scoreData state')
     = ScoreData.highScore (GameData.scoreData prev)
  /\ GameData.shieldBounces state' = GameData.shieldBounces prev
  /\ GameData.gameState state'
     = if ScoreData.lives (GameData.scoreData state') <=? 0
       then GameState.GAME_OVER else GameState.AIMING.
Proof.
  intro Hfloor.
  destruct (floorCrossing_inv _ _ _ Hfloor) as (Hplaying & Htime & Hcheck).
  cbn zeta. rewrite frame_eq.
  rewrite (gameLoopUpdate_queue deltaTime now prev Hplaying Htime), Hcheck.
  rewrite dispatchAll_app.
  destruct (gameLoopUpdate_state deltaTime now prev)
    as (_ & _ & _ & Hshield & Hscore).
  destruct (dispatchAll_scoring now (collisionQueue deltaTime prev)
              (fst (gameLoopUpdate deltaTime now prev))
              (collisionQueue_scoring deltaTime prev))
    as (_ & _ & _ & _ & Hlives & Hhigh & _).
  set (mid := dispatchAll now (collisionQueue deltaTime prev)
                (fst (gameLoopUpdate deltaTime now prev))) in *.
  assert (Hl : ScoreData.lives (GameData.scoreData mid)
               = ScoreData.lives (GameData.scoreData prev)).
  { rewrite Hlives. destruct Hscore as [-> | [t ->]]; reflexivity. }
  assert (Hh : ScoreData.highScore (GameData.scoreData mid)
               = ScoreData.highScore (GameData.scoreData prev)).
  { rewrite Hhigh. destruct Hscore as [-> | [t ->]]; reflexivity. }
  assert (Hs : GameData.shieldBounces mid = GameData.shieldBounces prev).
  { unfold mid. now rewrite dispatchAll_shieldBounces. }
  cbn. rewrite Hl, Hh, Hs. repeat split; reflexivity.
Qed.

(** A frame that neither crosses the floor nor finds the bounce target met
    counts one bounce for each of its platform, wall and ceiling hits. *)
Lemma frame_bounceCount (deltaTime now : number) (prev : GameData.t) :
  GameData.gameState prev = GameState.PLAYING ->
  timedOut now prev = false ->
  checkFloorCollision (ballAfterCeiling deltaTime prev)
    (GameData.config prev) = false ->
  ScoreData.bounceCount (GameData.scoreData prev)
  < LevelConfig.targetBounces (GameData.currentLevel prev) ->
  ScoreData.bounceCount (GameData.scoreData (frame deltaTime now prev))
  == ScoreData.bounceCount (GameData.scoreData prev)
     + hitCount (platformHit deltaTime prev)
     + hitCount (wallHit deltaTime prev)
     + hitCount (ceilingHit deltaTime prev).
Proof.
  intros Hplaying Htime Hcheck Hbelow.
  rewrite frame_eq.
  rewrite (gameLoopUpdate_queue deltaTime now prev Hplaying Htime), Hcheck.
  assert (Hge : (ScoreData.bounceCount (GameData.scoreData prev)
                 >=? LevelConfig.targetBounces (GameData.currentLevel prev))
                = false) by now apply leb_gt.
  rewrite Hge, app_nil_r.
  destruct (gameLoopUpdate_state deltaTime now prev)
    as (_ & _ & _ & _ & Hscore).
  destruct (dispatchAll_scoring now (collisionQueue deltaTime prev)
              (fst (gameLoopUpdate deltaTime now prev))
              (collisionQueue_scoring deltaTime prev))
    as (_ & _ & _ & _ & _ & _ & _ & Hcount).
  rewrite Hcount, bounces_collisionQueue.
  generalize (hitCount (platformHit deltaTime prev))
    (hitCount (wallHit deltaTime prev)) (hitCount (ceilingHit deltaTime prev)).
  intros p w c.
  destruct Hscore as [-> | [t ->]]; cbn; ring.
Qed.

(** The wall and the ceiling branch of a frame each enqueue a bounce. *)
Lemma gameLoopUpdate_reports
    (deltaTime now : number) (prev : GameData.t) :
  GameData.gameState prev = GameState.PLAYING ->
  timedOut now prev = false ->
  (wallHit deltaTime prev = true ->
   In (BALL_BOUNCE Surface.wall None)
     (snd (gameLoopUpdate deltaTime now prev)))
  /\ (ceilingHit deltaTime prev = true ->
      In (BALL_BOUNCE Surface.ceiling None)
        (snd (gameLoopUpdate deltaTime now prev))).
Proof.
  intros Hplaying Htime.
  rewrite (gameLoopUpdate_queue deltaTime now prev Hplaying Htime).
  unfold collisionQueue. split; intros ->.
  - apply in_or_app. left. apply in_or_app. right.
    apply in_or_app. left. now left.
  - apply in_or_app. left. apply in_or_app. right.
    apply in_or_app. right. now left.
Qed.
(** A frame that hits the wall or the ceiling ends with a streak of 0,
    whatever else happens in it. *)
Lemma frame_streak_reset (deltaTime now : number) (prev : GameData.t) :
  GameData.gameState prev = GameState.PLAYING ->
  timedOut now prev = false ->
  wallHit deltaTime prev = true \/ ceilingHit deltaTime prev = true ->
  ScoreData.consecutiveBounces
    (GameData.scoreData (frame deltaTime now prev)) = 0.
Proof.
  intros Hplaying Htime Hhit.
  rewrite frame_eq.
  rewrite (gameLoopUpdate_queue deltaTime now prev Hplaying Htime).
  generalize (fst (gameLoopUpdate deltaTime now prev)). intro state.
  unfold collisionQueue.
  destruct (platformHit deltaTime prev), (wallHit deltaTime prev),
    (ceilingHit deltaTime prev);
    try (destruct Hhit; discriminate);
    destruct (checkFloorCollision _ _);
    try destruct (Js.geb _ (LevelConfig.targetBounces _));
    cbn; try reflexivity;
    destruct (find _ _); reflexivity.
Qed.

(** A floor-crossing frame without a hit keeps the streak. *)
Lemma frame_streak_life_loss (deltaTime now : number) (prev : GameData.t) :
  floorCrossing deltaTime now prev = true ->
  platformHit deltaTime prev = false ->
  wallHit deltaTime prev = false ->
  ceilingHit deltaTime prev = false ->
  ScoreData.consecutiveBounces
    (GameData.scoreData (frame deltaTime now prev))
  = ScoreData.consecutiveBounces (GameData.scoreData prev).
Proof.
  intros Hfloor Hplatform Hwall Hceiling.
  destruct (floorCrossing_inv _ _ _ Hfloor) as (Hplaying & Htime & Hcheck).
  rewrite frame_eq.
  rewrite (gameLoopUpdate_queue deltaTime now prev Hplaying Htime), Hcheck.
  unfold collisionQueue. rewrite Hplatform, Hwall, Hceiling.
  destruct (gameLoopUpdate_state deltaTime now prev)
    as (_ & _ & _ & _ & Hscore).
  cbn. destruct Hscore as [-> | [t ->]]; reflexivity.
Qed.

(** ** The combo invariant, step by step *)

Lemma comboConsistent_initial : comboConsistent createInitialGameData.
Proof. reflexivity. Qed.

Lemma comboConsistent_dispatch
    (now : number) (action : GameAction) (state : GameData.t) :
  keepsCombo action -> comboConsistent state ->
  comboConsistent (dispatch now state action).
Proof.
  intros Hkeeps Hinv. unfold comboConsistent in *.
  destruct action; try exact Hinv; try reflexivity.
  - (* UPDATE_SCORE *)
    cbn in Hkeeps |- *. destruct Hkeeps as [-> ->]. exact Hinv.
  - (* NEXT_LEVEL *)
    cbn. destruct (find _ _); [reflexivity | exact Hinv].
Qed.

Lemma loopAction_keepsCombo (action : GameAction) :
  loopAction action -> keepsCombo action.
Proof. destruct action; cbn; intuition. Qed.

Lemma comboConsistent_dispatchAll
    (now : number) (actions : list GameAction) (state : GameData.t) :
  Forall keepsCombo actions -> comboConsistent state ->
  comboConsistent (dispatchAll now actions state).
Proof.
  intro Hall. revert state.
  induction Hall as [| a rest Ha _ IH]; intros state Hinv.
  - exact Hinv.
  - apply (IH (dispatch now state a)). now apply comboConsistent_dispatch.
Qed.

Lemma comboConsistent_frame
    (deltaTime now : number) (state : GameData.t) :
  comboConsistent state -> comboConsistent (frame deltaTime now state).
Proof.
  intro Hinv. rewrite frame_eq. apply comboConsistent_dispatchAll.
  - eapply Forall_impl; [ | apply gameLoopUpdate_loopActions].
    exact loopAction_keepsCombo.
  - destruct (gameLoopUpdate_state deltaTime now state)
      as (_ & _ & _ & _ & Hscore).
    unfold comboConsistent in *.
    destruct Hscore as [-> | [t ->]]; exact Hinv.
Qed.

(** In play, within the time limit and with no floor crossing, a met bounce
    target makes the frame enqueue [NEXT_LEVEL]. *)
Lemma gameLoopUpdate_completes
    (deltaTime now : number) (prev : GameData.t) :
  GameData.gameState prev = GameState.PLAYING ->
  timedOut now prev = false ->
  checkFloorCollision (ballAfterCeiling deltaTime prev)
    (GameData.config prev) = false ->
  LevelConfig.targetBounces (GameData.currentLevel prev)
  <= ScoreData.bounceCount (GameData.scoreData prev) ->
  In NEXT_LEVEL (snd (gameLoopUpdate deltaTime now prev)).
Proof.
  intros Hplaying Htime Hcheck Hmet.
  rewrite (gameLoopUpdate_queue deltaTime now prev Hplaying Htime), Hcheck.
  apply leb_le in Hmet. unfold Js.geb. rewrite Hmet.
  apply in_or_app. right. now left.
Qed.
End ReducerFacts.

Create HintDb combo.
#[export] Hint Resolve comboConsistent_initial comboConsistent_dispatch
  comboConsistent_frame : combo.

(** ** The physics integrator and the collision checks *)

(** C6. Under the configuration precondition [2 * radius <= canvasWidth],
    the ball left by the wall check has its x inside
    [[radius, canvasWidth - radius]], whatever its x and its velocity were
    before the check. *)
Theorem checkWallCollision_x_within
    (ball : BallPhysics.t) (config : GameConfig.t)
    (Hfits : 2 * BallPhysics.radius ball <= GameConfig.canvasWidth config) :
  let ball' := snd (checkWallCollision ball config) in
  BallPhysics.radius ball <= BallPhysics.px ball'
  /\ BallPhysics.px ball'
     <= GameConfig.canvasWidth config - BallPhysics.radius ball.
Proof.
  unfold checkWallCollision.
  destruct (BallPhysics.px ball - BallPhysics.radius ball <? 0) eqn:Hleft.
  - cbn. apply ltb_lt in Hleft. repeat split; lra.
  - destruct (BallPhysics.px ball + BallPhysics.radius ball
              >? GameConfig.canvasWidth config) eqn:Hright.
    + cbn. apply gtb_gt in Hright. repeat split; lra.
    + cbn. apply ltb_ge in Hleft. apply gtb_le in Hright.
      repeat split; lra.
Qed.

Lemma checkWallCollision_x_within_witness :
  2 * BallPhysics.radius strayBall
  <= GameConfig.canvasWidth createDefaultGameConfig
  /\ BallPhysics.radius strayBall
     <= BallPhysics.px
          (snd (checkWallCollision strayBall createDefaultGameConfig))
  /\ BallPhysics.px
       (snd (checkWallCollision strayBall createDefaultGameConfig))
     <= GameConfig.canvasWidth createDefaultGameConfig
        - BallPhysics.radius strayBall.
Proof.
  split.
  - vm_compute. discriminate.
  - apply (checkWallCollision_x_within strayBall createDefaultGameConfig).
    vm_compute. discriminate.
Defined.

(** C7, as stated, fails: with [dt = 0] the integrator still clamps the
    velocity, so a ball faster than [maxVelocity] comes back slower. *)
Lemma updateBallPhysics_dt0_not_identity :
  BallPhysics.vx (updateBallPhysics fastBall 0) == 20
  /\ BallPhysics.vx fastBall == 22
  /\ ~ sameMotion (updateBallPhysics fastBall 0) fastBall.
Proof.
  split; [reflexivity | split; [reflexivity | ]].
  intros (_ & _ & Hvx & _). vm_compute in Hvx. discriminate.
Qed.

(** With [dt = 0] the integrator leaves the position alone and clamps each
    velocity component to [[-maxVelocity, maxVelocity]]. *)
Lemma updateBallPhysics_dt0_clamps (ball : BallPhysics.t) :
  let ball' := updateBallPhysics ball 0 in
  let maxVelocity := BallPhysics.maxVelocity ball in
  BallPhysics.px ball' == BallPhysics.px ball
  /\ BallPhysics.py ball' == BallPhysics.py ball
  /\ BallPhysics.vx ball'
     == clamp (BallPhysics.vx ball) (- maxVelocity) maxVelocity
  /\ BallPhysics.vy ball'
     == clamp (BallPhysics.vy ball) (- maxVelocity) maxVelocity.
Proof.
  cbn -[clamp Qplus Qmult Qopp].
  repeat split; try ring.
  unfold clamp, Math_max, Math_min.
  apply Q.max_compat; [reflexivity | ].
  apply Q.min_compat; [ring | reflexivity].
Qed.

(** C7 (amended). For every ball whose velocity components lie within
    [[-maxVelocity, maxVelocity]], the integrator with [dt = 0] returns a
    ball with the same position and the same velocity. *)
Theorem updateBallPhysics_dt0_identity
    (ball : BallPhysics.t)
    (Hvx : - BallPhysics.maxVelocity ball <= BallPhysics.vx ball
           /\ BallPhysics.vx ball <= BallPhysics.maxVelocity ball)
    (Hvy : - BallPhysics.maxVelocity ball <= BallPhysics.vy ball
           /\ BallPhysics.vy ball <= BallPhysics.maxVelocity ball) :
  sameMotion (updateBallPhysics ball 0) ball.
Proof.
  destruct (updateBallPhysics_dt0_clamps ball) as (Hx & Hy & Hcx & Hcy).
  destruct Hvx as [Hvx1 Hvx2], Hvy as [Hvy1 Hvy2].
  repeat split; auto.
  - rewrite Hcx. now apply clamp_within.
  - rewrite Hcy. now apply clamp_within.
Qed.

Lemma updateBallPhysics_dt0_identity_witness :
  sameMotion (updateBallPhysics slowBall 0) slowBall.
Proof.
  apply (updateBallPhysics_dt0_identity slowBall).
  - split; vm_compute; discriminate.
  - split; vm_compute; discriminate.
Defined.

(** ** Scoring *)

(** C8. For every surface, hit position and multiplier the bounce score is
    [floor ((10 + bonus) * multiplier)], where the bonus is
    [max 0 (1 - |hitPosition|) * 5] on the platform and [0] on wall, ceiling
    and floor. *)
Theorem calculateBounceScore_spec
    (surface : Surface.t) (hitPosition multiplier : number) :
  calculateBounceScore surface hitPosition multiplier
  = bounceScoreSpec surface hitPosition multiplier.
Proof.
  unfold calculateBounceScore, bounceScoreSpec, Math_floor, Math_max, Math_abs.
  f_equal. apply Qfloor_comp.
  destruct surface; cbn [Surface.is_platform]; ring.
Qed.

(** ** The launch *)

Section Launch.
Context {runtime : MathRuntime}.

(** The velocity of a launch at 90 degrees and full power, for any runtime:
    the launch speed is the speed limit of the configuration, [vx] is that
    speed times the runtime's cosine of [90 * Math.PI / 180] and [vy] minus
    that speed times its sine. *)
Lemma launchBall_right_angle (ball : BallPhysics.t) (config : GameConfig.t) :
  let launched := launchBall ball 90 100 config in
  BallPhysics.vx launched
  == GameConfig.maxVelocity config * Math_cos (90 * Math_PI / 180)
  /\ BallPhysics.vy launched
     == - (GameConfig.maxVelocity config * Math_sin (90 * Math_PI / 180)).
Proof.
  cbv zeta. unfold launchBall.
  change (BallPhysics.vx (BallPhysics.with_velocity ?v ball))
    with (BallVelocity.vx v).
  change (BallPhysics.vy (BallPhysics.with_velocity ?v ball))
    with (BallVelocity.vy v).
  cbn [BallVelocity.vx BallVelocity.vy].
  split; field.
Qed.

(** C9 (amended). Launching any ball at 90 degrees and power 100 sends it
    straight up at the speed limit of the configuration up to the error of
    the runtime's trigonometry: when the runtime's cosine of
    [90 * Math.PI / 180] is within [1e-15] of 0 and its sine within [1e-15]
    of 1, as in double precision, [vx] is within [1e-15 * maxVelocity] of 0
    and [vy] within [1e-15 * maxVelocity] of [- maxVelocity].  [vx] is
    exactly 0 only if that cosine is exactly 0 or the speed limit is 0.
    Position, radius, gravity, bounce coefficient and the speed limit of the
    ball are left alone. *)
Theorem launchBall_nearly_straight_up
    (ball : BallPhysics.t) (config : GameConfig.t)
    (Hcos : Qabs (Math_cos (90 * Math_PI / 180)) <= launchTolerance)
    (Hsin : Qabs (Math_sin (90 * Math_PI / 180) - 1) <= launchTolerance) :
  let launched := launchBall ball 90 100 config in
  let maxVelocity := GameConfig.maxVelocity config in
  Qabs (BallPhysics.vx launched) <= launchTolerance * Qabs maxVelocity
  /\ Qabs (BallPhysics.vy launched + maxVelocity)
     <= launchTolerance * Qabs maxVelocity
  /\ (BallPhysics.vx launched == 0
      <-> maxVelocity == 0 \/ Math_cos (90 * Math_PI / 180) == 0)
  /\ BallPhysics.position launched = BallPhysics.position ball
  /\ (BallPhysics.radius launched, BallPhysics.gravity launched,
      BallPhysics.bounceCoefficient launched, BallPhysics.maxVelocity launched)
     = (BallPhysics.radius ball, BallPhysics.gravity ball,
        BallPhysics.bounceCoefficient ball, BallPhysics.maxVelocity ball).
Proof.
  cbv zeta.
  destruct (launchBall_right_angle ball config) as [Hvx Hvy].
  cbv zeta in Hvx, Hvy.
  set (c := Math_cos (90 * Math_PI / 180)) in *.
  set (s := Math_sin (90 * Math_PI / 180)) in *.
  set (m := GameConfig.maxVelocity config) in *.
  split; [ | split; [ | split; [ | split; reflexivity]]].
  - rewrite Hvx, Qabs_Qmult, (Qmult_comm launchTolerance).
    apply Qmult_le_compat_nonneg.
    + split; [apply Qabs_nonneg | apply Qle_refl].
    + split; [apply Qabs_nonneg | exact Hcos].
  - assert (E : BallPhysics.vy (launchBall ball 90 100 config) + m
                == m * - (s - 1)) by (rewrite Hvy; ring).
    rewrite E, Qabs_Qmult, Qabs_opp, (Qmult_comm launchTolerance).
    apply Qmult_le_compat_nonneg.
    + split; [apply Qabs_nonneg | apply Qle_refl].
    + split; [apply Qabs_nonneg | exact Hsin].
  - rewrite Hvx. split.
    + intro H. apply Qmult_integral in H. exact H.
    + intros [H | H]; rewrite H; ring.
Qed.
End Launch.

(** ** Bounces, lives and the combo *)

Section Claims.
Context {runtime : MathRuntime}.

(** C10. Every bounce event the scoring engine processes adds one to
    [bounceCount] and adds the bounce score, on every surface; the frame
    loop reports wall and ceiling hits as bounce events, so that they count
    towards [targetBounces] like platform hits. *)
Theorem every_bounce_counts :
  (forall (now : number) (prev : GameData.t)
          (surface : Surface.t) (hitPosition : option number),
     let after :=
       GameData.scoreData
         (dispatch now prev (BALL_BOUNCE surface hitPosition)) in
     ScoreData.bounceCount after
     = ScoreData.bounceCount (GameData.scoreData prev) + 1
     /\ ScoreData.score after
        = ScoreData.score (GameData.scoreData prev)
          + calculateBounceScore surface (Js.or0 hitPosition)
              (ScoreData.multiplier (GameData.scoreData prev)))
  /\ (forall (deltaTime now : number) (prev : GameData.t),
        GameData.gameState prev = GameState.PLAYING ->
        timedOut now prev = false ->
        (wallHit deltaTime prev = true ->
         In (BALL_BOUNCE Surface.wall None)
           (snd (gameLoopUpdate deltaTime now prev)))
        /\ (ceilingHit deltaTime prev = true ->
            In (BALL_BOUNCE Surface.ceiling None)
              (snd (gameLoopUpdate deltaTime now prev)))
        /\ (checkFloorCollision (ballAfterCeiling deltaTime prev)
              (GameData.config prev) = false ->
            ScoreData.bounceCount (GameData.scoreData prev)
            < LevelConfig.targetBounces (GameData.currentLevel prev) ->
            ScoreData.bounceCount
              (GameData.scoreData (frame deltaTime now prev))
            == ScoreData.bounceCount (GameData.scoreData prev)
               + hitCount (platformHit deltaTime prev)
               + hitCount (wallHit deltaTime prev)
               + hitCount (ceilingHit deltaTime prev))
        /\ (checkFloorCollision (ballAfterCeiling deltaTime prev)
              (GameData.config prev) = false ->
            LevelConfig.targetBounces (GameData.currentLevel prev)
            <= ScoreData.bounceCount (GameData.scoreData prev) ->
            In NEXT_LEVEL (snd (gameLoopUpdate deltaTime now prev)))).
Proof.
  split.
  - intros now prev surface hitPosition. split; reflexivity.
  - intros deltaTime now prev Hplaying Htime.
    destruct (gameLoopUpdate_reports deltaTime now prev Hplaying Htime)
      as [Hwall Hceiling].
    repeat split; auto.
    + now apply frame_bounceCount.
    + now apply gameLoopUpdate_completes.
Qed.

(** C3 (amended). A wall, ceiling or floor bounce event sets
    [consecutiveBounces] to 0, and so does a frame of the loop that hits the
    wall or the ceiling; a platform bounce adds exactly 1; the life-loss
    transition leaves the streak as it is, also as the end of a
    floor-crossing frame. *)
Theorem consecutiveBounces_transitions
    (now : number) (prev : GameData.t) (hitPosition : option number) :
  let streak s := ScoreData.consecutiveBounces (GameData.scoreData s) in
  streak (dispatch now prev (BALL_BOUNCE Surface.wall hitPosition)) = 0
  /\ streak (dispatch now prev (BALL_BOUNCE Surface.ceiling hitPosition)) = 0
  /\ streak (dispatch now prev (BALL_BOUNCE Surface.floor hitPosition)) = 0
  /\ streak (dispatchAll now (bounceQueue WallBounce) prev) = 0
  /\ streak (dispatchAll now (bounceQueue CeilingBounce) prev) = 0
  /\ streak (dispatch now prev (BALL_BOUNCE Surface.platform hitPosition))
     = streak prev + 1
  /\ streak (dispatch now prev LOSE_LIFE) = streak prev
  /\ (forall deltaTime : number,
        GameData.gameState prev = GameState.PLAYING ->
        timedOut now prev = false ->
        wallHit deltaTime prev = true \/ ceilingHit deltaTime prev = true ->
        streak (frame deltaTime now prev) = 0)
  /\ (forall deltaTime : number,
        floorCrossing deltaTime now prev = true ->
        platformHit deltaTime prev = false ->
        wallHit deltaTime prev = false ->
        ceilingHit deltaTime prev = false ->
        streak (frame deltaTime now prev) = streak prev).
Proof.
  cbv zeta. do 7 (split; [reflexivity | ]). split.
  - intros deltaTime. apply frame_streak_reset.
  - intros deltaTime. apply frame_streak_life_loss.
Qed.

(** C5. The multiplier is the combo multiplier of the streak counter in
    every state reached from the initial state by frames of the loop and by
    dispatching the actions of the game: every action, with any payload,
    except an [UPDATE_SCORE] whose payload carries a [multiplier] or a
    [consecutiveBounces] of its own, which nothing in the repository
    dispatches. *)
Theorem multiplier_follows_streak (s : GameData.t) :
  reachableVia keepsCombo s -> comboConsistent s.
Proof.
  induction 1 as [| now action s _ IH Hkeeps | deltaTime now s _ IH].
  - exact comboConsistent_initial.
  - exact (comboConsistent_dispatch now action s Hkeeps IH).
  - exact (comboConsistent_frame deltaTime now s IH).
Qed.

(** C4 (amended). Starting from a streak of 0, the sequence platform,
    platform, platform, wall, platform leaves the multipliers
    1, 1.5, 1.5, 1, 1 after its five bounces, wherever the platform was hit. *)
Theorem multiplier_sequence
    (now : number) (start : GameData.t) (h1 h2 h3 h5 : number)
    (Hstreak : ScoreData.consecutiveBounces (GameData.scoreData start) == 0) :
  multiplierTrace now start
    [PlatformBounce h1; PlatformBounce h2; PlatformBounce h3; WallBounce;
     PlatformBounce h5]
  = [1; 1.5; 1.5; 1; 1].
Proof.
  cbn -[calculateComboMultiplier Qplus].
  rewrite !Hstreak. reflexivity.
Qed.
End Claims.

(** ** Closed examples *)

Lemma multiplier_sequence_witness :
  ScoreData.consecutiveBounces (GameData.scoreData createInitialGameData) == 0
  /\ multiplierTrace 0 createInitialGameData
       [PlatformBounce 0; PlatformBounce 0; PlatformBounce 0; WallBounce;
        PlatformBounce 0]
     = [1; 1.5; 1.5; 1; 1].
Proof.
  split.
  - reflexivity.
  - apply (multiplier_sequence 0 createInitialGameData 0 0 0 0). reflexivity.
Defined.

(** C4, as stated, fails: the first platform bounce brings the streak to 1,
    whose multiplier is 1, and the third brings it to 3, whose multiplier is
    1.5; neither the multipliers stored after the bounces nor the
    multipliers applied to them are 1.5, 1.5, 2, 1, 1. *)
Lemma multiplier_sequence_not_as_claimed :
  multiplierTrace 0 createInitialGameData comboScenario = [1; 1.5; 1.5; 1; 1]
  /\ ~ Forall2 Qeq (multiplierTrace 0 createInitialGameData comboScenario)
         [1.5; 1.5; 2; 1; 1]
  /\ ~ Forall2 Qeq
         (ScoreData.multiplier (GameData.scoreData createInitialGameData)
          :: removelast
               (multiplierTrace 0 createInitialGameData comboScenario))
         [1.5; 1.5; 2; 1; 1].
Proof.
  assert (Htrace : multiplierTrace 0 createInitialGameData comboScenario
                   = [1; 1.5; 1.5; 1; 1]) by (vm_compute; reflexivity).
  rewrite Htrace. split; [reflexivity | split].
  - intro H. inversion H as [| ? ? ? ? Hhead _]; subst.
    vm_compute in Hhead. discriminate.
  - cbn. intro H. inversion H as [| ? ? ? ? Hhead _]; subst.
    vm_compute in Hhead. discriminate.
Qed.

(** The wall hit of [headingForWall] ends a streak of 2, and the life lost
    by [fallingPastPlatform] leaves the streak where it was. *)
Lemma consecutiveBounces_transitions_witness :
  wallHit 1 headingForWall = true
  /\ ScoreData.consecutiveBounces (GameData.scoreData headingForWall) == 2
  /\ ScoreData.consecutiveBounces
       (GameData.scoreData (frame 1 1000 headingForWall)) = 0
  /\ floorCrossing 1 1000 (fallingPastPlatform 3 0 0 None) = true
  /\ ScoreData.consecutiveBounces
       (GameData.scoreData (frame 1 1000 (fallingPastPlatform 3 0 0 None)))
     = ScoreData.consecutiveBounces
         (GameData.scoreData (fallingPastPlatform 3 0 0 None)).
Proof.
  destruct (consecutiveBounces_transitions 1000 headingForWall None)
    as (_ & _ & _ & _ & _ & _ & _ & Hreset & _).
  destruct (consecutiveBounces_transitions 1000
              (fallingPastPlatform 3 0 0 None) None)
    as (_ & _ & _ & _ & _ & _ & _ & _ & Hkeep).
  split; [reflexivity | ].
  split; [reflexivity | ].
  split; [apply (Hreset 1); [reflexivity | reflexivity | left; reflexivity] | ].
  split; [reflexivity | ].
  apply (Hkeep 1); reflexivity.
Defined.

(** C3, as stated, fails: the life-loss transition changes the lives, the
    phase and the ball, and keeps the streak. *)
Lemma life_loss_keeps_streak :
  reachable afterOnePlatformBounce
  /\ ScoreData.consecutiveBounces
       (GameData.scoreData (dispatch 0 afterOnePlatformBounce LOSE_LIFE))
     == 1
  /\ ~ ScoreData.consecutiveBounces
         (GameData.scoreData (dispatch 0 afterOnePlatformBounce LOSE_LIFE))
       == 0.
Proof.
  split; [ | split].
  - apply reach_dispatch; [apply reach_initial | exact I].
  - reflexivity.
  - intro H. vm_compute in H. discriminate.
Qed.

Lemma multiplier_follows_streak_witness :
  reachableVia keepsCombo shortGame /\ comboConsistent shortGame.
Proof.
  assert (Hreach : reachableVia keepsCombo shortGame).
  { unfold shortGame.
    apply reach_dispatch; [ | split; reflexivity].
    do 2 (apply reach_dispatch; [ | exact I]).
    apply reach_frame.
    do 2 (apply reach_dispatch; [ | exact I]).
    apply reach_initial. }
  split; [exact Hreach | ].
  apply (multiplier_follows_streak shortGame). exact Hreach.
Defined.

(** Why the payloads of [UPDATE_SCORE] are restricted above: the reducer
    spreads the payload over the score data, so a payload that carried a
    multiplier of its own would be stored as it is. *)
Lemma update_score_breaks_multiplier :
  reachable afterMultiplierUpdate
  /\ ScoreData.multiplier (GameData.scoreData afterMultiplierUpdate) == 3
  /\ calculateComboMultiplier
       (ScoreData.consecutiveBounces (GameData.scoreData afterMultiplierUpdate))
     == 1
  /\ ~ comboConsistent afterMultiplierUpdate.
Proof.
  split; [ | split; [ | split]].
  - apply reach_dispatch; [apply reach_initial | exact I].
  - reflexivity.
  - reflexivity.
  - intro H. vm_compute in H. discriminate.
Qed.

(** A wall bounce takes the ninth bounce of level 1 to the tenth, and the
    frame after it moves on to level 2. *)
Lemma every_bounce_counts_witness :
  GameData.gameState headingForWall = GameState.PLAYING
  /\ timedOut 1000 headingForWall = false
  /\ wallHit 1 headingForWall = true
  /\ In (BALL_BOUNCE Surface.wall None)
       (snd (gameLoopUpdate 1 1000 headingForWall))
  /\ ScoreData.bounceCount (GameData.scoreData (frame 1 1000 headingForWall))
     == 9 + 0 + 1 + 0
  /\ In NEXT_LEVEL (snd (gameLoopUpdate 1 1016 (frame 1 1000 headingForWall)))
  /\ ScoreData.level
       (GameData.scoreData (frame 1 1016 (frame 1 1000 headingForWall)))
     == 2.
Proof.
  destruct (proj2 every_bounce_counts 1 1000 headingForWall)
    as (Hwall & _ & Hcount & _); try reflexivity.
  destruct (proj2 every_bounce_counts 1 1016 (frame 1 1000 headingForWall))
    as (_ & _ & _ & Hnext); try reflexivity.
  split; [reflexivity | ].
  split; [reflexivity | ].
  split; [reflexivity | ].
  split; [apply Hwall; reflexivity | ].
  split; [apply Hcount; reflexivity | ].
  split; [ | reflexivity].
  apply Hnext; [reflexivity | ]. vm_compute. discriminate.
Defined.

(** C1. The code at a state with five shield bounces left: the reducer has
    no case for [UPDATE_SHIELD_BOUNCES], and the floor branch of the loop
    dispatches [LOSE_LIFE] without reading [shieldBounces]; the floor
    crossing costs a life and the counter stays at 5. *)
Theorem shield_is_not_consulted :
  let before := fallingPastPlatform 3 0 0 (Some 5) in
  let after := frame 1 1000 before in
  floorCrossing 1 1000 before = true
  /\ ScoreData.lives (GameData.scoreData after) == 2
  /\ GameData.gameState after = GameState.AIMING
  /\ GameData.shieldBounces after = Some 5
  /\ dispatch 1000 (fallingPastPlatform 3 0 0 None) (UPDATE_SHIELD_BOUNCES 5)
     = fallingPastPlatform 3 0 0 None.
Proof.
  cbv zeta.
  assert (Hfloor : floorCrossing 1 1000 (fallingPastPlatform 3 0 0 (Some 5))
                   = true) by reflexivity.
  destruct (frame_floorCrossing 1 1000 _ Hfloor)
    as (Hlives & _ & Hshield & Hstate).
  split; [exact Hfloor | ].
  split; [rewrite Hlives; reflexivity | ].
  split; [rewrite Hstate, Hlives; reflexivity | ].
  split; [rewrite Hshield; reflexivity | reflexivity].
Qed.

(** C2. The code at a state with one life left, score 120 and high score
    50: the floor crossing ends the game with no life left, and the high
    score is still 50, not [max 50 120]. *)
Theorem last_life_keeps_old_high_score :
  let before := fallingPastPlatform 1 120 50 None in
  let after := frame 1 1000 before in
  floorCrossing 1 1000 before = true
  /\ ScoreData.lives (GameData.scoreData after) == 0
  /\ GameData.gameState after = GameState.GAME_OVER
  /\ ScoreData.highScore (GameData.scoreData after) == 50
  /\ Math_max (ScoreData.highScore (GameData.scoreData before))
       (ScoreData.score (GameData.scoreData before)) == 120
  /\ ScoreData.highScore
       (GameData.scoreData (dispatch 1000 before GAME_OVER)) == 120.
Proof.
  cbv zeta.
  assert (Hfloor : floorCrossing 1 1000 (fallingPastPlatform 1 120 50 None)
                   = true) by reflexivity.
  destruct (frame_floorCrossing 1 1000 _ Hfloor)
    as (Hlives & Hhigh & _ & Hstate).
  split; [exact Hfloor | ].
  split; [rewrite Hlives; reflexivity | ].
  split; [rewrite Hstate, Hlives; reflexivity | ].
  split; [rewrite Hhigh; reflexivity | ].
  split; reflexivity.
Qed.

(** The cosine and the sine of the runtime that is close to the doubles,
    at the angle of a launch at 90 degrees. *)
Lemma doubleRuntime_right_angle :
  (61232 # 1000000000000000000000)
  < @Math_cos doubleRuntime (90 * @Math_PI doubleRuntime / 180)
  /\ @Math_cos doubleRuntime (90 * @Math_PI doubleRuntime / 180)
     < (61233 # 1000000000000000000000)
  /\ Qabs (@Math_sin doubleRuntime (90 * @Math_PI doubleRuntime / 180) - 1)
     <= launchTolerance.
Proof.
  split; [ vm_compute; reflexivity | ].
  split; [ vm_compute; reflexivity | vm_compute; discriminate ].
Qed.

(** With the runtime that is close to the doubles, the launch of C9 is
    straight up within the tolerance. *)
Lemma launchBall_nearly_straight_up_witness :
  Qabs (BallPhysics.vx
          (@launchBall doubleRuntime slowBall 90 100 createDefaultGameConfig))
  <= launchTolerance * Qabs 20
  /\ Qabs (BallPhysics.vy
             (@launchBall doubleRuntime slowBall 90 100
                createDefaultGameConfig) + 20)
     <= launchTolerance * Qabs 20.
Proof.
  destruct doubleRuntime_right_angle as (Hlow & Hhigh & Hsin).
  destruct (@launchBall_nearly_straight_up doubleRuntime slowBall
              createDefaultGameConfig) as (Hvx & Hvy & _).
  - revert Hlow Hhigh.
    generalize (@Math_cos doubleRuntime (90 * @Math_PI doubleRuntime / 180)).
    intros c Hlow Hhigh. unfold launchTolerance.
    apply Qabs_case; intros _; lra.
  - exact Hsin.
  - split; [exact Hvx | exact Hvy].
Defined.

(** C9, as stated, fails: the double nearest to pi is not pi, the cosine
    of its half is about [6.1e-17], and with the default speed limit of 20
    the launch has a [vx] of about [1.2246e-15], not 0. *)
Lemma launchBall_vx_not_zero :
  let launched :=
    @launchBall doubleRuntime slowBall 90 100 createDefaultGameConfig in
  ~ BallPhysics.vx launched == 0
  /\ (12246 # 10000000000000000000) < BallPhysics.vx launched
  /\ BallPhysics.vx launched < (12247 # 10000000000000000000).
Proof.
  cbv zeta.
  destruct doubleRuntime_right_angle as (Hlow & Hhigh & _).
  destruct (@launchBall_right_angle doubleRuntime slowBall
              createDefaultGameConfig) as [Hvx _].
  cbv zeta in Hvx.
  change (GameConfig.maxVelocity createDefaultGameConfig) with 20 in Hvx.
  revert Hlow Hhigh Hvx.
  generalize (@Math_cos doubleRuntime (90 * @Math_PI doubleRuntime / 180)).
  generalize (BallPhysics.vx
                (@launchBall doubleRuntime slowBall 90 100
                   createDefaultGameConfig)).
  intros vx c Hlow Hhigh Hvx.
  repeat split; try intro H; lra.
Qed.

(** * Further properties of the game logic *)

(** ** Clamping and the speed limit *)

Lemma clamp_bounds (v lo hi : number) :
  lo <= hi -> lo <= clamp v lo hi /\ clamp v lo hi <= hi.
Proof.
  intro Hle. unfold clamp, Math_max, Math_min. split.
  - apply Q.le_max_l.
  - apply Q.max_lub; [exact Hle | apply Q.le_min_r].
Qed.

(** X1. [clamp] returns a value between its bounds whenever the bounds are
    in order, and the value itself when that already lies between them;
    with the bounds out of order the lower bound wins. *)
Theorem clamp_spec (v lo hi : number) :
  (lo <= hi ->
   lo <= clamp v lo hi /\ clamp v lo hi <= hi
   /\ (lo <= v -> v <= hi -> clamp v lo hi == v))
  /\ (hi < lo -> clamp v lo hi == lo).
Proof.
  split.
  - intro Hle. destruct (clamp_bounds v lo hi Hle) as [H1 H2].
    repeat split; auto. intros. now apply clamp_within.
  - intro Hlt. unfold clamp, Math_max, Math_min.
    apply Q.max_l. apply Qle_trans with hi; [apply Q.le_min_r | lra].
Qed.

Lemma clamp_spec_witness :
  -20 <= clamp 22 (-20) 20 /\ clamp 22 (-20) 20 <= 20
  /\ clamp 5 20 (-20) == 20.
Proof.
  destruct (clamp_spec 22 (-20) 20) as [Hordered _].
  destruct (clamp_spec 5 20 (-20)) as [_ Hswapped].
  destruct Hordered as (H1 & H2 & _); [vm_compute; discriminate | ].
  split; [exact H1 | split; [exact H2 | ]].
  apply Hswapped. reflexivity.
Defined.

(** X2. Whatever the time step and the velocity before, the ball leaves the
    integrator with both velocity components within
    [[-maxVelocity, maxVelocity]], provided [maxVelocity] is not negative;
    radius, gravity, bounce coefficient and speed limit are untouched. *)
Theorem updateBallPhysics_speed_limit
    (ball : BallPhysics.t) (deltaTime : number)
    (Hmax : 0 <= BallPhysics.maxVelocity ball) :
  let ball' := updateBallPhysics ball deltaTime in
  - BallPhysics.maxVelocity ball <= BallPhysics.vx ball'
  /\ BallPhysics.vx ball' <= BallPhysics.maxVelocity ball
  /\ - BallPhysics.maxVelocity ball <= BallPhysics.vy ball'
  /\ BallPhysics.vy ball' <= BallPhysics.maxVelocity ball
  /\ BallPhysics.radius ball' = BallPhysics.radius ball
  /\ BallPhysics.gravity ball' = BallPhysics.gravity ball
  /\ BallPhysics.bounceCoefficient ball' = BallPhysics.bounceCoefficient ball
  /\ BallPhysics.maxVelocity ball' = BallPhysics.maxVelocity ball.
Proof.
  assert (Hord : - BallPhysics.maxVelocity ball <= BallPhysics.maxVelocity ball)
    by lra.
  cbn -[clamp Qplus Qmult Qopp].
  destruct (clamp_bounds (BallPhysics.vx ball) _ _ Hord) as [Hx1 Hx2].
  destruct (clamp_bounds
              (BallPhysics.vy ball
               + BallPhysics.gravity ball * deltaTime * 0.1) _ _ Hord)
    as [Hy1 Hy2].
  repeat split; assumption.
Qed.

Lemma updateBallPhysics_speed_limit_witness :
  BallPhysics.vx (updateBallPhysics fastBall 3) <= 20
  /\ - (20) <= BallPhysics.vy (updateBallPhysics fastBall 3).
Proof.
  destruct (updateBallPhysics_speed_limit fastBall 3) as (_ & H2 & H3 & _).
  - vm_compute. discriminate.
  - split; [exact H2 | exact H3].
Defined.

(** ** The collision checks *)

Lemma checkCeilingCollision_below (ball : BallPhysics.t) :
  let ball' := snd (checkCeilingCollision ball) in
  BallPhysics.radius ball <= BallPhysics.py ball'
  /\ BallPhysics.px ball' = BallPhysics.px ball
  /\ BallPhysics.radius ball' = BallPhysics.radius ball.
Proof.
  unfold checkCeilingCollision.
  destruct (BallPhysics.py ball - BallPhysics.radius ball <? 0) eqn:Htop;
    cbn; repeat split; try lra.
  apply ltb_ge in Htop. lra.
Qed.

(** X3. The ceiling check leaves the ball at or below the ceiling line
    ([radius <= y]) and never changes its x.  It reports a hit exactly when
    the top of the ball was above the line; a hit reverses and damps [vy]
    and keeps [vx]; a miss changes nothing. *)
Theorem checkCeilingCollision_spec (ball : BallPhysics.t) :
  let result := fst (checkCeilingCollision ball) in
  let ball' := snd (checkCeilingCollision ball) in
  (Collision.hit result = true
   <-> BallPhysics.py ball - BallPhysics.radius ball < 0)
  /\ BallPhysics.radius ball <= BallPhysics.py ball'
  /\ BallPhysics.px ball' = BallPhysics.px ball
  /\ BallVelocity.vx (Collision.newVelocity result) = BallPhysics.vx ball
  /\ (Collision.hit result = true ->
      BallPhysics.py ball' = BallPhysics.radius ball
      /\ BallVelocity.vy (Collision.newVelocity result)
         == - (BallPhysics.bounceCoefficient ball * BallPhysics.vy ball))
  /\ (Collision.hit result = false ->
      ball' = ball /\ Collision.newVelocity result = BallPhysics.velocity ball).
Proof.
  unfold checkCeilingCollision.
  destruct (BallPhysics.py ball - BallPhysics.radius ball <? 0) eqn:Htop;
    cbn.
  - apply ltb_lt in Htop. repeat split; try tauto; try discriminate.
    + lra.
    + unfold BallPhysics.vy. ring.
  - apply ltb_ge in Htop. repeat split; try tauto; try discriminate.
    + intro H. lra.
    + lra.
Qed.

(** X4. Once the wall check has put a ball back between the walls, a second
    check of that ball reports no hit and leaves it where it is. *)
Theorem checkWallCollision_settles
    (ball : BallPhysics.t) (config : GameConfig.t)
    (Hfits : 2 * BallPhysics.radius ball <= GameConfig.canvasWidth config) :
  let ball' := snd (checkWallCollision ball config) in
  checkWallCollision ball' config
  = ({| Collision.hit := false;
        Collision.newVelocity := BallPhysics.velocity ball' |}, ball').
Proof.
  assert (Hnohit : forall b : BallPhysics.t,
             BallPhysics.radius b <= BallPhysics.px b ->
             BallPhysics.px b
             <= GameConfig.canvasWidth config - BallPhysics.radius b ->
             checkWallCollision b config
             = ({| Collision.hit := false;
                   Collision.newVelocity := BallPhysics.velocity b |}, b)).
  { intros b Hleft Hright. unfold checkWallCollision.
    assert (H1 : (BallPhysics.px b - BallPhysics.radius b <? 0) = false)
      by (apply ltb_ge; lra).
    assert (H2 : (BallPhysics.px b + BallPhysics.radius b
                  >? GameConfig.canvasWidth config) = false)
      by (apply gtb_le; lra).
    now rewrite H1, H2. }
  cbv zeta. apply Hnohit; unfold checkWallCollision;
    destruct (BallPhysics.px ball - BallPhysics.radius ball <? 0) eqn:Hleft;
    try destruct (BallPhysics.px ball + BallPhysics.radius ball
                  >? GameConfig.canvasWidth config) eqn:Hright;
    cbn;
    try apply ltb_lt in Hleft; try apply ltb_ge in Hleft;
    try apply gtb_gt in Hright; try apply gtb_le in Hright; lra.
Qed.

Lemma checkWallCollision_settles_witness :
  Collision.hit (fst (checkWallCollision strayBall createDefaultGameConfig))
  = true
  /\ Collision.hit
       (fst (checkWallCollision
               (snd (checkWallCollision strayBall createDefaultGameConfig))
               createDefaultGameConfig))
     = false.
Proof.
  split; [reflexivity | ].
  rewrite (checkWallCollision_settles strayBall createDefaultGameConfig).
  - reflexivity.
  - vm_compute. discriminate.
Defined.

Lemma checkPlatformCollision_cases
    (ball : BallPhysics.t) (platform : Platform.t) :
  let overlap :=
    (BallPhysics.px ball + BallPhysics.radius ball
       >? Platform.x platform - Platform.width platform / 2)
    && (BallPhysics.px ball - BallPhysics.radius ball
          <? Platform.x platform + Platform.width platform / 2)
    && ((BallPhysics.py ball + BallPhysics.radius ball
           >? Platform.y platform - Platform.height platform / 2)
        && (BallPhysics.py ball - BallPhysics.radius ball
              <? Platform.y platform + Platform.height platform / 2)
        && (BallPhysics.vy ball >? 0)) in
  (overlap = false /\ checkPlatformCollision ball platform = platformMiss ball)
  \/ (overlap = true
      /\ checkPlatformCollision ball platform
         = ({| PlatformCollision.hit := true;
               PlatformCollision.newVelocity :=
                 {| BallVelocity.vx :=
                      BallPhysics.vx ball
                      + (BallPhysics.px ball - Platform.x platform)
                        / (Platform.width platform / 2) * 2;
                    BallVelocity.vy :=
                      BallPhysics.vy ball
                      * - BallPhysics.bounceCoefficient ball |};
               PlatformCollision.hitPosition :=
                 (BallPhysics.px ball - Platform.x platform)
                 / (Platform.width platform / 2) |},
            set_y (Platform.y platform - Platform.height platform / 2
                   - BallPhysics.radius ball) ball)).
Proof.
  unfold checkPlatformCollision, platformMiss.
  destruct ((BallPhysics.px ball + BallPhysics.radius ball
               >? Platform.x platform - Platform.width platform / 2)
            && (BallPhysics.px ball - BallPhysics.radius ball
                  <? Platform.x platform + Platform.width platform / 2));
    [ | left; split; reflexivity].
  destruct ((BallPhysics.py ball + BallPhysics.radius ball
               >? Platform.y platform - Platform.height platform / 2)
            && (BallPhysics.py ball - BallPhysics.radius ball
                  <? Platform.y platform + Platform.height platform / 2)
            && (BallPhysics.vy ball >? 0));
    [right | left]; split; reflexivity.
Qed.



(** X6. The hit position a platform hit reports is the offset of the ball
    from the platform centre in half-widths; it is not clamped to [[-1, 1]],
    but for a platform of positive width it stays within
    [1 + radius / (width / 2)] of the centre.  The hit adds twice the hit
    position to [vx]. *)
Theorem checkPlatformCollision_hitPosition
    (ball : BallPhysics.t) (platform : Platform.t)
    (Hhit : PlatformCollision.hit (fst (checkPlatformCollision ball platform))
            = true)
    (Hwidth : 0 < Platform.width platform) :
  let result := fst (checkPlatformCollision ball platform) in
  let reach :=
    1 + BallPhysics.radius ball / (Platform.width platform / 2) in
  PlatformCollision.hitPosition result * (Platform.width platform / 2)
  == BallPhysics.px ball - Platform.x platform
  /\ - reach < PlatformCollision.hitPosition result
  /\ PlatformCollision.hitPosition result < reach
  /\ BallVelocity.vx (PlatformCollision.newVelocity result)
     == BallPhysics.vx ball + PlatformCollision.hitPosition result * 2.
Proof.
  destruct (checkPlatformCollision_cases ball platform)
    as [[_ Hmiss] | [Hoverlap Heq]].
  - rewrite Hmiss in Hhit. discriminate.
  - cbv zeta. rewrite Heq. cbn [fst PlatformCollision.hitPosition
      PlatformCollision.newVelocity BallVelocity.vx].
    apply andb_prop in Hoverlap. destruct Hoverlap as [Hx _].
    apply andb_prop in Hx. destruct Hx as [Hleft Hright].
    apply gtb_gt in Hleft. apply ltb_lt in Hright.
    set (half := Platform.width platform / 2) in *.
    set (d := BallPhysics.px ball - Platform.x platform) in *.
    set (r := BallPhysics.radius ball) in *.
    assert (Hhalf : 0 < half)
      by (subst half; apply Qlt_shift_div_l; lra).
    assert (Hd1 : - (half + r) < d) by (subst d; lra).
    assert (Hd2 : d < half + r) by (subst d; lra).
    assert (Hreach : (1 + r / half) * half == half + r)
      by (field; lra).
    repeat split.
    + field. lra.
    + apply Qlt_shift_div_l; [exact Hhalf | ].
      setoid_replace (- (1 + r / half) * half) with (- (half + r))
        by (rewrite <- Hreach; ring).
      exact Hd1.
    + apply Qlt_shift_div_r; [exact Hhalf | ].
      rewrite Hreach. exact Hd2.
Qed.

Lemma checkPlatformCollision_hitPosition_witness :
  PlatformCollision.hitPosition
    (fst (checkPlatformCollision landingBall level1Platform)) == 0.5
  /\ BallVelocity.vx
       (PlatformCollision.newVelocity
          (fst (checkPlatformCollision landingBall level1Platform)))
     == 3 + PlatformCollision.hitPosition
              (fst (checkPlatformCollision landingBall level1Platform)) * 2.
Proof.
  split; [reflexivity | ].
  destruct (checkPlatformCollision_hitPosition landingBall level1Platform)
    as (_ & _ & _ & Hvx).
  - reflexivity.
  - vm_compute. reflexivity.
  - exact Hvx.
Defined.

(** X7. The platform check never catches a ball that is not moving down,
    however deep the ball overlaps the platform: no hit, the ball and its
    velocity unchanged. *)
Theorem checkPlatformCollision_ignores_rising
    (ball : BallPhysics.t) (platform : Platform.t)
    (Hrising : BallPhysics.vy ball <= 0) :
  checkPlatformCollision ball platform = platformMiss ball.
Proof.
  destruct (checkPlatformCollision_cases ball platform)
    as [[_ Hmiss] | [Hoverlap _]]; [exact Hmiss | ].
  apply andb_prop in Hoverlap. destruct Hoverlap as [_ Hfall].
  apply andb_prop in Hfall. destruct Hfall as [_ Hvy].
  apply gtb_gt in Hvy. lra.
Qed.

Lemma checkPlatformCollision_ignores_rising_witness :
  let rising :=
    BallPhysics.with_velocity
      {| BallVelocity.vx := 3; BallVelocity.vy := -5 |} landingBall in
  BallPhysics.vy rising <= 0
  /\ checkPlatformCollision rising level1Platform = platformMiss rising.
Proof.
  cbv zeta. split; [vm_compute; discriminate | ].
  apply checkPlatformCollision_ignores_rising. vm_compute. discriminate.
Defined.

(** X8. On a platform whose width is not 0, a hit with the ball exactly
    above the platform centre reports hit position 0, leaves [vx] as it
    was, and is worth the full centre bonus: [floor (15 * multiplier)]
    points.  (With a width of 0 the source divides 0 by 0.) *)
Theorem centre_hit
    (ball : BallPhysics.t) (platform : Platform.t) (multiplier : number)
    (Hhit : PlatformCollision.hit (fst (checkPlatformCollision ball platform))
            = true)
    (Hwidth : ~ Platform.width platform == 0)
    (Hcentre : BallPhysics.px ball == Platform.x platform) :
  let result := fst (checkPlatformCollision ball platform) in
  PlatformCollision.hitPosition result == 0
  /\ BallVelocity.vx (PlatformCollision.newVelocity result)
     == BallPhysics.vx ball
  /\ calculateBounceScore Surface.platform
       (PlatformCollision.hitPosition result) multiplier
     = Math_floor (15 * multiplier).
Proof.
  destruct (checkPlatformCollision_cases ball platform)
    as [[_ Hmiss] | [_ Heq]].
  - rewrite Hmiss in Hhit. discriminate.
  - cbv zeta. rewrite Heq. cbn [fst PlatformCollision.hitPosition
      PlatformCollision.newVelocity BallVelocity.vx].
    assert (Hzero : (BallPhysics.px ball - Platform.x platform)
                    / (Platform.width platform / 2) == 0).
    { rewrite Hcentre. unfold Qdiv. ring. }
    repeat split.
    + exact Hzero.
    + rewrite Hzero. ring.
    + unfold calculateBounceScore, Math_floor, Math_max, Math_abs.
      cbn [Surface.is_platform]. f_equal. apply Qfloor_comp.
      rewrite Hzero. reflexivity.
Qed.

Lemma centre_hit_witness :
  PlatformCollision.hit
    (fst (checkPlatformCollision centredBall level1Platform)) = true
  /\ ~ Platform.width level1Platform == 0
  /\ calculateBounceScore Surface.platform
       (PlatformCollision.hitPosition
          (fst (checkPlatformCollision centredBall level1Platform))) 1.5
     == 22.
Proof.
  assert (Hwidth : ~ Platform.width level1Platform == 0)
    by (vm_compute; discriminate).
  split; [reflexivity | split; [exact Hwidth | ]].
  destruct (centre_hit centredBall level1Platform 1.5) as (_ & _ & Hscore).
  - reflexivity.
  - exact Hwidth.
  - reflexivity.
  - rewrite Hscore. reflexivity.
Defined.

Lemma checkCeilingCollision_spec_witness :
  let escaped := set_y 5 fastBall in
  Collision.hit (fst (checkCeilingCollision escaped)) = true
  /\ BallPhysics.py (snd (checkCeilingCollision escaped)) = 20
  /\ BallVelocity.vy (Collision.newVelocity (fst (checkCeilingCollision escaped)))
     == - (0.75 * -5).
Proof.
  cbv zeta.
  destruct (checkCeilingCollision_spec (set_y 5 fastBall))
    as (Hiff & _ & _ & _ & Hhit & _).
  assert (Htop : Collision.hit (fst (checkCeilingCollision (set_y 5 fastBall)))
                 = true).
  { apply Hiff. vm_compute. reflexivity. }
  destruct (Hhit Htop) as [Hy Hvy].
  split; [exact Htop | split; [exact Hy | exact Hvy]].
Defined.

(** ** The platform *)

(** X9. Moving the platform keeps it 10 pixels clear of both canvas edges
    whenever the canvas is wide enough for that ([width + 20 <=
    canvasWidth]), follows the target exactly when the target allows it, and
    changes nothing but x.  On a canvas that is too narrow the platform sits
    at the left limit. *)
Theorem updatePlatformPosition_spec
    (platform : Platform.t) (targetX : number) (config : GameConfig.t) :
  let platform' := updatePlatformPosition platform targetX config in
  let halfWidth := Platform.width platform / 2 in
  let minX := halfWidth + 10 in
  let maxX := GameConfig.canvasWidth config - halfWidth - 10 in
  (Platform.y platform', Platform.width platform',
   Platform.height platform', Platform.speed platform')
  = (Platform.y platform, Platform.width platform,
     Platform.height platform, Platform.speed platform)
  /\ (Platform.width platform + 20 <= GameConfig.canvasWidth config ->
      10 <= Platform.x platform' - halfWidth
      /\ Platform.x platform' + halfWidth
         <= GameConfig.canvasWidth config - 10
      /\ (minX <= targetX -> targetX <= maxX ->
          Platform.x platform' == targetX))
  /\ (GameConfig.canvasWidth config < Platform.width platform + 20 ->
      Platform.x platform' == minX).
Proof.
  cbv zeta. unfold updatePlatformPosition. cbn [Platform.with_x Platform.x
    Platform.y Platform.width Platform.height Platform.speed].
  set (half := Platform.width platform / 2).
  assert (Hhalf : Platform.width platform == 2 * half)
    by (subst half; field).
  split; [reflexivity | split].
  - intro Hroom.
    assert (Hord : half + 10 <= GameConfig.canvasWidth config - half - 10)
      by lra.
    destruct (clamp_bounds targetX _ _ Hord) as [H1 H2].
    repeat split; try lra.
    intros. now apply clamp_within.
  - intro Hnarrow. unfold clamp, Math_max, Math_min.
    apply Q.max_l.
    apply Qle_trans with (GameConfig.canvasWidth config - half - 10);
      [apply Q.le_min_r | lra].
Qed.

Lemma updatePlatformPosition_spec_witness :
  Platform.x (updatePlatformPosition level1Platform 5 createDefaultGameConfig)
  == 60
  /\ 10 <= Platform.x
             (updatePlatformPosition level1Platform 5 createDefaultGameConfig)
           - Platform.width level1Platform / 2.
Proof.
  split; [reflexivity | ].
  destruct (updatePlatformPosition_spec level1Platform 5
              createDefaultGameConfig) as (_ & Hroom & _).
  destruct Hroom as (Hleft & _ & _); [vm_compute; discriminate | ].
  exact Hleft.
Defined.

(** ** Scores *)

(** X10. The combo multiplier is a staircase: it never decreases when the
    streak grows, and it always lies between 1 and 3. *)
Theorem calculateComboMultiplier_monotone (a b : number) :
  1 <= calculateComboMultiplier a
  /\ calculateComboMultiplier a <= 3
  /\ (a <= b -> calculateComboMultiplier a <= calculateComboMultiplier b).
Proof.
  unfold calculateComboMultiplier.
  destruct (a <=? 1) eqn:A1; [ | destruct (a <=? 3) eqn:A3;
    [ | destruct (a <=? 5) eqn:A5; [ | destruct (a <=? 10) eqn:A10]]];
  (repeat split; [lra | lra | ]); intro Hab;
  destruct (b <=? 1) eqn:B1; try lra;
  destruct (b <=? 3) eqn:B3; try lra;
  destruct (b <=? 5) eqn:B5; try lra;
  destruct (b <=? 10) eqn:B10; try lra;
  repeat match goal with
         | H : (_ <=? _) = true |- _ => apply leb_le in H
         | H : (_ <=? _) = false |- _ => apply leb_gt in H
         end; lra.
Qed.

Lemma calculateComboMultiplier_monotone_witness :
  calculateComboMultiplier 2 <= calculateComboMultiplier 7.
Proof.
  destruct (calculateComboMultiplier_monotone 2 7) as (_ & _ & Hmono).
  apply Hmono. vm_compute. discriminate.
Defined.

Lemma centreBonus_bounds (hitPosition : number) :
  0 <= Math_max 0 (1 - Math_abs hitPosition)
  /\ Math_max 0 (1 - Math_abs hitPosition) <= 1.
Proof.
  unfold Math_max, Math_abs. split.
  - apply Q.le_max_l.
  - apply Q.max_lub; [lra | ].
    pose proof (Qabs_nonneg hitPosition). lra.
Qed.

(** X11. With a multiplier that is not negative, a bounce on any surface
    at any hit position scores at least [floor (10 * multiplier)] and at
    most [floor (15 * multiplier)] points, and never a negative number; off
    the platform it scores [floor (10 * multiplier)] exactly. *)
Theorem calculateBounceScore_bounds
    (surface : Surface.t) (hitPosition multiplier : number)
    (Hmult : 0 <= multiplier) :
  0 <= calculateBounceScore surface hitPosition multiplier
  /\ Math_floor (10 * multiplier)
     <= calculateBounceScore surface hitPosition multiplier
  /\ calculateBounceScore surface hitPosition multiplier
     <= Math_floor (15 * multiplier)
  /\ (surface <> Surface.platform ->
      calculateBounceScore surface hitPosition multiplier
      = Math_floor (10 * multiplier)).
Proof.
  destruct (centreBonus_bounds hitPosition) as [Hb0 Hb1].
  assert (Hfloor : forall x y : number, x <= y -> Math_floor x <= Math_floor y).
  { intros x y Hxy. unfold Math_floor. rewrite <- Zle_Qle.
    now apply Qfloor_resp_le. }
  assert (Hzero : 0 <= Math_floor (10 * multiplier)).
  { change 0 with (Math_floor 0). apply Hfloor. lra. }
  unfold calculateBounceScore.
  set (bonus := if Surface.is_platform surface
                then 0 + Math_max 0 (1 - Math_abs hitPosition) * 5 else 0).
  assert (Hbonus : 0 <= bonus /\ bonus <= 5).
  { subst bonus. destruct (Surface.is_platform surface); lra. }
  destruct Hbonus as [Hlow Hhigh].
  assert (Hlo : 10 * multiplier <= (10 + bonus) * multiplier) by nra.
  assert (Hhi : (10 + bonus) * multiplier <= 15 * multiplier) by nra.
  repeat split.
  - apply Qle_trans with (Math_floor (10 * multiplier));
      [exact Hzero | now apply Hfloor].
  - now apply Hfloor.
  - now apply Hfloor.
  - intro Hoff. subst bonus. unfold Math_floor. f_equal.
    apply Qfloor_comp. destruct surface; try contradiction; cbn; ring.
Qed.

Lemma calculateBounceScore_bounds_witness :
  Math_floor (10 * 2.5) <= calculateBounceScore Surface.platform 0.4 2.5
  /\ calculateBounceScore Surface.platform 0.4 2.5 <= Math_floor (15 * 2.5)
  /\ calculateBounceScore Surface.platform 0.4 2.5 == 32.
Proof.
  destruct (calculateBounceScore_bounds Surface.platform 0.4 2.5)
    as (_ & Hlow & Hhigh & _).
  - vm_compute. discriminate.
  - split; [exact Hlow | split; [exact Hhigh | reflexivity]].
Defined.

Lemma Math_floor_le (x y : number) : x <= y -> Math_floor x <= Math_floor y.
Proof.
  intro Hxy. unfold Math_floor. rewrite <- Zle_Qle. now apply Qfloor_resp_le.
Qed.

(** X12. The time bonus is never negative, is 0 once the time limit is
    used up, and does not grow with the time elapsed; the level score is the
    time bonus, plus 100 exactly when the bounce target was met. *)
Theorem calculateLevelScore_spec
    (bounceCount targetBounces timeElapsed timeLimit : number) :
  0 <= calculateTimeBonus timeElapsed timeLimit
  /\ (timeLimit <= timeElapsed ->
      calculateTimeBonus timeElapsed timeLimit == 0)
  /\ (forall later : number,
        timeElapsed <= later ->
        calculateTimeBonus later timeLimit
        <= calculateTimeBonus timeElapsed timeLimit)
  /\ (targetBounces <= bounceCount ->
      calculateLevelScore bounceCount targetBounces timeElapsed timeLimit
      == 100 + calculateTimeBonus timeElapsed timeLimit)
  /\ (bounceCount < targetBounces ->
      calculateLevelScore bounceCount targetBounces timeElapsed timeLimit
      == calculateTimeBonus timeElapsed timeLimit).
Proof.
  unfold calculateLevelScore, calculateTimeBonus, Math_max.
  repeat split.
  - apply Qle_trans with (Math_floor 0); [vm_compute; discriminate | ].
    apply Math_floor_le.
    pose proof (Q.le_max_l 0 (timeLimit - timeElapsed)). lra.
  - intro Hover. unfold Math_floor.
    rewrite (Qfloor_comp (Qmax 0 (timeLimit - timeElapsed) * 2) 0).
    + reflexivity.
    + rewrite Q.max_l by lra. ring.
  - intros later Hlater. apply Math_floor_le.
    assert (Qmax 0 (timeLimit - later) <= Qmax 0 (timeLimit - timeElapsed)).
    { apply Q.max_le_compat_l. lra. }
    lra.
  - intro Hmet. apply leb_le in Hmet. unfold Js.geb. rewrite Hmet.
    reflexivity.
  - intro Hshort. apply leb_gt in Hshort. unfold Js.geb. rewrite Hshort.
    ring.
Qed.

Lemma calculateLevelScore_spec_witness :
  calculateLevelScore 10 10 42.5 60 == 100 + calculateTimeBonus 42.5 60
  /\ calculateTimeBonus 42.5 60 == 35
  /\ calculateTimeBonus 61 60 == 0.
Proof.
  destruct (calculateLevelScore_spec 10 10 42.5 60)
    as (_ & _ & _ & Hmet & _).
  destruct (calculateLevelScore_spec 10 10 61 60) as (_ & Hover & _).
  split; [apply Hmet; vm_compute; discriminate | ].
  split; [reflexivity | apply Hover; vm_compute; discriminate].
Defined.

(** X13. The high-score update never lowers the high score, makes it at
    least the score, picks one of the two, leaves the other fields alone,
    and changes nothing when applied a second time. *)
Theorem updateHighScore_spec (scoreData : ScoreData.t) :
  let updated := updateHighScore scoreData in
  ScoreData.highScore scoreData <= ScoreData.highScore updated
  /\ ScoreData.score scoreData <= ScoreData.highScore updated
  /\ (ScoreData.highScore updated = ScoreData.highScore scoreData
      \/ ScoreData.highScore updated = ScoreData.score scoreData)
  /\ (ScoreData.score updated, ScoreData.lives updated, ScoreData.level updated)
     = (ScoreData.score scoreData, ScoreData.lives scoreData,
        ScoreData.level scoreData)
  /\ updateHighScore updated = updated.
Proof.
  cbv zeta. unfold updateHighScore, Math_max. cbn.
  set (h := ScoreData.highScore scoreData).
  set (s := ScoreData.score scoreData).
  assert (Hpick : Qmax h s = h \/ Qmax h s = s).
  { unfold Qmax, GenericMinMax.gmax. destruct (h ?= s); auto. }
  assert (Hidem : Qmax (Qmax h s) s = Qmax h s).
  { unfold Qmax, GenericMinMax.gmax.
    destruct (h ?= s) eqn:E; [ | | now rewrite E].
    - now rewrite E.
    - assert (Hs : (s ?= s) = Eq) by (apply Qeq_alt; reflexivity).
      now rewrite Hs. }
  repeat split.
  - apply Q.le_max_l.
  - apply Q.le_max_r.
  - exact Hpick.
  - now rewrite Hidem.
Qed.

(** ** The reducer *)

Section ReducerProperties.
Context {runtime : MathRuntime}.

(** Induction over the reachable states: a property of the initial state
    that every allowed action and every frame's own update keep holds in
    every reachable state. *)
Lemma reachableVia_invariant
    (allowed : GameAction -> Prop) (P : GameData.t -> Prop) :
  P createInitialGameData ->
  (forall now action s, allowed action -> P s -> P (dispatch now s action)) ->
  (forall deltaTime now s, P s -> P (fst (gameLoopUpdate deltaTime now s))) ->
  (forall action, loopAction action -> allowed action) ->
  forall s, reachableVia allowed s -> P s.
Proof.
  intros Hinit Hstep Hloop Hallowed.
  assert (Hall : forall now actions s,
             Forall allowed actions -> P s -> P (dispatchAll now actions s)).
  { intros now actions.
    induction actions as [| a rest IH]; intros s Hforall Hs; [exact Hs | ].
    inversion Hforall; subst. apply (IH (dispatch now s a)); auto. }
  induction 1 as [| now action s _ IH Hok | deltaTime now s _ IH].
  - exact Hinit.
  - now apply Hstep.
  - rewrite frame_eq. apply Hall; [ | now apply Hloop].
    eapply Forall_impl; [exact Hallowed | apply gameLoopUpdate_loopActions].
Qed.

(** X14. Pausing and resuming a game in play gives back exactly the state
    before the pause, and the frames of the loop that fall in between change
    nothing. *)
Theorem pause_resume_round_trip
    (now1 now2 now3 deltaTime : number) (s : GameData.t)
    (Hplaying : GameData.gameState s = GameState.PLAYING) :
  let paused := dispatch now1 s PAUSE_GAME in
  GameData.gameState paused = GameState.PAUSED
  /\ frame deltaTime now2 paused = paused
  /\ dispatch now3 (frame deltaTime now2 paused) RESUME_GAME = s.
Proof.
  cbv zeta.
  assert (Hframe : frame deltaTime now2 (dispatch now1 s PAUSE_GAME)
                   = dispatch now1 s PAUSE_GAME).
  { rewrite frame_eq, gameLoopUpdate_not_playing; [reflexivity | ].
    cbn. discriminate. }
  split; [reflexivity | split; [exact Hframe | ]].
  rewrite Hframe. destruct s. cbn in Hplaying |- *. now subst.
Qed.

(** X15. From the initial state, frames of the loop and actions other than
    an [UPDATE_SCORE] that sets the lives keep the lives between 0 and the
    initial 3. *)
Theorem lives_stay_in_range (s : GameData.t) :
  reachableVia keepsLives s -> livesInRange s.
Proof.
  apply reachableVia_invariant.
  - split; vm_compute; discriminate.
  - intros now action state Hkeeps [Hlow Hhigh]. unfold livesInRange in *.
    destruct action; try (split; assumption);
      try (split; vm_compute; discriminate).
    + (* UPDATE_SCORE *)
      cbn in Hkeeps |- *. rewrite Hkeeps. cbn. split; assumption.
    + (* LOSE_LIFE *)
      cbn. unfold Math_max. split; [apply Q.le_max_l | ].
      apply Q.max_lub; lra.
    + (* NEXT_LEVEL *)
      cbn. destruct (find _ _); cbn; split; assumption.
  - intros deltaTime now state Hinv. unfold livesInRange in *.
    destruct (gameLoopUpdate_state deltaTime now state)
      as (_ & _ & _ & _ & Hscore).
    destruct Hscore as [-> | [t ->]]; exact Hinv.
  - intros action Hloop. destruct action; try contradiction; exact I.
Qed.

(** X16. From the initial state, frames of the loop and actions other than
    an [UPDATE_SCORE] that sets the level keep the bookkeeping of levels
    consistent: the configuration is the default one, the active level
    configuration is one of its five levels, and the level number of the
    score data is the number of that level, between 1 and 5. *)
Theorem level_stays_in_sync (s : GameData.t) :
  reachableVia keepsLevel s ->
  levelInSync s
  /\ 1 <= ScoreData.level (GameData.scoreData s)
  /\ ScoreData.level (GameData.scoreData s) <= 5.
Proof.
  intro Hreach.
  assert (Hsync : levelInSync s).
  { revert s Hreach. apply reachableVia_invariant.
    - split; [reflexivity | split; [now left | reflexivity]].
    - intros now action state Hkeeps (Hconfig & Hin & Hlevel).
      unfold levelInSync in *.
      destruct action; try (repeat split; assumption);
        try (split; [reflexivity | split; [now left | reflexivity]]).
      + (* UPDATE_SCORE *)
        cbn in Hkeeps |- *. rewrite Hkeeps. cbn. repeat split; assumption.
      + (* NEXT_LEVEL *)
        cbn. destruct (find _ _) as [next | ] eqn:Hfind; cbn.
        * apply find_some in Hfind. destruct Hfind as [Hnext Heq].
          rewrite Hconfig in Hnext. apply Qeq_bool_iff in Heq.
          repeat split; assumption.
        * repeat split; assumption.
    - intros deltaTime now state (Hconfig & Hin & Hlevel).
      unfold levelInSync in *.
      destruct (gameLoopUpdate_state deltaTime now state)
        as (_ & -> & -> & _ & Hscore).
      destruct Hscore as [-> | [t ->]]; repeat split; assumption.
    - intros action Hloop. destruct action; try contradiction; exact I. }
  split; [exact Hsync | ].
  destruct Hsync as (_ & Hin & Hlevel). rewrite <- Hlevel.
  cbn in Hin.
  destruct Hin as [<- | [<- | [<- | [<- | [<- | []]]]]];
    split; vm_compute; discriminate.
Qed.

Lemma find_level_default (level : number) (k : Z) :
  level == inject_Z k ->
  find (fun candidate => LevelConfig.level candidate =? level + 1)
    createLevelConfigs
  = find (fun candidate => LevelConfig.level candidate =? inject_Z k + 1)
      createLevelConfigs.
Proof.
  intro Hk. unfold createLevelConfigs, Js.eqb. cbn [find].
  now rewrite !Hk.
Qed.

(** X17. [NEXT_LEVEL] on the default configuration: from level 1, 2, 3 or 4
    the game moves to aiming on the next level, with the bounce count and
    the combo reset, the ball and the platform re-created for that level,
    and score, lives and high score kept.  From level 5 there is no next
    level: the game is over, the level stays, and the high score becomes
    the larger of high score and score. *)
Theorem NEXT_LEVEL_on_default_levels
    (now : number) (prev : GameData.t)
    (Hconfig : GameData.config prev = createDefaultGameConfig) :
  let level := ScoreData.level (GameData.scoreData prev) in
  let after := dispatch now prev NEXT_LEVEL in
  (level == 1 \/ level == 2 \/ level == 3 \/ level == 4 ->
   GameData.gameState after = GameState.AIMING
   /\ ScoreData.level (GameData.scoreData after) = level + 1
   /\ LevelConfig.level (GameData.currentLevel after) == level + 1
   /\ In (GameData.currentLevel after) createLevelConfigs
   /\ ScoreData.bounceCount (GameData.scoreData after) = 0
   /\ ScoreData.consecutiveBounces (GameData.scoreData after) = 0
   /\ ScoreData.multiplier (GameData.scoreData after) = 1
   /\ GameData.ballPhysics after
      = createInitialBallPhysics createDefaultGameConfig
          (GameData.currentLevel after)
   /\ GameData.platform after
      = createInitialPlatform createDefaultGameConfig
          (GameData.currentLevel after)
   /\ GameData.levelStartTime after = now
   /\ (ScoreData.score (GameData.scoreData after),
       ScoreData.lives (GameData.scoreData after),
       ScoreData.highScore (GameData.scoreData after))
      = (ScoreData.score (GameData.scoreData prev),
         ScoreData.lives (GameData.scoreData prev),
         ScoreData.highScore (GameData.scoreData prev)))
  /\ (level == 5 ->
      GameData.gameState after = GameState.GAME_OVER
      /\ ScoreData.level (GameData.scoreData after) = level
      /\ ScoreData.highScore (GameData.scoreData after)
         = Math_max (ScoreData.highScore (GameData.scoreData prev))
             (ScoreData.score (GameData.scoreData prev))
      /\ GameData.currentLevel after = GameData.currentLevel prev).
Proof.
  cbv zeta. split.
  - intro Hlevel.
    assert (Hfind : exists next,
               find (fun candidate =>
                       LevelConfig.level candidate
                       =? ScoreData.level (GameData.scoreData prev) + 1)
                 (GameConfig.levels (GameData.config prev)) = Some next).
    { rewrite Hconfig. cbn [GameConfig.levels createDefaultGameConfig].
      destruct Hlevel as [H | [H | [H | H]]];
        [rewrite (find_level_default _ 1 H)
        | rewrite (find_level_default _ 2 H)
        | rewrite (find_level_default _ 3 H)
        | rewrite (find_level_default _ 4 H)];
        eexists; vm_compute; reflexivity. }
    destruct Hfind as [next Hfind].
    pose proof (find_some _ _ Hfind) as [Hin Heq].
    rewrite Hconfig in Hin. apply Qeq_bool_iff in Heq.
    cbn. rewrite Hfind, Hconfig. cbn.
    repeat split; assumption.
  - intro Hlast.
    assert (Hfind : find (fun candidate =>
                            LevelConfig.level candidate
                            =? ScoreData.level (GameData.scoreData prev) + 1)
                      (GameConfig.levels (GameData.config prev)) = None).
    { rewrite Hconfig. cbn [GameConfig.levels createDefaultGameConfig].
      rewrite (find_level_default _ 5 Hlast). vm_compute. reflexivity. }
    cbn. rewrite Hfind. cbn. repeat split; reflexivity.
Qed.

(** X18. Losing a life never takes the lives below 0.  With more than one
    life left it takes exactly one and sends the game back to aiming; with
    one life or none it ends the game.  Either way the ball is re-created
    for the active level, and score, high score and level are kept; the
    phase the game was in plays no part. *)
Theorem LOSE_LIFE_spec (now : number) (prev : GameData.t) :
  let lives := ScoreData.lives (GameData.scoreData prev) in
  let after := dispatch now prev LOSE_LIFE in
  0 <= ScoreData.lives (GameData.scoreData after)
  /\ (1 < lives ->
      ScoreData.lives (GameData.scoreData after) == lives - 1
      /\ GameData.gameState after = GameState.AIMING)
  /\ (lives <= 1 ->
      ScoreData.lives (GameData.scoreData after) == 0
      /\ GameData.gameState after = GameState.GAME_OVER)
  /\ GameData.ballPhysics after
     = createInitialBallPhysics (GameData.config prev)
         (GameData.currentLevel prev)
  /\ (ScoreData.score (GameData.scoreData after),
      ScoreData.highScore (GameData.scoreData after),
      ScoreData.level (GameData.scoreData after))
     = (ScoreData.score (GameData.scoreData prev),
        ScoreData.highScore (GameData.scoreData prev),
        ScoreData.level (GameData.scoreData prev)).
Proof.
  cbv zeta. cbn. unfold Math_max.
  set (lives := ScoreData.lives (GameData.scoreData prev)).
  split; [apply Q.le_max_l | ].
  split; [ | split; [ | split; reflexivity]].
  - intro Hmore.
    assert (Hleft : Qmax 0 (lives - 1) == lives - 1)
      by (apply Q.max_r; lra).
    split; [exact Hleft | ].
    assert (Hpos : (Qmax 0 (lives - 1) <=? 0) = false)
      by (apply leb_gt; rewrite Hleft; lra).
    now rewrite Hpos.
  - intro Hlast.
    assert (Hleft : Qmax 0 (lives - 1) == 0) by (apply Q.max_l; lra).
    split; [exact Hleft | ].
    assert (Hzero : (Qmax 0 (lives - 1) <=? 0) = true)
      by (apply leb_le; rewrite Hleft; lra).
    now rewrite Hzero.
Qed.

(** X19. In a state where the multiplier is the combo multiplier of the
    streak, a bounce event on any surface adds between 10 and 45 points to
    the score. *)
Theorem bounce_is_worth_10_to_45
    (now : number) (prev : GameData.t)
    (surface : Surface.t) (hitPosition : option number)
    (Hcombo : comboConsistent prev) :
  let after := dispatch now prev (BALL_BOUNCE surface hitPosition) in
  let gain :=
    ScoreData.score (GameData.scoreData after)
    - ScoreData.score (GameData.scoreData prev) in
  10 <= gain /\ gain <= 45.
Proof.
  cbv zeta. cbn. unfold comboConsistent in Hcombo.
  set (m := ScoreData.multiplier (GameData.scoreData prev)) in *.
  set (streak := ScoreData.consecutiveBounces (GameData.scoreData prev)) in *.
  assert (Hm : 1 <= m /\ m <= 3).
  { rewrite Hcombo. unfold calculateComboMultiplier.
    destruct (streak <=? 1); [lra | ].
    destruct (streak <=? 3); [lra | ].
    destruct (streak <=? 5); [lra | ].
    destruct (streak <=? 10); lra. }
  destruct Hm as [Hm1 Hm3].
  destruct (centreBonus_bounds (Js.or0 hitPosition)) as [Hb0 Hb1].
  unfold calculateBounceScore.
  set (bonus := if Surface.is_platform surface
                then 0 + Math_max 0 (1 - Math_abs (Js.or0 hitPosition)) * 5
                else 0).
  assert (Hbonus : 0 <= bonus /\ bonus <= 5).
  { subst bonus. destruct (Surface.is_platform surface); lra. }
  destruct Hbonus as [Hlow Hhigh].
  assert (Hlo : Math_floor 10 <= Math_floor ((10 + bonus) * m))
    by (apply Math_floor_le; nra).
  assert (Hhi : Math_floor ((10 + bonus) * m) <= Math_floor 45)
    by (apply Math_floor_le; nra).
  change (Math_floor 10) with (inject_Z 10) in Hlo.
  change (Math_floor 45) with (inject_Z 45) in Hhi.
  split.
  - apply Qle_trans with (inject_Z 10); [vm_compute; discriminate | ].
    apply Qle_trans with (Math_floor ((10 + bonus) * m)); [exact Hlo | ].
    apply Qle_minus_iff. ring_simplify. apply Qle_refl.
  - apply Qle_trans with (Math_floor ((10 + bonus) * m)).
    + apply Qle_minus_iff. ring_simplify. apply Qle_refl.
    + apply Qle_trans with (inject_Z 45); [exact Hhi | ].
      vm_compute. discriminate.
Qed.

Lemma filter_terminal_scoring (actions : list GameAction) :
  Forall scoringAction actions -> filter terminalAction actions = [].
Proof.
  induction 1 as [| a rest Ha _ IH]; [reflexivity | ].
  cbn. destruct a; try contradiction; exact IH.
Qed.

Lemma scoring_not_terminal (actions : list GameAction) (a : GameAction) :
  Forall scoringAction actions -> In a actions -> terminalAction a = false.
Proof.
  intros Hall Hin. rewrite Forall_forall in Hall. specialize (Hall a Hin).
  destruct a; try contradiction; reflexivity.
Qed.

(** X20. A frame ends at most once: its queue holds at most one of
    [LOSE_LIFE] and [NEXT_LEVEL], and that one comes last, after the bounce
    events.  A floor crossing enqueues [LOSE_LIFE] and no [NEXT_LEVEL], also
    when the bounce target is met in the same frame; a frame past the time
    limit enqueues [LOSE_LIFE] alone and moves nothing; outside play the
    frame does nothing at all. *)
Theorem frame_ends_at_most_once
    (deltaTime now : number) (prev : GameData.t) :
  let queue := snd (gameLoopUpdate deltaTime now prev) in
  (List.length (filter terminalAction queue) <= 1)%nat
  /\ (exists bounceEvents ending,
        queue = bounceEvents ++ ending
        /\ Forall scoringAction bounceEvents
        /\ (ending = [] \/ ending = [LOSE_LIFE] \/ ending = [NEXT_LEVEL]))
  /\ (floorCrossing deltaTime now prev = true ->
      In LOSE_LIFE queue /\ ~ In NEXT_LEVEL queue)
  /\ (GameData.gameState prev = GameState.PLAYING ->
      timedOut now prev = true ->
      gameLoopUpdate deltaTime now prev = (prev, [LOSE_LIFE]))
  /\ (GameData.gameState prev <> GameState.PLAYING ->
      gameLoopUpdate deltaTime now prev = (prev, [])).
Proof.
  cbv zeta.
  assert (Hshape : exists bounceEvents ending,
             snd (gameLoopUpdate deltaTime now prev) = bounceEvents ++ ending
             /\ Forall scoringAction bounceEvents
             /\ (ending = [] \/ ending = [LOSE_LIFE] \/ ending = [NEXT_LEVEL])).
  { destruct (GameState.eqb (GameData.gameState prev) GameState.PLAYING)
      eqn:Hphase.
    - apply GameState_eqb_eq in Hphase.
      destruct (timedOut now prev) eqn:Htime.
      + rewrite (gameLoopUpdate_timed_out _ _ _ Hphase Htime).
        exists [], [LOSE_LIFE]. repeat split; auto.
      + rewrite (gameLoopUpdate_queue _ _ _ Hphase Htime).
        eexists _, _. split; [reflexivity | ].
        split; [apply collisionQueue_scoring | ].
        destruct (checkFloorCollision _ _); auto.
        destruct (Js.geb _ _); auto.
    - rewrite gameLoopUpdate_not_playing.
      + exists [], []. repeat split; auto.
      + intro H. apply GameState_eqb_eq in H. congruence. }
  split; [ | split; [exact Hshape | split; [ | split]]].
  - destruct Hshape as (events & ending & -> & Hscoring & Hending).
    rewrite filter_app, (filter_terminal_scoring _ Hscoring).
    destruct Hending as [-> | [-> | ->]]; cbn; lia.
  - intro Hfloor.
    destruct (floorCrossing_inv _ _ _ Hfloor) as (Hplaying & Htime & Hcheck).
    rewrite (gameLoopUpdate_queue _ _ _ Hplaying Htime), Hcheck. split.
    + apply in_or_app. right. now left.
    + intro Hin. apply in_app_or in Hin. destruct Hin as [Hin | Hin].
      * pose proof (scoring_not_terminal _ _
                      (collisionQueue_scoring deltaTime prev) Hin).
        discriminate.
      * destruct Hin as [H | []]. discriminate.
  - apply gameLoopUpdate_timed_out.
  - apply gameLoopUpdate_not_playing.
Qed.

(** The ball the frame's own update stores when the frame ends neither in
    a life loss nor in a level change. *)
Lemma gameLoopUpdate_ball (deltaTime now : number) (prev : GameData.t) :
  GameData.gameState prev = GameState.PLAYING ->
  timedOut now prev = false ->
  checkFloorCollision (ballAfterCeiling deltaTime prev)
    (GameData.config prev) = false ->
  (ScoreData.bounceCount (GameData.scoreData prev)
   >=? LevelConfig.targetBounces (GameData.currentLevel prev)) = false ->
  GameData.ballPhysics (fst (gameLoopUpdate deltaTime now prev))
  = ballAfterCeiling deltaTime prev.
Proof.
  intros Hplaying Htime Hcheck Hbelow. revert Hcheck.
  unfold timedOut in Htime. unfold gameLoopUpdate.
  rewrite Hplaying. cbn [GameState.eqb negb]. rewrite Htime.
  unfold ballAfterCeiling, ballAfterWall, ballAfterPlatform.
  destruct (checkPlatformCollision _ _) as [pc b1].
  destruct (checkWallCollision _ _) as [wc b2].
  destruct (checkCeilingCollision _) as [cc b3].
  intro Hcheck. rewrite Hcheck, Hbelow. reflexivity.
Qed.

Lemma ballAfterPlatform_radius (deltaTime : number) (prev : GameData.t) :
  BallPhysics.radius (ballAfterPlatform deltaTime prev)
  = BallPhysics.radius (GameData.ballPhysics prev).
Proof.
  unfold ballAfterPlatform.
  destruct (checkPlatformCollision_cases
              (updateBallPhysics (GameData.ballPhysics prev) deltaTime)
              (GameData.platform prev)) as [[_ ->] | [_ ->]];
    reflexivity.
Qed.

Lemma ballAfterWall_inside
    (deltaTime : number) (prev : GameData.t) :
  let radius := BallPhysics.radius (GameData.ballPhysics prev) in
  2 * radius <= GameConfig.canvasWidth (GameData.config prev) ->
  BallPhysics.radius (ballAfterWall deltaTime prev) = radius
  /\ radius <= BallPhysics.px (ballAfterWall deltaTime prev)
  /\ BallPhysics.px (ballAfterWall deltaTime prev)
     <= GameConfig.canvasWidth (GameData.config prev) - radius.
Proof.
  cbv zeta. intro Hfits.
  pose proof (ballAfterPlatform_radius deltaTime prev) as Hradius.
  unfold ballAfterWall, checkWallCollision.
  set (ball := ballAfterPlatform deltaTime prev) in *.
  rewrite <- Hradius in *.
  destruct (BallPhysics.px ball - BallPhysics.radius ball <? 0) eqn:Hleft.
  - cbn. apply ltb_lt in Hleft. repeat split; lra.
  - destruct (BallPhysics.px ball + BallPhysics.radius ball
              >? GameConfig.canvasWidth (GameData.config prev)) eqn:Hright.
    + cbn. apply gtb_gt in Hright. repeat split; lra.
    + cbn. apply ltb_ge in Hleft. apply gtb_le in Hright.
      repeat split; lra.
Qed.

Lemma checkFloorCollision_false
    (ball : BallPhysics.t) (config : GameConfig.t) :
  checkFloorCollision ball config = false ->
  BallPhysics.py ball + BallPhysics.radius ball
  <= GameConfig.canvasHeight config.
Proof. unfold checkFloorCollision. apply gtb_le. Qed.

(** The ceiling stage keeps the radius and the x of the ball it is given
    and leaves it at or below the ceiling line. *)
Lemma ballAfterCeiling_below (deltaTime : number) (prev : GameData.t) :
  let ball := ballAfterWall deltaTime prev in
  let ball' := ballAfterCeiling deltaTime prev in
  BallPhysics.radius ball' = BallPhysics.radius ball
  /\ BallPhysics.px ball' = BallPhysics.px ball
  /\ BallPhysics.radius ball <= BallPhysics.py ball'.
Proof.
  cbv zeta. unfold ballAfterCeiling.
  generalize (ballAfterWall deltaTime prev). intro ball.
  destruct (checkCeilingCollision_below ball) as (Hy & Hx & Hr).
  cbv zeta in Hy, Hx, Hr.
  destruct (checkCeilingCollision ball) as [cc b3].
  cbn [fst snd] in Hy, Hx, Hr.
  destruct (Collision.hit cc); repeat split; assumption.
Qed.

(** X21. A frame in play that ends neither in a life loss nor in a level
    change leaves the ball wholly inside the canvas: between the walls,
    below the ceiling and above the floor line, with the radius it had,
    provided the canvas is at least as wide as the ball. *)
Theorem frame_keeps_ball_inside
    (deltaTime now : number) (prev : GameData.t)
    (Hplaying : GameData.gameState prev = GameState.PLAYING)
    (Htime : timedOut now prev = false)
    (Hfloor : floorCrossing deltaTime now prev = false)
    (Hbelow : ScoreData.bounceCount (GameData.scoreData prev)
              < LevelConfig.targetBounces (GameData.currentLevel prev))
    (Hfits : 2 * BallPhysics.radius (GameData.ballPhysics prev)
             <= GameConfig.canvasWidth (GameData.config prev)) :
  let ball := GameData.ballPhysics (frame deltaTime now prev) in
  let radius := BallPhysics.radius (GameData.ballPhysics prev) in
  BallPhysics.radius ball = radius
  /\ radius <= BallPhysics.px ball
  /\ BallPhysics.px ball
     <= GameConfig.canvasWidth (GameData.config prev) - radius
  /\ radius <= BallPhysics.py ball
  /\ BallPhysics.py ball
     <= GameConfig.canvasHeight (GameData.config prev) - radius.
Proof.
  cbv zeta.
  assert (Hcheck : checkFloorCollision (ballAfterCeiling deltaTime prev)
                     (GameData.config prev) = false).
  { destruct (checkFloorCollision (ballAfterCeiling deltaTime prev)
                (GameData.config prev)) eqn:Hc; [ | reflexivity ].
    unfold floorCrossing in Hfloor.
    rewrite Hplaying, Htime, Hc in Hfloor. discriminate Hfloor. }
  assert (Hge : (ScoreData.bounceCount (GameData.scoreData prev)
                 >=? LevelConfig.targetBounces (GameData.currentLevel prev))
                = false) by now apply leb_gt.
  assert (Hball : GameData.ballPhysics (frame deltaTime now prev)
                  = ballAfterCeiling deltaTime prev).
  { rewrite frame_eq.
    rewrite (gameLoopUpdate_queue deltaTime now prev Hplaying Htime).
    rewrite Hcheck, Hge, app_nil_r.
    destruct (dispatchAll_scoring now (collisionQueue deltaTime prev)
                (fst (gameLoopUpdate deltaTime now prev))
                (collisionQueue_scoring deltaTime prev))
      as (_ & _ & _ & -> & _).
    now apply gameLoopUpdate_ball. }
  rewrite Hball. clear Hball Hfloor Htime Hplaying Hge Hbelow.
  destruct (ballAfterWall_inside deltaTime prev Hfits) as (Hr & Hx1 & Hx2).
  destruct (ballAfterCeiling_below deltaTime prev) as (Hr3 & Hx & Hy).
  apply checkFloorCollision_false in Hcheck.
  revert Hcheck Hr3 Hx Hy Hr Hx1 Hx2.
  generalize (ballAfterCeiling deltaTime prev) (ballAfterWall deltaTime prev).
  intros after wall Hcheck Hr3 Hx Hy Hr Hx1 Hx2.
  rewrite Hr3, Hr in *. rewrite Hx.
  repeat split; lra.
Qed.
End ReducerProperties.

(** ** Aiming and the trajectory preview *)

Section AimingProperties.
Context {runtime : MathRuntime} {aimRuntime : AimRuntime}.

(** X22. Whatever the drag, and whatever the runtime's arc tangent and
    square root return for it, the aim angle lies between 0 and 180 degrees
    and the aim power between 0 and 100. *)
Theorem aim_is_always_in_range (startX startY endX endY : number) :
  0 <= calculateAimAngle startX startY endX endY
  /\ calculateAimAngle startX startY endX endY <= 180
  /\ 0 <= calculateAimPower startX startY endX endY
  /\ calculateAimPower startX startY endX endY <= 100.
Proof.
  assert (Hangle : 0 <= calculateAimAngle startX startY endX endY
                   /\ calculateAimAngle startX startY endX endY <= 180).
  { unfold calculateAimAngle.
    set (raw := Math_atan2 _ _ * 180 / Math_PI).
    destruct (raw <? 0) eqn:H1;
      [set (a := raw + 360) | set (a := raw)];
      (destruct (a >? 180) eqn:H2; cbn [andb];
       [destruct (a <=? 360) eqn:H3;
        [set (b := 360 - a) | set (b := a)]
       | set (b := a)]);
      (destruct (b >? 180) eqn:H4;
       [set (c := 180) | set (c := b)]);
      destruct (c <? 0) eqn:H5;
      repeat match goal with
             | H : (_ <? _) = true |- _ => apply ltb_lt in H
             | H : (_ <? _) = false |- _ => apply ltb_ge in H
             | H : (_ >? _) = true |- _ => apply gtb_gt in H
             | H : (_ >? _) = false |- _ => apply gtb_le in H
             | H : (_ <=? _) = true |- _ => apply leb_le in H
             | H : (_ <=? _) = false |- _ => apply leb_gt in H
             end;
      subst c; try subst b; try subst a; split; lra. }
  destruct Hangle as [Ha1 Ha2].
  destruct (clamp_bounds
              (Math_floor
                 (Math_sqrt ((endX - startX) * (endX - startX)
                             + (endY - startY) * (endY - startY))
                  / 150 * 100)) 0 100) as [Hp1 Hp2];
    [lra | ].
  repeat split; assumption.
Qed.

Lemma trajectoryLoop_length
    (rounds : nat) (tempBall : BallPhysics.t) (config : GameConfig.t)
    (timeStep : number) :
  (List.length (trajectoryLoop rounds tempBall config timeStep) <= rounds)%nat.
Proof.
  revert tempBall. induction rounds as [| rest IH]; intro tempBall; cbn.
  - lia.
  - destruct (outOfBounds config _); cbn; [lia | ].
    specialize (IH (updateBallPhysics tempBall timeStep)). lia.
Qed.

Lemma trajectoryLoop_inside
    (rounds : nat) (tempBall : BallPhysics.t) (config : GameConfig.t)
    (timeStep : number) :
  let points := trajectoryLoop rounds tempBall config timeStep in
  Forall (fun p => outOfBounds config p = false) (removelast points)
  /\ ((List.length points < rounds)%nat ->
      exists p, last points p = p /\ In p points
                /\ outOfBounds config p = true).
Proof.
  revert tempBall. induction rounds as [| rest IH]; intro tempBall.
  - cbn. split; [constructor | lia].
  - cbn [trajectoryLoop]. cbv zeta.
    set (moved := updateBallPhysics tempBall timeStep).
    set (point := {| BallPosition.x := BallPhysics.px moved;
                     BallPosition.y := BallPhysics.py moved |}).
    destruct (outOfBounds config point) eqn:Hout.
    + cbn. split; [constructor | ]. intros _.
      exists point. repeat split; auto.
    + destruct (IH moved) as [Hinside Hstop]. cbv zeta in Hinside, Hstop.
      destruct (trajectoryLoop rest moved config timeStep) as [| q more]
        eqn:Hloop.
      * cbn. split; [constructor | ]. intro Hlen.
        destruct Hstop as (p & _ & Hin & _); [cbn in *; lia | ].
        destruct Hin.
      * split.
        -- change (removelast (point :: q :: more))
             with (point :: removelast (q :: more)).
           constructor; assumption.
        -- intro Hlen.
           destruct Hstop as (p & Hlast & Hin & Hp); [cbn in *; lia | ].
           exists p. split; [ | split; [now right | exact Hp]].
           change (last (point :: q :: more) p) with (last (q :: more) p).
           exact Hlast.
Qed.

(** The stop test of the preview, read as inequalities. *)
Lemma outOfBounds_false (config : GameConfig.t) (p : BallPosition.t) :
  outOfBounds config p = false <-> withinTestedMargins config p.
Proof.
  unfold outOfBounds, withinTestedMargins.
  rewrite !orb_false_iff, !gtb_le, ltb_ge. tauto.
Qed.

(** X23. The trajectory preview fails exactly on a configuration without
    levels.  Otherwise it returns at most as many points as there are
    naturals below [numPoints] (none for [numPoints <= 0]).  Every point
    but the last is at most 50 pixels below the bottom edge and at most 50
    pixels beyond the left and the right edge of the canvas; nothing bounds
    a point above the canvas, which the stop test does not look at.  When
    the preview is shorter than asked for, its last point is one that left
    those margins. *)
Theorem calculateTrajectoryPoints_spec
    (startX startY angle power : number) (config : GameConfig.t)
    (numPoints timeStep : number) :
  let preview :=
    calculateTrajectoryPoints startX startY angle power config
      numPoints timeStep in
  (preview = None <-> GameConfig.levels config = [])
  /\ (forall points, preview = Some points ->
        (List.length points <= loopCount numPoints)%nat
        /\ (numPoints <= 0 -> points = [])
        /\ Forall (fun p =>
                     BallPosition.y p <= GameConfig.canvasHeight config + 50
                     /\ -50 <= BallPosition.x p
                     /\ BallPosition.x p
                        <= GameConfig.canvasWidth config + 50)
             (removelast points)
        /\ ((List.length points < loopCount numPoints)%nat ->
            exists p, last points p = p /\ In p points
                      /\ (GameConfig.canvasHeight config + 50
                          < BallPosition.y p
                          \/ BallPosition.x p < -50
                          \/ GameConfig.canvasWidth config + 50
                             < BallPosition.x p))).
Proof.
  cbv zeta. unfold calculateTrajectoryPoints.
  destruct (GameConfig.levels config) as [| level0 others].
  - split; [split; reflexivity | discriminate].
  - split; [split; discriminate | ].
    intros points Hsome. injection Hsome as <-.
    split; [apply trajectoryLoop_length | ].
    split.
    + intro Hnone.
      assert (Hzero : loopCount numPoints = O).
      { unfold loopCount.
        assert (Qceiling numPoints <= 0)%Z.
        { change 0%Z with (Qceiling 0). now apply Qceiling_resp_le. }
        lia. }
      now rewrite Hzero.
    + match goal with
      | |- context [trajectoryLoop ?r ?b config timeStep] =>
          destruct (trajectoryLoop_inside r b config timeStep)
            as [Hinside Hstop]
      end.
      cbv zeta in Hinside, Hstop. split.
      * eapply Forall_impl; [ | exact Hinside].
        intros p Hp. apply outOfBounds_false in Hp. exact Hp.
      * intro Hshort. destruct (Hstop Hshort) as (p & Hlast & Hin & Hout).
        exists p. split; [exact Hlast | split; [exact Hin | ]].
        unfold outOfBounds in Hout.
        apply orb_true_iff in Hout. destruct Hout as [Hout | Hout].
        -- apply orb_true_iff in Hout. destruct Hout as [Hout | Hout].
           ++ left. now apply gtb_gt in Hout.
           ++ right. left. now apply ltb_lt in Hout.
        -- right. right. now apply gtb_gt in Hout.
Qed.
End AimingProperties.

(** ** Achievements *)

Lemma Qmax_pick (a b : number) :
  (Qmax a b = a /\ b <= a) \/ (Qmax a b = b /\ a <= b).
Proof.
  unfold Qmax, GenericMinMax.gmax.
  destruct (a ?= b) eqn:E.
  - left. split; [reflexivity | ]. apply Qeq_alt in E. lra.
  - right. split; [reflexivity | ]. apply Qlt_alt in E. lra.
  - left. split; [reflexivity | ]. apply Qgt_alt in E. lra.
Qed.

Lemma Qmax_again (a b : number) : Qmax (Qmax a b) b = Qmax a b.
Proof.
  unfold Qmax, GenericMinMax.gmax.
  destruct (a ?= b) eqn:E; [now rewrite E | | now rewrite E].
  assert (Hb : (b ?= b) = Eq) by (apply Qeq_alt; reflexivity).
  now rewrite Hb.
Qed.

(** The progress an achievement has after a check: its old progress or the
    figure of the game data that its id selects, whichever is larger. *)
Lemma checkAchievement_progress
    (now : number) (gameData : AchievementData.t) (a : Achievement.t) :
  let a' := checkAchievement now gameData a in
  Achievement.progress a' = Achievement.progress a
  \/ exists figure,
       Achievement.progress a' = Qmax (Achievement.progress a) figure.
Proof.
  cbv zeta. unfold checkAchievement, Math_max.
  cbn [Achievement.progress].
  repeat (destruct (String.eqb _ _); [right; eexists; reflexivity | ]).
  now left.
Qed.

Lemma checkAchievement_step
    (now : number) (gameData : AchievementData.t) (a : Achievement.t) :
  achievementStep now a (checkAchievement now gameData a).
Proof.
  unfold achievementStep.
  assert (Hprogress : Achievement.progress a
                      <= Achievement.progress (checkAchievement now gameData a)).
  { destruct (checkAchievement_progress now gameData a) as [-> | [f ->]].
    - apply Qle_refl.
    - apply Q.le_max_l. }
  split; [reflexivity | split; [reflexivity | split; [exact Hprogress | ]]].
  unfold checkAchievement in *. cbn [Achievement.unlocked
    Achievement.unlockedAt Achievement.progress Achievement.target] in *.
  set (progress := if String.eqb _ _ then _ else _) in *.
  destruct (Achievement.unlocked a); cbn [orb negb andb].
  - repeat split; auto; discriminate.
  - destruct (progress >=? Achievement.target a) eqn:Hreached.
    + apply leb_le in Hreached. repeat split; auto; discriminate.
    + apply leb_gt in Hreached. repeat split; try discriminate.
      intros [H | H]; [discriminate | lra].
Qed.

(** X24. A check of the achievements keeps their number, order, ids and
    targets; progress never goes down; an achievement is unlocked after the
    check exactly when it was unlocked before or its progress has reached
    its target, so that unlocking is a one-way latch; and the unlock time is
    written once, at the check that unlocks. *)
Theorem checkAchievements_latch
    (now : number) (achievements : list Achievement.t)
    (gameData : AchievementData.t) :
  Forall2 (achievementStep now) achievements
    (checkAchievements now achievements gameData).
Proof.
  unfold checkAchievements.
  induction achievements as [| a rest IH]; cbn; constructor.
  - apply checkAchievement_step.
  - exact IH.
Qed.

(** X25. Checking the achievements a second time against the same game
    data changes nothing, whenever the second check happens: progress,
    unlocked flags and unlock times stay as the first check left them. *)
Theorem checkAchievements_idempotent
    (now later : number) (achievements : list Achievement.t)
    (gameData : AchievementData.t) :
  checkAchievements later (checkAchievements now achievements gameData)
    gameData
  = checkAchievements now achievements gameData.
Proof.
  unfold checkAchievements. rewrite map_map. apply map_ext. intro a.
  unfold checkAchievement, Math_max.
  cbn [Achievement.id Achievement.progress Achievement.target
       Achievement.unlocked Achievement.unlockedAt Achievement.name
       Achievement.description Achievement.icon].
  set (target := Achievement.target a).
  assert (Hsame :
    forall progress : number,
      {| Achievement.id := Achievement.id a;
         Achievement.name := Achievement.name a;
         Achievement.description := Achievement.description a;
         Achievement.icon := Achievement.icon a;
         Achievement.unlocked :=
           (Achievement.unlocked a || (progress >=? target))
           || (progress >=? target);
         Achievement.unlockedAt :=
           if negb (Achievement.unlocked a || (progress >=? target))
              && (progress >=? target)
           then Some later
           else if negb (Achievement.unlocked a) && (progress >=? target)
                then Some now else Achievement.unlockedAt a;
         Achievement.progress := progress;
         Achievement.target := target |}
      = {| Achievement.id := Achievement.id a;
           Achievement.name := Achievement.name a;
           Achievement.description := Achievement.description a;
           Achievement.icon := Achievement.icon a;
           Achievement.unlocked :=
             Achievement.unlocked a || (progress >=? target);
           Achievement.unlockedAt :=
             if negb (Achievement.unlocked a) && (progress >=? target)
             then Some now else Achievement.unlockedAt a;
           Achievement.progress := progress;
           Achievement.target := target |}).
  { intro progress.
    destruct (Achievement.unlocked a), (progress >=? target); reflexivity. }
  repeat (destruct (String.eqb (Achievement.id a) _);
          [rewrite Qmax_again; apply Hsame | ]).
  apply Hsame.
Qed.

(** ** Obstacles *)

Lemma geb_ge (a b : number) : (a >=? b) = true <-> b <= a.
Proof. apply leb_le. Qed.

Lemma geb_lt (a b : number) : (a >=? b) = false <-> a < b.
Proof. apply leb_gt. Qed.

Lemma loopCount_min_3 (n : number) : (loopCount (Math_min n 3) <= 3)%nat.
Proof.
  unfold loopCount, Math_min.
  assert (H : (Qceiling (Qmin n 3) <= Qceiling 3)%Z)
    by (apply Qceiling_resp_le, Q.le_min_r).
  change (Qceiling 3) with 3%Z in H. lia.
Qed.

Lemma loopCount_min_3_full (n : number) :
  3 <= n -> loopCount (Math_min n 3) = 3%nat.
Proof.
  intro H. unfold loopCount, Math_min.
  assert (E : Qmin n 3 == 3) by (apply Q.min_r; exact H).
  now rewrite (Qceiling_comp _ _ E).
Qed.

Lemma static_block_inside (config : GameConfig.t) (i : nat) (id : string) :
  0 < GameConfig.canvasWidth config ->
  0 < GameConfig.canvasHeight config ->
  (i < 3)%nat ->
  centreInside config
    (createObstacle id ObstacleType.static_block
       ((GameConfig.canvasWidth config / 4) * (inject_Z (Z.of_nat i) + 1))
       (GameConfig.canvasHeight config / 2) 60 20 ObstacleOptions.none).
Proof.
  intros Hw Hh Hi. unfold centreInside. cbn.
  set (w := GameConfig.canvasWidth config) in *.
  set (h := GameConfig.canvasHeight config) in *.
  assert (Hq : w / 4 == w * (1 # 4)) by (unfold Qdiv; reflexivity).
  assert (Hh2 : h / 2 == h * (1 # 2)) by (unfold Qdiv; reflexivity).
  rewrite Hq, Hh2.
  clearbody w h.
  destruct i as [| [| [| i]]]; [ | | | lia ]; cbn; unfold inject_Z;
    repeat split; lra.
Qed.

(** The centres [spawnLevelObstacles] uses beside those of the static
    blocks. *)
Lemma inside_canvas (config : GameConfig.t) (o : Obstacle.t) :
  0 < GameConfig.canvasWidth config ->
  0 < GameConfig.canvasHeight config ->
  (Obstacle.x o == GameConfig.canvasWidth config / 2
   \/ Obstacle.x o == GameConfig.canvasWidth config * 0.2
   \/ Obstacle.x o == GameConfig.canvasWidth config * 0.8) ->
  (Obstacle.y o == GameConfig.canvasHeight config / 3
   \/ Obstacle.y o == GameConfig.canvasHeight config * 0.3
   \/ Obstacle.y o == GameConfig.canvasHeight config * 0.7) ->
  centreInside config o.
Proof.
  unfold centreInside.
  set (w := GameConfig.canvasWidth config).
  set (h := GameConfig.canvasHeight config).
  assert (Hh3 : h / 3 == h * (1 # 3)) by (unfold Qdiv; reflexivity).
  assert (Hw2 : w / 2 == w * (1 # 2)) by (unfold Qdiv; reflexivity).
  clearbody w h. intros Hw Hh Hx Hy. rewrite Hh3 in Hy. rewrite Hw2 in Hx.
  destruct Hx as [-> | [-> | ->]]; destruct Hy as [-> | [-> | ->]];
    repeat split; lra.
Qed.

(** Splits a statement about the spawned list into one goal for each
    obstacle and one for the static blocks. *)
Ltac spawned_pieces :=
  repeat (apply Forall_app; split);
  repeat (apply Forall_cons || apply Forall_nil).

Ltac spawned_static :=
  apply Forall_forall;
  let o := fresh "o" in
  let Ho := fresh "Ho" in
  let i := fresh "i" in
  let Hi := fresh "Hi" in
  intros o Ho; apply in_map_iff in Ho; destruct Ho as (i & <- & Hi);
  apply in_seq in Hi.

(** X26. [spawnLevelObstacles] creates no obstacle below level 2, at most
    seven at any level and exactly seven from level 5 on; on a canvas of
    positive size every obstacle is centred strictly inside the canvas, and
    every breakable brick starts with 2 health and is worth 50 points. *)
Theorem spawnLevelObstacles_spec
    (obstacleId : ObstacleType.t -> nat -> string)
    (level : number) (config : GameConfig.t) :
  let obstacles := spawnLevelObstacles obstacleId level config in
  (List.length obstacles <= 7)%nat
  /\ (level < 2 -> obstacles = [])
  /\ (5 <= level -> List.length obstacles = 7%nat)
  /\ (0 < GameConfig.canvasWidth config ->
      0 < GameConfig.canvasHeight config ->
      Forall (centreInside config) obstacles)
  /\ Forall (fun o => isBrick o ->
                      Obstacle.health o = Some 2
                      /\ Obstacle.maxHealth o = Some 2
                      /\ Obstacle.points o = Some 50) obstacles.
Proof.
  cbv zeta. unfold spawnLevelObstacles.
  pose proof (loopCount_min_3 (level - 1)) as Hcount.
  pose proof (loopCount_min_3_full (level - 1)) as Hfull.
  set (n := loopCount (Math_min (level - 1) 3)) in *.
  set (w := GameConfig.canvasWidth config).
  set (h := GameConfig.canvasHeight config).
  destruct (level >=? 2) eqn:H2; destruct (level >=? 3) eqn:H3;
    destruct (level >=? 4) eqn:H4; destruct (level >=? 5) eqn:H5;
    repeat match goal with
           | H : (_ >=? _) = true |- _ => apply geb_ge in H
           | H : (_ >=? _) = false |- _ => apply geb_lt in H
           end;
    cbn [app map seq].
  all: split;
    [ rewrite ?length_app, ?length_map, ?length_seq; cbn [List.length]; lia | ].
  all: split; [ intro; try reflexivity; lra | ].
  all: split;
    [ intro; try lra; rewrite ?length_app, ?length_map, ?length_seq;
      cbn [List.length]; rewrite Hfull by lra; reflexivity | ].
  all: split; [ intros Hw Hh | ]; spawned_pieces.
  all: try solve [ spawned_static; apply static_block_inside;
                   [exact Hw | exact Hh | lia] ].
  all: try solve [ spawned_static; intro Hb; discriminate Hb ].
  all: try solve [ intro Hb; try discriminate Hb; repeat split; reflexivity ].
  all: apply inside_canvas; try assumption; cbn.
  all: subst w h; unfold inject_Z;
    first [ left; reflexivity | right; left; reflexivity
          | right; right; reflexivity
          | left; ring | right; left; ring | right; right; ring ].
Qed.

Section ObstacleProperties.
Context {runtime : MathRuntime}.

Lemma lastBroken_snoc
    (ball : BallPhysics.t) (obstacles : list Obstacle.t) (o : Obstacle.t) :
  lastBroken ball (obstacles ++ [o])
  = if breaksNow ball o then Some o else lastBroken ball obstacles.
Proof. unfold lastBroken. now rewrite rev_unit. Qed.

(** X27. One pass of [checkObstacleCollisions] over breakable bricks pays
    for one brick at most: however many bricks break in the pass, the state
    after its actions is the state before with the score set to the score
    the hook was rendered with plus the points of the last brick that
    broke; with no brick breaking the state is unchanged.  Nothing else of
    the state changes, and a pass that touches no obstacle dispatches
    nothing. *)
Theorem checkObstacleCollisions_pays_once
    (now : number) (obstacles : list Obstacle.t)
    (gameData state : GameData.t) (ball : BallPhysics.t) :
  let actions := checkObstacleCollisions obstacles gameData ball in
  (Forall (fun o => overlapsObstacle ball o = false) obstacles ->
   actions = [])
  /\ (Forall isBrick obstacles ->
      dispatchAll now actions state
      = match lastBroken ball obstacles with
        | Some brick =>
            GameData.with_scoreData
              (ScoreData.spread (GameData.scoreData state)
                 (onlyScore
                    (ScoreData.score (GameData.scoreData gameData)
                     + orDefault (Obstacle.points brick) 50)))
              state
        | None => state
        end).
Proof.
  cbv zeta. unfold checkObstacleCollisions. split.
  - induction 1 as [| o rest Ho _ IH]; [reflexivity | ].
    cbn [flat_map]. unfold obstacleActions at 1. now rewrite Ho, IH.
  - induction obstacles as [| o rest IH] using rev_ind; [reflexivity | ].
    intro Hbricks. apply Forall_app in Hbricks. destruct Hbricks as [Hrest Ho].
    inversion Ho as [| ? ? Hbrick _]; subst.
    rewrite flat_map_app, dispatchAll_app, lastBroken_snoc, (IH Hrest).
    cbn [flat_map]. rewrite app_nil_r.
    unfold obstacleActions, breaksNow. unfold isBrick in Hbrick.
    rewrite Hbrick.
    destruct (overlapsObstacle ball o); cbn [andb]; [ | reflexivity ].
    destruct (orDefault (Obstacle.health o) 1 - 1 <=? 0);
      destruct (lastBroken ball rest); reflexivity.
Qed.
End ObstacleProperties.

(** ** Closed examples of the reducer properties *)

Lemma pause_resume_round_trip_witness :
  dispatch 3 (frame 1 2 (dispatch 1 headingForWall PAUSE_GAME)) RESUME_GAME
  = headingForWall.
Proof.
  destruct (pause_resume_round_trip 1 2 3 1 headingForWall) as (_ & _ & H).
  - reflexivity.
  - exact H.
Defined.

Lemma lives_stay_in_range_witness :
  reachableVia keepsLives shortGame /\ livesInRange shortGame.
Proof.
  assert (Hreach : reachableVia keepsLives shortGame).
  { unfold shortGame.
    apply reach_dispatch; [ | reflexivity].
    do 2 (apply reach_dispatch; [ | exact I]).
    apply reach_frame.
    do 2 (apply reach_dispatch; [ | exact I]).
    apply reach_initial. }
  split; [exact Hreach | ].
  apply (lives_stay_in_range shortGame). exact Hreach.
Defined.

Lemma level_stays_in_sync_witness :
  reachableVia keepsLevel shortGame
  /\ levelInSync shortGame
  /\ 1 <= ScoreData.level (GameData.scoreData shortGame)
  /\ ScoreData.level (GameData.scoreData shortGame) <= 5.
Proof.
  assert (Hreach : reachableVia keepsLevel shortGame).
  { unfold shortGame.
    apply reach_dispatch; [ | reflexivity].
    do 2 (apply reach_dispatch; [ | exact I]).
    apply reach_frame.
    do 2 (apply reach_dispatch; [ | exact I]).
    apply reach_initial. }
  split; [exact Hreach | ].
  apply (level_stays_in_sync shortGame). exact Hreach.
Defined.

Lemma NEXT_LEVEL_on_default_levels_witness :
  GameData.gameState (dispatch 2000 lastLevelDone NEXT_LEVEL)
  = GameState.GAME_OVER
  /\ ScoreData.highScore
       (GameData.scoreData (dispatch 2000 lastLevelDone NEXT_LEVEL))
     = Math_max 400 900.
Proof.
  destruct (NEXT_LEVEL_on_default_levels 2000 lastLevelDone eq_refl)
    as [_ Hlast].
  destruct Hlast as (Hstate & _ & Hhigh & _); [reflexivity | ].
  split; [exact Hstate | exact Hhigh].
Defined.

Lemma LOSE_LIFE_spec_witness :
  ScoreData.lives (GameData.scoreData (dispatch 0 headingForWall LOSE_LIFE))
  == 3 - 1
  /\ GameData.gameState (dispatch 0 headingForWall LOSE_LIFE)
     = GameState.AIMING.
Proof.
  destruct (LOSE_LIFE_spec 0 headingForWall) as (_ & Hmore & _).
  apply Hmore. reflexivity.
Defined.

Lemma bounce_is_worth_10_to_45_witness :
  comboConsistent createInitialGameData
  /\ 10 <= ScoreData.score
             (GameData.scoreData
                (dispatch 0 createInitialGameData
                   (BALL_BOUNCE Surface.platform (Some 0.5))))
           - ScoreData.score (GameData.scoreData createInitialGameData).
Proof.
  assert (Hcombo : comboConsistent createInitialGameData) by reflexivity.
  split; [exact Hcombo | ].
  exact (proj1 (bounce_is_worth_10_to_45 0 createInitialGameData
                  Surface.platform (Some 0.5) Hcombo)).
Defined.

Lemma frame_ends_at_most_once_witness :
  floorCrossing 1 1000 (fallingPastPlatform 3 0 0 None) = true
  /\ In LOSE_LIFE
       (snd (gameLoopUpdate 1 1000 (fallingPastPlatform 3 0 0 None)))
  /\ ~ In NEXT_LEVEL
         (snd (gameLoopUpdate 1 1000 (fallingPastPlatform 3 0 0 None))).
Proof.
  assert (Hfloor : floorCrossing 1 1000 (fallingPastPlatform 3 0 0 None)
                   = true) by (vm_compute; reflexivity).
  split; [exact Hfloor | ].
  destruct (frame_ends_at_most_once 1 1000 (fallingPastPlatform 3 0 0 None))
    as (_ & _ & Hcross & _).
  exact (Hcross Hfloor).
Defined.

Lemma frame_keeps_ball_inside_witness :
  BallPhysics.radius (GameData.ballPhysics (frame 1 1000 headingForWall))
  = 20
  /\ 20 <= BallPhysics.px (GameData.ballPhysics (frame 1 1000 headingForWall))
  /\ BallPhysics.px (GameData.ballPhysics (frame 1 1000 headingForWall))
     <= 800 - 20.
Proof.
  assert (Hfloor : floorCrossing 1 1000 headingForWall = false)
    by (vm_compute; reflexivity).
  assert (Htime : timedOut 1000 headingForWall = false)
    by (vm_compute; reflexivity).
  assert (Hbelow : ScoreData.bounceCount (GameData.scoreData headingForWall)
                   < LevelConfig.targetBounces
                       (GameData.currentLevel headingForWall))
    by (vm_compute; reflexivity).
  assert (Hfits : 2 * BallPhysics.radius (GameData.ballPhysics headingForWall)
                  <= GameConfig.canvasWidth (GameData.config headingForWall))
    by (vm_compute; discriminate).
  destruct (frame_keeps_ball_inside 1 1000 headingForWall eq_refl
              Htime Hfloor Hbelow Hfits) as (Hr & Hx1 & Hx2 & _).
  split; [exact Hr | split; [exact Hx1 | exact Hx2]].
Defined.

Lemma calculateTrajectoryPoints_spec_witness :
  exists points,
    calculateTrajectoryPoints 400 550 90 50 createDefaultGameConfig 5 0.1
    = Some points
    /\ (List.length points <= 5)%nat
    /\ Forall (withinTestedMargins createDefaultGameConfig)
         (removelast points).
Proof.
  eexists. split; [reflexivity | ].
  destruct (calculateTrajectoryPoints_spec 400 550 90 50
              createDefaultGameConfig 5 0.1) as [_ Hpoints].
  destruct (Hpoints _ eq_refl) as (Hlength & _ & Hinside & _).
  split; [exact Hlength | exact Hinside].
Defined.

Lemma spawnLevelObstacles_spec_witness :
  List.length
    (spawnLevelObstacles (fun _ _ => "obstacle"%string) 5
       createDefaultGameConfig)
  = 7%nat.
Proof.
  destruct (spawnLevelObstacles_spec (fun _ _ => "obstacle"%string) 5
              createDefaultGameConfig) as (_ & _ & Hfull & _).
  apply Hfull. discriminate.
Defined.

Lemma checkObstacleCollisions_pays_once_witness :
  Forall isBrick twoWornBricks
  /\ ScoreData.score
       (GameData.scoreData
          (dispatchAll 0
             (checkObstacleCollisions twoWornBricks headingForWall slowBall)
             headingForWall))
     = 100 + 70.
Proof.
  assert (Hbricks : Forall isBrick twoWornBricks)
    by (repeat constructor).
  split; [exact Hbricks | ].
  destruct (checkObstacleCollisions_pays_once 0 twoWornBricks
              headingForWall headingForWall slowBall) as [_ Hpass].
  rewrite (Hpass Hbricks). reflexivity.
Defined.
